(** * firepwd: recovering the credential key of a browser profile

    A shallow embedding of [firepwd.py] and the properties of its
    natural-language specification.

    The program is a Python script.  Byte strings are lists of
    [Byte.byte]; Python integers are [Z]; a raised exception is the
    [Raise] case of [result]; dictionaries are stdpp's [gmap].  The
    functions of the third-party packages the script imports ([hashlib],
    [hmac], [Crypto.Cipher], [pyasn1], [sqlite3]) are not part of the
    program: the digests, the block ciphers and the DER decoder are the
    fields of the class [Library], everything built on them by the
    script is defined here.  What the script gets from the interpreter
    it runs on, the room its recursion limit leaves and the version,
    are the fields of the class [Interpreter]. *)

From Stdlib Require Import ZArith Lia Bool.
From Stdlib Require Import Strings.Byte Strings.Ascii Strings.String.
From stdpp Require Import base option list sorting gmap strings pretty.

Local Open Scope Z_scope.

(** ** Python values *)

(** The exceptions the script can meet.  [AssertionError] and
    [RuntimeError] carry the message of the source; [RecursionError] is
    what the interpreter raises when a call finds no frame left under
    its recursion limit; [OutOfFuel] is not a Python exception: it is
    what a fuelled loop of the model returns when its fuel is spent, and
    the totality lemmas show it never gets out. *)
Inductive exn : Type :=
  | IndexError
  | KeyError
  | TypeError
  | ValueError
  | AttributeError
  | OSError
  | StructError
  | PyAsn1Error
  | AssertionError (msg : string)
  | RuntimeError (msg : string)
  | RecursionError
  | OutOfFuel.

Inductive result (A : Type) : Type :=
  | Ok (a : A)
  | Raise (e : exn).
Arguments Ok {A} a.
Arguments Raise {A} e.

Definition bind {A B} (m : result A) (f : A -> result B) : result B :=
  match m with
  | Ok a => f a
  | Raise e => Raise e
  end.

Definition fmap_result {A B} (f : A -> B) (m : result A) : result B :=
  bind m (fun a => Ok (f a)).

Declare Scope result_scope.
Delimit Scope result_scope with result.
Bind Scope result_scope with result.
Notation "x <- m ; k" := (bind m (fun x => k))
  (at level 20, m at level 100, k at level 200, only parsing) : result_scope.
Notation "' p <- m ; k" := (bind m (fun p => k))
  (at level 20, p pattern, m at level 100, k at level 200, only parsing) : result_scope.
Notation "m >>= f" := (bind m f)
  (at level 50, left associativity) : result_scope.
Notation "f <$$> m" := (fmap_result f m)
  (at level 61, left associativity) : result_scope.
Local Open Scope result_scope.

Definition is_Ok {A} (r : result A) : Prop := exists a, r = Ok a.

Definition is_Ok_b {A} (r : result A) : bool :=
  match r with
  | Ok _ => true
  | Raise _ => false
  end.

Abbreviation bytes := (list byte).

#[global] Instance byte_eq_decision : EqDecision byte := Byte.byte_eq_dec.
#[global] Instance exn_eq_decision : EqDecision exn.
Proof. solve_decision. Defined.

#[global] Instance byte_countable : Countable byte :=
  inj_countable Byte.to_N Byte.of_N Byte.of_to_N.

Definition byte_to_Z (b : byte) : Z := Z.of_N (Byte.to_N b).

(** [len(d)] *)
Definition len {A} (d : list A) : Z := Z.of_nat (length d).

(** [d[i]] on a byte string: an [int], or [IndexError]. *)
Definition getitem (d : bytes) (i : Z) : result Z :=
  let j := if i <? 0 then i + len d else i in
  if j <? 0 then Raise IndexError
  else match d !! Z.to_nat j with
       | Some b => Ok (byte_to_Z b)
       | None => Raise IndexError
       end.

(** A slice bound, adjusted the way Python adjusts it for step 1. *)
Definition clamp_index (n i : Z) : Z :=
  if i <? 0 then Z.max 0 (i + n) else Z.min i n.

(** [d[lo:hi]], [d[lo:]] and [d[:hi]]. *)
Definition slice {A} (d : list A) (lo hi : Z) : list A :=
  let a := clamp_index (len d) lo in
  let b := clamp_index (len d) hi in
  take (Z.to_nat (b - a)) (drop (Z.to_nat a) d).

Definition slice_from {A} (d : list A) (lo : Z) : list A :=
  drop (Z.to_nat (clamp_index (len d) lo)) d.

Definition slice_to {A} (d : list A) (hi : Z) : list A :=
  take (Z.to_nat (clamp_index (len d) hi)) d.

(** [b * n] on byte strings: empty when [n <= 0]. *)
Definition bytes_mul (b : bytes) (n : Z) : bytes :=
  mjoin (replicate (Z.to_nat n) b).

(** A byte-string literal written as text, [b'...']. *)
Definition b_ (s : string) : bytes := String.list_byte_of_string s.

(** ** [struct.unpack] *)

(** [unpack('<H', s)[0]]: [s] must hold exactly two bytes. *)
Definition unpack_H_le (s : bytes) : result Z :=
  match s with
  | [b0; b1] => Ok (byte_to_Z b0 + 256 * byte_to_Z b1)
  | _ => Raise StructError
  end.

(** [unpack('>L', s)[0]]: [s] must hold exactly four bytes. *)
Definition unpack_L_be (s : bytes) : result Z :=
  match s with
  | [b0; b1; b2; b3] =>
      Ok (((byte_to_Z b0 * 256 + byte_to_Z b1) * 256 + byte_to_Z b2) * 256
          + byte_to_Z b3)
  | _ => Raise StructError
  end.

Definition getShortLE (d : bytes) (a : Z) : result Z :=
  unpack_H_le (slice d a (a + 2)).

Definition getLongBE (d : bytes) (a : Z) : result Z :=
  unpack_L_be (slice d a (a + 4)).

(** ** [binascii.hexlify] and printing *)

Definition hex_digit (n : N) : ascii :=
  Ascii.ascii_of_N (if (n <? 10)%N then 48 + n else 87 + n)%N.

Definition hexlify (d : bytes) : string :=
  string_of_list_ascii
    (flat_map (fun b => [hex_digit (Byte.to_N b / 16); hex_digit (Byte.to_N b mod 16)]) d).

Definition byte_of_N (n : N) : byte := default x00 (Byte.of_N n).

Definition hex_value (c : ascii) : option N :=
  let n := Ascii.N_of_ascii c in
  if (48 <=? n)%N && (n <=? 57)%N then Some (n - 48)%N
  else if (97 <=? n)%N && (n <=? 102)%N then Some (n - 87)%N
  else if (65 <=? n)%N && (n <=? 70)%N then Some (n - 55)%N
  else None.

(** [binascii.unhexlify]; [None] is [binascii.Error]. *)
Fixpoint unhexlify (s : string) : option bytes :=
  match s with
  | EmptyString => Some []
  | String a (String b r) =>
      match hex_value a, hex_value b, unhexlify r with
      | Some hi, Some lo, Some rest => Some (byte_of_N (16 * hi + lo) :: rest)
      | _, _, _ => None
      end
  | String _ EmptyString => None
  end.

(** A byte string written in hexadecimal. *)
Definition hex (s : string) : bytes := default [] (unhexlify s).

(** The hexadecimal digits of [n], the first one first; none for 0. *)
Fixpoint hex_digits (fuel : nat) (n : N) (acc : list ascii) : list ascii :=
  match fuel with
  | O => acc
  | S fuel' =>
      if (n =? 0)%N then acc
      else hex_digits fuel' (n / 16)%N (hex_digit (n mod 16) :: acc)
  end.

(** ['%0[width]x' % n]: the sign, then zeros up to [width] characters in
    all, then the digits. *)
Definition format_0x (width : nat) (n : Z) : string :=
  let m := Z.to_N (Z.abs n) in
  let digits := if (m =? 0)%N then ["0"%char]
                else hex_digits (N.to_nat (N.size m)) m [] in
  let sign := if n <? 0 then ["-"%char] else [] in
  string_of_list_ascii
    (sign ++ replicate (width - length sign - length digits) "0"%char ++ digits).

(** What [print] shows for a byte string: its [repr]. *)
Definition repr_bytes (hex : string) : string := ("b'" ++ hex ++ "'")%string.

Definition nl : string := String (Ascii.ascii_of_nat 10) EmptyString.

(** ['  ' * rl] *)
Definition indent (rl : Z) : string :=
  fold_right String.append EmptyString (replicate (Z.to_nat rl) "  "%string).

(** ** The interpreter *)

(** What the script depends on in the interpreter that runs it.
    - [minor_version] is the [n] of Python 3.[n];
    - [recursion_room] is the number of frames that the recursion limit
      ([sys.getrecursionlimit()], which the script never sets) leaves
      under the frame of a function called by [getKey], the function
      from which every call of [printASN1] comes: directly, or through
      [extractSecretKey] and so one frame further down. *)
Class Interpreter : Type := {
  minor_version : Z;
  recursion_room : nat
}.

(** The interpreter of the examples: Python 3.11, with room for 996
    nested calls. *)
Definition python311 : Interpreter :=
  {| minor_version := 11; recursion_room := 996 |}.

(** An older interpreter at a place where little room is left:
    Python 3.7, with room for 20 nested calls. *)
Definition python37 : Interpreter :=
  {| minor_version := 7; recursion_room := 20 |}.

(** ** The ASN.1 display function *)

Definition asn1Types : gmap Z string :=
  list_to_map
    [(0x30, "SEQUENCE"%string); (4, "OCTETSTRING"%string);
     (6, "OBJECTIDENTIFIER"%string); (2, "INTEGER"%string); (5, "NULL"%string)].

Definition oidValues : gmap string string :=
  list_to_map
    [("2a864886f70d010c050103", "1.2.840.113549.1.12.5.1.3 pbeWithSha1AndTripleDES-CBC");
     ("2a864886f70d0307", "1.2.840.113549.3.7 des-ede3-cbc");
     ("2a864886f70d010101", "1.2.840.113549.1.1.1 pkcs-1");
     ("2a864886f70d01050d", "1.2.840.113549.1.5.13 pkcs5 pbes2");
     ("2a864886f70d01050c", "1.2.840.113549.1.5.12 pkcs5 PBKDF2");
     ("2a864886f70d0209", "1.2.840.113549.2.9 hmacWithSHA256");
     ("60864801650304012a", "2.16.840.1.101.3.4.1.42 aes256-CBC")]%string.

(** [asn1Types[type]] *)
Definition asn1Types_get (type : Z) : result string :=
  match asn1Types !! type with
  | Some s => Ok s
  | None => Raise KeyError
  end.

(** The [while seqLen > 0] loop of [printASN1], over the function [rec]
    that decodes one child.  [n] bounds the number of rounds; a child
    that returns [None] makes [seqLen - len2] a [TypeError]. *)
Fixpoint printASN1_children (rec : bytes -> Z -> result (option Z * string))
    (n : nat) (d : bytes) (skip seqLen readLen : Z) (out : string)
    : result string :=
  if seqLen >? 0 then
    match n with
    | O => Raise OutOfFuel
    | S n' =>
        '(len2, o) <- rec (slice_from d (2 + skip + readLen)) seqLen;
        match len2 with
        | None => Raise TypeError
        | Some len2 =>
            printASN1_children rec n' d skip (seqLen - len2) (readLen + len2)
              (out ++ o)%string
        end
    end
  else Ok out.

(** [printASN1(d, l, rl)], called where the recursion limit leaves
    [frames] frames: the value returned ([None] when the function falls
    off its last branch) and the text printed.  The call takes one
    frame, each call it makes runs with one frame less, and a call that
    finds no frame raises [RecursionError].  The text printed before an
    exception is not kept. *)
Fixpoint printASN1_fuel (frames : nat) (d : bytes) (l rl : Z)
    : result (option Z * string) :=
  match frames with
  | O => Raise RecursionError
  | S frames' =>
      type <- getitem d 0;
      length0 <- getitem d 1;
      '(length, skip) <-
        (if Z.land length0 0x80 >? 0
         then length <- getitem d 2; Ok (length, 1)
         else Ok (length0, 0));
      name <- asn1Types_get type;
      let out := (indent rl ++ " " ++ name ++ " ")%string in
      if type =? 0x30 then
        out' <- printASN1_children (fun d' l' => printASN1_fuel frames' d' l' (rl + 1))
                 (Z.to_nat length) d skip length 0 (out ++ "{" ++ nl)%string;
        Ok (Some (length + 2), (out' ++ indent rl ++ " }" ++ nl)%string)
      else if type =? 6 then
        let oidVal := hexlify (slice d 2 (2 + length)) in
        match oidValues !! oidVal with
        | Some v => Ok (Some (length + 2), (out ++ v ++ nl)%string)
        | None =>
            Ok (Some (length + 2), (out ++ "oid?  " ++ repr_bytes oidVal ++ nl)%string)
        end
      else if type =? 4 then
        Ok (Some (length + 2),
            (out ++ repr_bytes (hexlify (slice d 2 (2 + length))) ++ nl)%string)
      else if type =? 5 then
        Ok (Some (length + 2), (out ++ "0" ++ nl)%string)
      else if type =? 2 then
        Ok (Some (length + 2),
            (out ++ repr_bytes (hexlify (slice d 2 (2 + length))) ++ nl)%string)
      else if length =? l - 2 then
        '(_, o) <- printASN1_fuel frames' (slice_from d 2) length (rl + 1);
        Ok (Some length, (out ++ o)%string)
      else Ok (None, out)
  end.

(** [printASN1(d, l, rl)] called by [getKey]: the call has its frame,
    and [recursion_room] frames are left for the calls nested in it. *)
Definition printASN1 {I : Interpreter} (d : bytes) (l rl : Z)
    : result (option Z * string) :=
  printASN1_fuel (S recursion_room) d l rl.

(** ** Reading a file *)

(** An open binary file: its contents do not change, the handle has a
    position, and every [read] is logged as (position, bytes asked). *)
Record handle : Type := Handle { pos : Z; reads : list (Z * Z) }.

Definition io (A : Type) : Type := handle -> result A * handle.

Definition io_ret {A} (a : A) : io A := fun h => (Ok a, h).

Definition io_bind {A B} (m : io A) (f : A -> io B) : io B := fun h =>
  match m h with
  | (Ok a, h') => f a h'
  | (Raise e, h') => (Raise e, h')
  end.

(** A computation that does not touch the file. *)
Definition io_lift {A} (r : result A) : io A := fun h => (r, h).

Declare Scope io_scope.
Delimit Scope io_scope with io.
Notation "x <- m ; k" := (io_bind m (fun x => k))
  (at level 20, m at level 100, k at level 200, only parsing) : io_scope.

(** [open(name, 'rb')] *)
Definition open_rb : handle := Handle 0 [].

(** [f.seek(p)] *)
Definition f_seek (p : Z) : io unit := fun h =>
  if p <? 0 then (Raise OSError, h)
  else (Ok tt, Handle p (reads h)).

(** [f.read(n)] on a file holding [content]: the bytes from the position
    on, at most [n] of them (all of them when [n] is negative).  The
    buffer of [n] bytes that the interpreter sets up for the read is
    taken as granted: a [MemoryError] is outside the model. *)
Definition f_read (content : bytes) (n : Z) : io bytes := fun h =>
  let data :=
    if n <? 0 then slice_from content (Z.min (pos h) (len content))
    else slice content (Z.min (pos h) (len content))
                       (Z.min (pos h + n) (len content)) in
  (Ok data, Handle (pos h + len data) (reads h ++ [(pos h, n)])).

(** ** The legacy page store *)

(** The inner [while nval != val] loop of [readBsddb]: it walks the
    offset table of one page.  The state is
    [(i, nval, val, keys, readkeys, offsetVals)]. *)
Fixpoint readBsddb_offsets (n : nat) (offsets : bytes) (pagesize page : Z)
    (i nval val keys readkeys : Z) (offsetVals : list Z)
    : result (Z * Z * list Z) :=
  if bool_decide (nval ≠ val) then
    match n with
    | O => Raise OutOfFuel
    | S n' =>
        let keys := keys + 1 in
        key <- getShortLE offsets (2 + i);
        val <- getShortLE offsets (4 + i);
        nval <- getShortLE offsets (8 + i);
        let offsetVals := offsetVals ++ [key + pagesize * page] in
        let offsetVals := offsetVals ++ [val + pagesize * page] in
        readBsddb_offsets n' offsets pagesize page (i + 4) nval val keys
          (readkeys + 1) offsetVals
    end
  else Ok (keys, readkeys, offsetVals).

(** [valKey[i]] *)
Definition list_getitem {A} (l : list A) (i : Z) : result A :=
  let j := if i <? 0 then i + len l else i in
  if j <? 0 then Raise IndexError
  else match l !! Z.to_nat j with
       | Some x => Ok x
       | None => Raise IndexError
       end.

(** The loop [for i in range(keys * 2)] that reads the records of one
    page, over the list of the values of [i]. *)
Fixpoint readBsddb_records (content : bytes) (valKey : list Z) (idx : list Z)
    (db1 : list bytes) : io (list bytes) :=
  match idx with
  | [] => io_ret db1
  | i :: idx' =>
      (a <- io_lift (list_getitem valKey i) ;
       _ <- f_seek a ;
       b <- io_lift (list_getitem valKey (i + 1)) ;
       data <- f_read content (b - a) ;
       readBsddb_records content valKey idx' (db1 ++ [data]))%io
  end.

(** [range(n)] *)
Definition range (n : Z) : list Z := Z.of_nat <$> seq 0 (Z.to_nat n).

(** The outer [while readkeys < nkeys] loop: one round per page. *)
Fixpoint readBsddb_pages (n : nat) (content : bytes) (pagesize nkeys : Z)
    (readkeys page : Z) (db1 : list bytes) : io (list bytes) :=
  if readkeys <? nkeys then
    match n with
    | O => io_lift (Raise OutOfFuel)
    | S n' =>
        (_ <- f_seek (pagesize * page) ;
         offsets <- f_read content ((nkeys + 1) * 4 + 2) ;
         r <- io_lift (readBsddb_offsets (S (Z.to_nat nkeys)) offsets pagesize page
                         0 0 1 0 readkeys []) ;
         let '(keys, readkeys, offsetVals) := r in
         let offsetVals := offsetVals ++ [pagesize * (page + 1)] in
         let valKey := merge_sort Z.le offsetVals in
         db1 <- readBsddb_records content valKey (range (keys * 2)) db1 ;
         readBsddb_pages n' content pagesize nkeys readkeys (page + 1) db1)%io
    end
  else io_ret db1.

(** The final loop [for i in range(0, len(db1), 2): db[db1[i + 1]] = db1[i]]. *)
Fixpoint readBsddb_dict (db1 : list bytes) (db : gmap bytes bytes)
    : result (gmap bytes bytes) :=
  match db1 with
  | [] => Ok db
  | [_] => Raise IndexError
  | v :: k :: rest => readBsddb_dict rest (<[k := v]> db)
  end.

(** ['bad magic number 0x%05x (expected 0x61561)' % magic] *)
Definition bad_magic (magic : Z) : string :=
  ("bad magic number 0x" ++ format_0x 5 magic ++ " (expected 0x61561)")%string.

(** ['bad version %d (expected 2 for BSD DB 1.85)' % version] *)
Definition bad_version (version : Z) : string :=
  ("bad version " ++ pretty version ++ " (expected 2 for BSD DB 1.85)")%string.

(** The body of [with open(name, 'rb') as f]. *)
Definition readBsddb_file (content : bytes) : io (list bytes) :=
  (header <- f_read content (4 * 15) ;
   magic <- io_lift (getLongBE header 0) ;
   if negb (magic =? 0x61561) then io_lift (Raise (AssertionError (bad_magic magic))) else
   version <- io_lift (getLongBE header 4) ;
   if negb (version =? 2) then io_lift (Raise (AssertionError (bad_version version))) else
   pagesize <- io_lift (getLongBE header 12) ;
   nkeys <- io_lift (getLongBE header 0x38) ;
   readBsddb_pages (Z.to_nat nkeys) content pagesize nkeys 0 1 [])%io.

(** [readBsddb(name)], for a file [name] that holds [content]: the
    dictionary, and the handle as the function leaves it. *)
Definition readBsddb (content : bytes) : result (gmap bytes bytes) * handle :=
  match readBsddb_file content open_rb with
  | (Ok db1, h) => (readBsddb_dict db1 ∅, h)
  | (Raise e, h) => (Raise e, h)
  end.

(** ** ASN.1 values, as [pyasn1] hands them to the script *)

(** The five node kinds the key stores use, and [PyInt]: the plain [int]
    that indexing an [OctetString] or an [ObjectIdentifier] yields.  An
    object identifier is its tuple of arcs. *)
#[local] Unset Elimination Schemes.
Inductive asn1 : Type :=
  | Sequence (items : list asn1)
  | OctetString (octets : bytes)
  | ObjectIdentifier (arcs : list Z)
  | Integer (value : Z)
  | Null
  | PyInt (value : Z).
#[local] Set Elimination Schemes.

(** [x[i]] *)
Definition asn1_getitem (x : asn1) (i : Z) : result asn1 :=
  match x with
  | Sequence items => list_getitem items i
  | OctetString octets => PyInt <$$> getitem octets i
  | ObjectIdentifier arcs => PyInt <$$> list_getitem arcs i
  | Null => Raise IndexError
  | Integer _ | PyInt _ => Raise TypeError
  end.

(** [x[i0][i1]...[ik]], evaluated from the left. *)
Fixpoint asn1_path (x : asn1) (p : list Z) : result asn1 :=
  match p with
  | [] => Ok x
  | i :: p' => y <- asn1_getitem x i; asn1_path y p'
  end.
Notation "x @ p" := (asn1_path x p) (at level 20, no associativity).

(** [x.asOctets()] *)
Definition asOctets (x : asn1) : result bytes :=
  match x with
  | OctetString octets => Ok octets
  | Null => Ok []
  | _ => Raise AttributeError
  end.

(** The dotted-decimal text of an object identifier. *)
Definition dotted (arcs : list Z) : string :=
  String.concat "." (pretty <$> arcs).

(** [str(x)].  For a [Sequence], [pyasn1] returns a multi-line listing
    that starts with the class name; only that start is kept, which is
    enough to tell it from a dotted-decimal text. *)
Definition py_str (x : asn1) : string :=
  match x with
  | ObjectIdentifier arcs => dotted arcs
  | Integer z | PyInt z => pretty z
  | OctetString octets => String.string_of_list_byte octets
  | Null => ""
  | Sequence _ => "Sequence:"
  end.

(** The number that [x] is where the packages compute with it
    ([long_to_bytes] compares its argument with 0 first): an [Integer]
    is its value, the other nodes are no numbers. *)
Definition asn1_number (x : asn1) : result Z :=
  match x with
  | Integer z | PyInt z => Ok z
  | _ => Raise TypeError
  end.

Definition is_py_space (b : byte) : bool :=
  bool_decide (Byte.to_N b ∈ [32; 9; 10; 11; 12; 13]%N).

Definition digit_value (b : byte) : option Z :=
  let n := Z.of_N (Byte.to_N b) in
  if (48 <=? n) && (n <=? 57) then Some (n - 48) else None.

Fixpoint skip_py_space (s : bytes) : bytes :=
  match s with
  | b :: s' => if is_py_space b then skip_py_space s' else s
  | [] => []
  end.

(** The digits of a decimal literal after a first digit, [acc] being
    the value read so far: one underscore may stand between two
    digits. *)
Fixpoint int_digits (s : bytes) (acc : Z) : result (Z * bytes) :=
  match s with
  | b :: s' =>
      match digit_value b with
      | Some v => int_digits s' (10 * acc + v)
      | None =>
          if bool_decide (b = "_"%byte) then
            match s' with
            | c :: s'' =>
                match digit_value c with
                | Some v => int_digits s'' (10 * acc + v)
                | None => Raise ValueError
                end
            | [] => Raise ValueError
            end
          else Ok (acc, s)
      end
  | [] => Ok (acc, [])
  end.

(** [int(s)] on a byte string: a decimal literal with an optional sign,
    white space allowed before and after it, or [ValueError].  The bound
    that recent interpreters put on the number of digits is left out. *)
Definition int_of_bytes (s : bytes) : result Z :=
  let signed (negative : bool) (s : bytes) : result Z :=
    match s with
    | b :: s' =>
        match digit_value b with
        | Some v =>
            '(n, rest) <- int_digits s' v;
            match skip_py_space rest with
            | [] => Ok (if negative then - n else n)
            | _ :: _ => Raise ValueError
            end
        | None => Raise ValueError
        end
    | [] => Raise ValueError
    end in
  match skip_py_space s with
  | b :: s' =>
      if bool_decide (b = "-"%byte) then signed true s'
      else if bool_decide (b = "+"%byte) then signed false s'
      else signed false (b :: s')
  | [] => Raise ValueError
  end.

(** [int(x)]: an [OctetString] has the [__int__] of its bytes, and
    [Null] is an [OctetString] without bytes. *)
Definition py_int (x : asn1) : result Z :=
  match x with
  | Integer z | PyInt z => Ok z
  | OctetString octets => int_of_bytes octets
  | Null => Raise ValueError
  | ObjectIdentifier _ | Sequence _ => Raise TypeError
  end.

Fixpoint long_to_bytes_go (fuel : nat) (n : N) (acc : bytes) : bytes :=
  match fuel with
  | O => acc
  | S fuel' =>
      if (n =? 0)%N then acc
      else long_to_bytes_go fuel' (n / 256)%N (byte_of_N (n mod 256)%N :: acc)
  end.

(** [Crypto.Util.number.long_to_bytes(n)]: the big-endian bytes of [n]
    without leading zero bytes; one zero byte for 0. *)
Definition long_to_bytes (n : Z) : result bytes :=
  if n <? 0 then Raise ValueError
  else if n =? 0 then Ok [x00]
  else Ok (long_to_bytes_go (S (N.to_nat (N.log2 (Z.to_N n)))) (Z.to_N n) []).

(** ** Cipher block chaining *)

Definition byte_xor (a b : byte) : byte :=
  let '(a0, (a1, (a2, (a3, (a4, (a5, (a6, a7))))))) := Byte.to_bits a in
  let '(b0, (b1, (b2, (b3, (b4, (b5, (b6, b7))))))) := Byte.to_bits b in
  Byte.of_bits (xorb a0 b0, (xorb a1 b1, (xorb a2 b2, (xorb a3 b3,
               (xorb a4 b4, (xorb a5 b5, (xorb a6 b6, xorb a7 b7))))))).

Definition strxor (a b : bytes) : bytes := zip_with byte_xor a b.

(** CBC decryption of [n] blocks of [bs] bytes with the block function
    [D]; [prev] is the IV, then the previous ciphertext block. *)
Fixpoint cbc_decrypt (D : bytes -> bytes) (bs n : nat) (prev data : bytes) : bytes :=
  match n with
  | O => []
  | S n' =>
      let c := take bs data in
      strxor (D c) prev ++ cbc_decrypt D bs n' c (drop bs data)
  end.

Fixpoint cbc_encrypt (E : bytes -> bytes) (bs n : nat) (prev data : bytes) : bytes :=
  match n with
  | O => []
  | S n' =>
      let c := E (strxor (take bs data) prev) in
      c ++ cbc_encrypt E bs n' c (drop bs data)
  end.

(** ** The imported packages *)

(** What the script imports and does not define.
    - [sha1 m] is [hashlib.sha1(m).digest()];
    - [hmac_sha1 k m] is [hmac.new(k, m, sha1).digest()];
    - [pbkdf2_hmac_sha256 p s c n] is
      [hashlib.pbkdf2_hmac('sha256', p, s, c, dklen=n)];
    - [DES3_key_ok k] tells whether [DES3.new] accepts the key [k]
      (16 or 24 bytes, not degenerate); [DES3_E k] and [DES3_D k] are
      triple DES on one block of 8 bytes;
    - [AES_D k] is the decryption of AES on one block of 16 bytes;
    - [der_decode s] is [pyasn1.codec.der.decoder.decode(s)]: the value
      and the bytes left over. *)
Class Library : Type := {
  sha1 : bytes -> bytes;
  hmac_sha1 : bytes -> bytes -> bytes;
  pbkdf2_hmac_sha256 : bytes -> bytes -> Z -> Z -> result bytes;
  DES3_key_ok : bytes -> bool;
  DES3_E : bytes -> bytes -> bytes;
  DES3_D : bytes -> bytes -> bytes;
  AES_D : bytes -> bytes -> bytes;
  der_decode : bytes -> result (asn1 * bytes)
}.

(** What the proofs use of the packages: the digests have 20 bytes, the
    block functions keep the block length and decryption undoes
    encryption. *)
Class LibraryLaws (L : Library) : Prop := {
  sha1_length : forall m, length (sha1 m) = 20%nat;
  hmac_sha1_length : forall k m, length (hmac_sha1 k m) = 20%nat;
  DES3_E_length : forall k b, length b = 8%nat -> length (DES3_E k b) = 8%nat;
  DES3_D_length : forall k b, length b = 8%nat -> length (DES3_D k b) = 8%nat;
  DES3_D_E : forall k b, DES3_key_ok k = true -> length b = 8%nat ->
    DES3_D k (DES3_E k b) = b;
  AES_D_length : forall k b, length b = 16%nat -> length (AES_D k b) = 16%nat
}.

Section Script.
Context {L : Library} {I : Interpreter}.

(** [DES3.new(key, DES3.MODE_CBC, iv).decrypt(data)] *)
Definition DES3_CBC_decrypt (key iv data : bytes) : result bytes :=
  if negb (DES3_key_ok key) then Raise ValueError
  else if negb (len iv =? 8) then Raise ValueError
  else if negb (len data mod 8 =? 0) then Raise ValueError
  else Ok (cbc_decrypt (DES3_D key) 8 (length data / 8) iv data).

(** [DES3.new(key, DES3.MODE_CBC, iv).encrypt(data)] *)
Definition DES3_CBC_encrypt (key iv data : bytes) : result bytes :=
  if negb (DES3_key_ok key) then Raise ValueError
  else if negb (len iv =? 8) then Raise ValueError
  else if negb (len data mod 8 =? 0) then Raise ValueError
  else Ok (cbc_encrypt (DES3_E key) 8 (length data / 8) iv data).

(** [AES.new(key, AES.MODE_CBC, iv).decrypt(data)] *)
Definition AES_CBC_decrypt (key iv data : bytes) : result bytes :=
  if negb (bool_decide (len key ∈ [16; 24; 32])) then Raise ValueError
  else if negb (len iv =? 16) then Raise ValueError
  else if negb (len data mod 16 =? 0) then Raise ValueError
  else Ok (cbc_decrypt (AES_D key) 16 (length data / 16) iv data).

(** ** Key derivation *)

(** The key and the IV that [decryptMoz3DES] computes before it
    decrypts: its local variables [key] and [iv]. *)
Definition decryptMoz3DES_key_iv (globalSalt masterPassword entrySalt : bytes)
    : bytes * bytes :=
  let hp := sha1 (globalSalt ++ masterPassword) in
  let pes := entrySalt ++ bytes_mul [x00] (20 - len entrySalt) in
  let chp := sha1 (hp ++ entrySalt) in
  let k1 := hmac_sha1 chp (pes ++ entrySalt) in
  let tk := hmac_sha1 chp pes in
  let k2 := hmac_sha1 chp (tk ++ entrySalt) in
  let k := k1 ++ k2 in
  let iv := slice_from k (-8) in
  let key := slice_to k 24 in
  (key, iv).

Definition decryptMoz3DES (globalSalt masterPassword entrySalt encryptedData : bytes)
    : result bytes :=
  let '(key, iv) := decryptMoz3DES_key_iv globalSalt masterPassword entrySalt in
  DES3_CBC_decrypt key iv encryptedData.

Definition oid_pbeWithSha1AndTripleDES_CBC : string := "1.2.840.113549.1.12.5.1.3".
Definition oid_pbes2 : string := "1.2.840.113549.1.5.13".
Definition oid_PBKDF2 : string := "1.2.840.113549.1.5.12".
Definition oid_hmacWithSHA256 : string := "1.2.840.113549.2.9".
Definition oid_aes256_CBC : string := "2.16.840.1.101.3.4.1.42".

(** [assert c] *)
Definition assert (c : bool) : result unit :=
  if c then Ok tt else Raise (AssertionError "").

(** [decryptPBE(decodedItem, masterPassword, globalSalt)].  The argument
    is what [decoder.decode] returned, a pair; [None] is what Python
    returns when the function ends without a [return]. *)
Definition decryptPBE (decodedItem : asn1 * bytes) (masterPassword globalSalt : bytes)
    : result (option (bytes * string)) :=
  pbeAlgo <- py_str <$$> decodedItem.1 @ [0; 0];
  if bool_decide (pbeAlgo = oid_pbeWithSha1AndTripleDES_CBC) then
    entrySalt <- decodedItem.1 @ [0; 1; 0] >>= asOctets;
    cipherT <- decodedItem.1 @ [1] >>= asOctets;
    key <- decryptMoz3DES globalSalt masterPassword entrySalt cipherT;
    Ok (Some (slice_to key 24, pbeAlgo))
  else if bool_decide (pbeAlgo = oid_pbes2) then
    a <- py_str <$$> decodedItem.1 @ [0; 1; 0; 0];
    _ <- assert (bool_decide (a = oid_PBKDF2));
    a <- py_str <$$> decodedItem.1 @ [0; 1; 0; 1; 3; 0];
    _ <- assert (bool_decide (a = oid_hmacWithSHA256));
    a <- py_str <$$> decodedItem.1 @ [0; 1; 1; 0];
    _ <- assert (bool_decide (a = oid_aes256_CBC));
    entrySalt <- decodedItem.1 @ [0; 1; 0; 1; 0] >>= asOctets;
    iterationCount <- decodedItem.1 @ [0; 1; 0; 1; 1] >>= py_int;
    keyLength <- decodedItem.1 @ [0; 1; 0; 1; 2] >>= py_int;
    _ <- assert (keyLength =? 32);
    let k := sha1 (globalSalt ++ masterPassword) in
    key <- pbkdf2_hmac_sha256 k entrySalt iterationCount keyLength;
    ivTail <- decodedItem.1 @ [0; 1; 1; 1] >>= asOctets;
    let iv := [x04; x0e] ++ ivTail in
    cipherT <- decodedItem.1 @ [1] >>= asOctets;
    clearText <- AES_CBC_decrypt key iv cipherT;
    Ok (Some (clearText, pbeAlgo))
  else Ok None.

(** ** Master-key extraction *)

(** [unhexlify('f8000000000000000000000000000001')] *)
Definition CKA_ID : bytes :=
  [xf8; x00; x00; x00; x00; x00; x00; x00; x00; x00; x00; x00; x00; x00; x00; x01].

Definition password_check : bytes := b_ "password-check" ++ [x02; x02].

Definition password_check_error : string :=
  "password check error, Master Password is certainly used, please provide it with -p option".

(** [keyData[k]] *)
Definition dict_getitem (keyData : gmap bytes bytes) (k : bytes) : result bytes :=
  match keyData !! k with
  | Some v => Ok v
  | None => Raise KeyError
  end.

(** [extractSecretKey(masterPassword, keyData)], called by [getKey];
    [None] is the [None] it returns when the store has no record under
    [CKA_ID].  Its calls of [printASN1] are one frame further down than
    those of [getKey]: [recursion_room] frames are left for them. *)
Definition extractSecretKey (masterPassword : bytes) (keyData : gmap bytes bytes)
    : result (option bytes) :=
  pwdCheck <- dict_getitem keyData (b_ "password-check");
  entrySaltLen <- getitem pwdCheck 1;
  let entrySalt := slice pwdCheck 3 (3 + entrySaltLen) in
  let encryptedPasswd := slice_from pwdCheck (-16) in
  globalSalt <- dict_getitem keyData (b_ "global-salt");
  cleartextData <- decryptMoz3DES globalSalt masterPassword entrySalt encryptedPasswd;
  if bool_decide (cleartextData ≠ password_check)
  then Raise (RuntimeError password_check_error) else
  match keyData !! CKA_ID with
  | None => Ok None
  | Some privKeyEntry =>
      saltLen <- getitem privKeyEntry 1;
      nameLen <- getitem privKeyEntry 2;
      privKeyEntryASN1 <- der_decode (slice_from privKeyEntry (3 + saltLen + nameLen));
      let data := slice_from privKeyEntry (3 + saltLen + nameLen) in
      _ <- printASN1_fuel recursion_room data (len data) 0;
      entrySalt <- privKeyEntryASN1.1 @ [0; 1; 0] >>= asOctets;
      privKeyData <- privKeyEntryASN1.1 @ [1] >>= asOctets;
      privKey <- decryptMoz3DES globalSalt masterPassword entrySalt privKeyData;
      _ <- printASN1_fuel recursion_room privKey (len privKey) 0;
      privKeyASN1 <- der_decode privKey;
      prKey <- privKeyASN1.1 @ [2] >>= asOctets;
      _ <- printASN1_fuel recursion_room prKey (len prKey) 0;
      prKeyASN1 <- der_decode prKey;
      key <- prKeyASN1.1 @ [3] >>= asn1_number >>= long_to_bytes;
      Ok (Some key)
  end.

(** The two tables of [key4.db] the script queries: the rows
    [(id, item1, item2)] of [metadata] and the rows [(a11, a102)] of
    [nssPrivate], where [a11] may be NULL. *)
Record Key4Db : Type := {
  metadata : list (string * bytes * bytes);
  nssPrivate : list (option bytes * bytes)
}.

(** A profile directory: its name, [str(directory)], and the key
    stores it holds. *)
Record Directory : Type := {
  path : string;
  key4_db : option Key4Db;
  key3_db : option bytes
}.

(** [SELECT item1,item2 FROM metadata WHERE id = 'password'], then
    [fetchone()]. *)
Definition select_password (db : Key4Db) : option (bytes * bytes) :=
  head (omap (fun '(id, item1, item2) =>
                if bool_decide (id = "password"%string) then Some (item1, item2) else None)
             (metadata db)).

(** [SELECT a11 FROM nssPrivate WHERE a11 IS NOT NULL and a102=?] with
    [CKA_ID], then [fetchone()]. *)
Definition select_a11 (db : Key4Db) : option bytes :=
  head (omap (fun '(a11, a102) =>
                if bool_decide (a102 = CKA_ID) then a11 else None)
             (nssPrivate db)).

Definition no_saved_login : string := "no saved login/password".
(** ['cannot find key4.db or key3.db in %s' % directory] *)
Definition cannot_find_key_db (directory : Directory) : string :=
  ("cannot find key4.db or key3.db in " ++ path directory)%string.

(** [clearText, algo = decryptPBE(...)]: unpacking [None] is a
    [TypeError]. *)
Definition unpack_pair {A B} (r : option (A * B)) : result (A * B) :=
  match r with
  | Some p => Ok p
  | None => Raise TypeError
  end.

(** [getKey(masterPassword, directory)]: the pair it returns, where
    [None] is Python's [None]. *)
Definition getKey (masterPassword : bytes) (directory : Directory)
    : result (option bytes * option string) :=
  match key4_db directory, key3_db directory with
  | Some db, _ =>
      match select_password db with
      | None => Raise TypeError
      | Some (globalSalt, item2) =>
          _ <- printASN1 item2 (len item2) 0;
          decodedItem2 <- der_decode item2;
          '(clearText, algo) <- decryptPBE decodedItem2 masterPassword globalSalt
                                 >>= unpack_pair;
          if bool_decide (clearText = password_check) then
            match select_a11 db with
            | None => Raise (RuntimeError no_saved_login)
            | Some a11 =>
                _ <- printASN1 a11 (len a11) 0;
                decoded_a11 <- der_decode a11;
                '(clearText, algo) <- decryptPBE decoded_a11 masterPassword globalSalt
                                       >>= unpack_pair;
                Ok (Some (slice_to clearText 24), Some algo)
            end
          else Ok (None, None)
      end
  | None, Some content =>
      keyData <- (readBsddb content).1;
      key <- extractSecretKey masterPassword keyData;
      Ok (key, Some oid_pbeWithSha1AndTripleDES_CBC)
  | None, None => Raise (RuntimeError (cannot_find_key_db directory))
  end.

End Script.

(** ** A small instance of the packages *)

(** An executable [Library], to run the script on concrete stores.  Its
    digests and block functions are stand-ins of the right sizes, not
    SHA-1, DES or AES; its DER decoder reads the definite-length
    encodings of the five node kinds.  [Toy.laws] below shows that it
    satisfies [LibraryLaws]. *)
Module Toy.

Definition mix (i : N) (m : bytes) : byte :=
  byte_of_N (fold_left (fun acc b => (acc * 31 + Byte.to_N b + i) mod 256)%N m
               (i + N.of_nat (length m)) mod 256)%N.

Definition digest (n : nat) (m : bytes) : bytes :=
  (fun i => mix (N.of_nat i) m) <$> seq 0 n.

Definition hash (m : bytes) : bytes := digest 20 m.

Definition mac (k m : bytes) : bytes := hash (k ++ hash (k ++ m)).

Definition kdf (p s : bytes) (c n : Z) : result bytes :=
  if (c <? 1) || (n <? 1) then Raise ValueError
  else Ok (digest (Z.to_nat n) (p ++ s ++ [byte_of_N (Z.to_N c mod 256)])).

Definition key_ok (k : bytes) : bool :=
  bool_decide (length k = 16%nat ∨ length k = 24%nat)
  && negb (bool_decide (slice k 0 8 = slice k 8 16))
  && negb (bool_decide (slice k 8 16 = slice k 16 24)).

(** One block: exclusive or with the first bytes of the key. *)
Definition block (n : nat) (k b : bytes) : bytes :=
  strxor b (take n (k ++ replicate n x00)).

(** The big-endian number a byte string writes. *)
Definition be_int (s : bytes) : Z :=
  fold_left (fun acc b => acc * 256 + byte_to_Z b) s 0.

(** The arcs of an object identifier from its base-128 groups. *)
Fixpoint oid_arcs (s : bytes) (acc : Z) : list Z :=
  match s with
  | [] => []
  | b :: s' =>
      let v := acc * 128 + Z.land (byte_to_Z b) 0x7f in
      if Z.land (byte_to_Z b) 0x80 >? 0 then oid_arcs s' v else v :: oid_arcs s' 0
  end.

Definition oid_decode (s : bytes) : result (list Z) :=
  match oid_arcs s 0 with
  | [] => Raise PyAsn1Error
  | v :: arcs =>
      Ok (if v <? 40 then 0 :: v :: arcs
          else if v <? 80 then 1 :: (v - 40) :: arcs
          else 2 :: (v - 80) :: arcs)
  end.

(** The header of a node: tag, content, and what follows the node. *)
Definition der_header (s : bytes) : result (Z * bytes * bytes) :=
  match s with
  | tag :: l0 :: rest =>
      let l0 := byte_to_Z l0 in
      '(n, body) <-
        (if l0 <? 128 then Ok (l0, rest)
         else if (l0 =? 128) || (len rest <? l0 - 128) then Raise PyAsn1Error
         else Ok (be_int (slice_to rest (l0 - 128)), slice_from rest (l0 - 128)));
      if len body <? n then Raise PyAsn1Error
      else Ok (byte_to_Z tag, slice_to body n, slice_from body n)
  | _ => Raise PyAsn1Error
  end.

Fixpoint der_node (fuel : nat) (s : bytes) : result (asn1 * bytes) :=
  match fuel with
  | O => Raise OutOfFuel
  | S fuel' =>
      '(tag, content, rest) <- der_header s;
      if tag =? 0x30 then
        items <- (fix der_items (n : nat) (c : bytes) : result (list asn1) :=
                    match c, n with
                    | [], _ => Ok []
                    | _, O => Raise OutOfFuel
                    | _, S n' =>
                        '(x, c') <- der_node fuel' c;
                        xs <- der_items n' c';
                        Ok (x :: xs)
                    end) (length content) content;
        Ok (Sequence items, rest)
      else if tag =? 4 then Ok (OctetString content, rest)
      else if tag =? 6 then arcs <- oid_decode content; Ok (ObjectIdentifier arcs, rest)
      else if tag =? 2 then
        match content with
        | [] => Raise PyAsn1Error
        | b :: _ =>
            Ok (Integer (if byte_to_Z b <? 128 then be_int content
                         else be_int content - 256 ^ len content), rest)
        end
      else if tag =? 5 then
        if len content =? 0 then Ok (Null, rest) else Raise PyAsn1Error
      else Raise PyAsn1Error
  end.

Definition decode (s : bytes) : result (asn1 * bytes) :=
  der_node (S (length s)) s.

#[export] Instance library : Library := {|
  sha1 := hash;
  hmac_sha1 := mac;
  pbkdf2_hmac_sha256 := kdf;
  DES3_key_ok := key_ok;
  DES3_E := block 8;
  DES3_D := block 8;
  AES_D := block 16;
  der_decode := decode
|}.

End Toy.

(** ** What the specification talks about *)

(** The length that [printASN1] takes from the header of [d]: the
    length byte, or the byte after it when the top bit of the length
    byte is set. *)
Definition declared_length (d : bytes) : result Z :=
  length0 <- getitem d 1;
  if Z.land length0 0x80 >? 0 then getitem d 2 else Ok length0.






(** The 60 bytes [readBsddb] reads first. *)
Definition header (content : bytes) : bytes := slice content 0 (4 * 15).

(** The object identifiers of the two PBE schemes and of their parts, as
    arcs. *)
Definition arcs_pbeWithSha1AndTripleDES_CBC : list Z := [1; 2; 840; 113549; 1; 12; 5; 1; 3].
Definition arcs_pbes2 : list Z := [1; 2; 840; 113549; 1; 5; 13].
Definition arcs_PBKDF2 : list Z := [1; 2; 840; 113549; 1; 5; 12].
Definition arcs_hmacWithSHA256 : list Z := [1; 2; 840; 113549; 2; 9].
Definition arcs_aes256_CBC : list Z := [2; 16; 840; 1; 101; 3; 4; 1; 42].
Definition arcs_pkcs_1 : list Z := [1; 2; 840; 113549; 1; 1; 1].

(** The PBES2 structure quoted in [decryptPBE]. *)
Definition pbes2_item (entrySalt : bytes) (iterationCount keyLength : Z)
    (ivTail cipherT : bytes) : asn1 :=
  Sequence
    [Sequence
       [ObjectIdentifier arcs_pbes2;
        Sequence
          [Sequence
             [ObjectIdentifier arcs_PBKDF2;
              Sequence
                [OctetString entrySalt; Integer iterationCount; Integer keyLength;
                 Sequence [ObjectIdentifier arcs_hmacWithSHA256]]];
           Sequence [ObjectIdentifier arcs_aes256_CBC; OctetString ivTail]]];
     OctetString cipherT].

(** The records of a legacy store that the extraction looks up. *)
Definition key3_records : list bytes :=
  [b_ "password-check"; b_ "global-salt"; CKA_ID].

(** Two profile directories hold the same key records: the same first
    row [password] of [metadata] and the same first private-key row
    under [CKA_ID] when they have a [key4.db]; when they have a
    [key3.db] only, the same records under the three names of
    [key3_records] in the dictionaries that [readBsddb] builds. *)
Definition same_key_records (directory directory' : Directory) : Prop :=
  match key4_db directory, key4_db directory' with
  | Some db, Some db' =>
      select_password db = select_password db' /\ select_a11 db = select_a11 db'
  | None, None =>
      match key3_db directory, key3_db directory' with
      | Some content, Some content' =>
          forall keyData keyData',
            (readBsddb content).1 = Ok keyData ->
            (readBsddb content').1 = Ok keyData' ->
            forall k, k ∈ key3_records -> keyData !! k = keyData' !! k
      | None, None => True
      | _, _ => False
      end
  | _, _ => False
  end.

Section Specification.
Context {L : Library} {I : Interpreter}.

(** [s] right-padded with zero bytes to [n] bytes. *)
Definition pad_right (n : nat) (s : bytes) : bytes := resize n x00 s.

(** The last [n] bytes of [s]. *)
Definition last_bytes (n : nat) (s : bytes) : bytes := drop (length s - n) s.

(** The key and the IV of [legacy3DES], in the words of the
    specification. *)
Definition legacy3DES_key_iv (globalSalt masterPassword entrySalt : bytes)
    : bytes * bytes :=
  let hp := sha1 (globalSalt ++ masterPassword) in
  let pes := pad_right 20 entrySalt in
  let chp := sha1 (hp ++ entrySalt) in
  let k1 := hmac_sha1 chp (pes ++ entrySalt) in
  let tk := hmac_sha1 chp pes in
  let k2 := hmac_sha1 chp (tk ++ entrySalt) in
  (take 24 (k1 ++ k2), last_bytes 8 (k1 ++ k2)).

(** [legacy3DES] of the specification: triple DES in CBC mode under that
    key and IV, and nothing removed from the result. *)
Definition legacy3DES (globalSalt masterPassword entrySalt ciphertext : bytes)
    : result bytes :=
  DES3_CBC_decrypt (legacy3DES_key_iv globalSalt masterPassword entrySalt).1
    (legacy3DES_key_iv globalSalt masterPassword entrySalt).2 ciphertext.

(** [pbes2AesPbkdf2] of the specification, for a key length of 32. *)
Definition pbes2AesPbkdf2 (globalSalt masterPassword entrySalt : bytes)
    (iterationCount : Z) (ivTail ciphertext : bytes) : result bytes :=
  let seed := sha1 (globalSalt ++ masterPassword) in
  key <- pbkdf2_hmac_sha256 seed entrySalt iterationCount 32;
  AES_CBC_decrypt key ([x04; x0e] ++ ivTail) ciphertext.

(** The password check of the modern path succeeds: [getKey] reaches
    its test of the clear text and the test holds. *)
Definition key4_check_passes (masterPassword : bytes) (db : Key4Db)
    (globalSalt : bytes) : Prop :=
  exists item2 out decodedItem2 algo,
    select_password db = Some (globalSalt, item2) /\
    printASN1 item2 (len item2) 0 = Ok out /\
    der_decode item2 = Ok decodedItem2 /\
    decryptPBE decodedItem2 masterPassword globalSalt
      = Ok (Some (password_check, algo)).

(** The password check of the modern path fails: the test is reached
    with another clear text. *)
Definition key4_check_fails (masterPassword : bytes) (db : Key4Db) : Prop :=
  exists globalSalt item2 out decodedItem2 clearText algo,
    select_password db = Some (globalSalt, item2) /\
    printASN1 item2 (len item2) 0 = Ok out /\
    der_decode item2 = Ok decodedItem2 /\
    decryptPBE decodedItem2 masterPassword globalSalt
      = Ok (Some (clearText, algo)) /\
    clearText <> password_check.

(** The clear text that [extractSecretKey] compares with the check
    value. *)
Definition key3_check_value (masterPassword : bytes) (keyData : gmap bytes bytes)
    : result bytes :=
  pwdCheck <- dict_getitem keyData (b_ "password-check");
  entrySaltLen <- getitem pwdCheck 1;
  globalSalt <- dict_getitem keyData (b_ "global-salt");
  decryptMoz3DES globalSalt masterPassword
    (slice pwdCheck 3 (3 + entrySaltLen)) (slice_from pwdCheck (-16)).

End Specification.

(** ** Concrete stores *)

(** Stores for the instance [Toy.library], all under the empty master
    password and the global salt [b'salt']. *)
Module Stores.

(** The check value of a [key4.db]: a PBES2 structure whose clear text is [password_check]. *)
Definition item2 : bytes :=
  hex ("308181306d06092a864886f70d01050d3060304106092a864886f70d01050c30" ++
     "340420101112131415161718191a1b1c1d1e1f202122232425262728292a2b2c" ++
     "2d2e2f020101020120300a06082a864886f70d0209301b060960864801650304" ++
     "012a040ea0a1a2a3a4a5a6a7a8a9aaabacad0410661d01e0473e847399b612fe" ++
     "5b32fc1d")%string.

(** A private-key record whose encrypted blob has 16 bytes. *)
Definition a11_short : bytes :=
  hex ("308181306d06092a864886f70d01050d3060304106092a864886f70d01050c30" ++
     "340420101112131415161718191a1b1c1d1e1f202122232425262728292a2b2c" ++
     "2d2e2f020101020120300a06082a864886f70d0209301b060960864801650304" ++
     "012a040ea0a1a2a3a4a5a6a7a8a9aaabacad0410573e31d77517b15ffd9f31d7" ++
     "7517b14f")%string.

(** A private-key record whose encrypted blob has 32 bytes: a key of 24 bytes and 8 bytes of padding. *)
Definition a11 : bytes :=
  hex ("308191306d06092a864886f70d01050d3060304106092a864886f70d01050c30" ++
     "340420101112131415161718191a1b1c1d1e1f202122232425262728292a2b2c" ++
     "2d2e2f020101020120300a06082a864886f70d0209301b060960864801650304" ++
     "012a040ea0a1a2a3a4a5a6a7a8a9aaabacad0420573e31d77517b15ffd9f31d7" ++
     "7517b14f141eb0b1b2b3b4b5e7e5ebedefedebf5")%string.

Definition key4 (a : bytes) : Directory :=
  {| path := "profile";
     key4_db := Some {| metadata := [("password"%string, b_ "salt", item2)];
                        nssPrivate := [(Some a, CKA_ID)] |};
     key3_db := None |}.

(** A [key3.db] of two records, [global-salt] and [password-check], in pages of 128 bytes. *)
Definition key3_no_key : bytes :=
  hex ("0006156100000002000004d20000008000000000000000000000000000000000" ++
     "0000000000000000000000000000000000000000000000000000000200000000" ++
     "0000000000000000000000000000000000000000000000000000000000000000" ++
     "0000000000000000000000000000000000000000000000000000000000000000" ++
     "04007500710063003c0000003c00000000000000000000000000000000000000" ++
     "0000000000000000000000000000000000000000000000000000000003140030" ++
     "3132333435363738393a3b3c3d3e3f40414243041507077b637e6815cb51dd58" ++
     "c93ea970617373776f72642d636865636b73616c74676c6f62616c2d73616c74")%string.

(** A [key3.db] of three records, in pages of 256 bytes: the third one, under [CKA_ID], wraps a key of 24 bytes. *)
Definition key3_file : bytes :=
  hex ("0006156100000002000004d20000010000000000000000000000000000000000" ++
     "0000000000000000000000000000000000000000000000000000000300000000" ++
     "0000000000000000000000000000000000000000000000000000000000000000" ++
     "0000000000000000000000000000000000000000000000000000000000000000" ++
     "0000000000000000000000000000000000000000000000000000000000000000" ++
     "0000000000000000000000000000000000000000000000000000000000000000" ++
     "0000000000000000000000000000000000000000000000000000000000000000" ++
     "0000000000000000000000000000000000000000000000000000000000000000" ++
     "0600f500f100e300bc00ac002b0000002b000000000000000000000000000000" ++
     "00000000000000000000000301015566307a3016060b2a864886f70d010c0501" ++
     "0330070402aabb020101046084e3b6b54c7c414a71b4ce82ca0a4ec88cc835fd" ++
     "cec87c0a72b4cb80deb17e898ec935ffde307c0a72b4cb80dfb37f898cd174bd" ++
     "9c76384c37e4c388d7bb778184c96ca5846e20542fec90db84ed23d7d1906ea6" ++
     "856c235538ea97de82ea26d1f800000000000000000000000000000103140030" ++
     "3132333435363738393a3b3c3d3e3f40414243041507077b637e6815cb51dd58" ++
     "c93ea970617373776f72642d636865636b73616c74676c6f62616c2d73616c74")%string.

(** The same store for a key whose first byte is zero. *)
Definition key3_file_zero : bytes :=
  hex ("0006156100000002000004d20000010000000000000000000000000000000000" ++
     "0000000000000000000000000000000000000000000000000000000300000000" ++
     "0000000000000000000000000000000000000000000000000000000000000000" ++
     "0000000000000000000000000000000000000000000000000000000000000000" ++
     "0000000000000000000000000000000000000000000000000000000000000000" ++
     "0000000000000000000000000000000000000000000000000000000000000000" ++
     "0000000000000000000000000000000000000000000000000000000000000000" ++
     "0000000000000000000000000000000000000000000000000000000000000000" ++
     "0600f500f100e300bc00ac002b0000002b000000000000000000000000000000" ++
     "00000000000000000000000301015566307a3016060b2a864886f70d010c0501" ++
     "0330070402aabb020101046084e2b6b54c7c414a71b5ce82ca0a4ec88cc935fd" ++
     "cec97c0b72b5cb80deb07e888ec835ffde317c0b72b5cb80dfb27f888cdf74bd" ++
     "9c77384d37eac388d7ba778084c76ca5846f20552fb893da86ef22d4d2c56fa4" ++
     "866c214226b099d38ee52bc9f800000000000000000000000000000103140030" ++
     "3132333435363738393a3b3c3d3e3f40414243041507077b637e6815cb51dd58" ++
     "c93ea970617373776f72642d636865636b73616c74676c6f62616c2d73616c74")%string.

Definition key3 (content : bytes) : Directory :=
  {| path := "profile"; key4_db := None; key3_db := Some content |}.

(** The [key4.db] of [key4] without any private-key record. *)
Definition key4_no_key : Directory :=
  {| path := "profile";
     key4_db := Some {| metadata := [("password"%string, b_ "salt", item2)];
                        nssPrivate := [] |};
     key3_db := None |}.

(** A profile that holds the key records of [key4 a11] and more: other
    rows before and after them in both tables, and a [key3.db]. *)
Definition key4_more : Directory :=
  {| path := "other profile";
     key4_db := Some {| metadata := [("Version"%string, [x01], []);
                                     ("password"%string, b_ "salt", item2);
                                     ("password"%string, b_ "pepper", a11_short)];
                        nssPrivate := [(None, CKA_ID);
                                       (Some a11_short, b_ "another id");
                                       (Some a11, CKA_ID);
                                       (Some a11_short, CKA_ID)] |};
     key3_db := Some key3_no_key |}.

(** The store [key3_file] with a fourth record, [Version]: the header
    counts 4 keys, the table of the page lists one more pair of
    offsets, and the record sits under the other three. *)
Definition key3_file_more : bytes :=
  slice key3_file 0 0x3b ++ [x04] ++ slice key3_file 0x3c 0x100
  ++ hex "0800f500f100e300bc00ac002b002400230000002300" ++ replicate 13 x00
  ++ [x03] ++ b_ "Version" ++ slice_from key3_file 0x12b.

(** The dictionary that [readBsddb] builds from a file. *)
Definition key3_data (content : bytes) : gmap bytes bytes :=
  match (readBsddb content).1 with
  | Ok db => db
  | Raise _ => ∅
  end.

End Stores.

(** ** Saved logins *)

(** A value that [json.load] returns.  A number keeps its text; an
    object is the list of the items of the [dict], whose keys are
    distinct, in the order of their insertion. *)
#[local] Unset Elimination Schemes.
Inductive json : Type :=
  | JNull
  | JBool (b : bool)
  | JNumber (text : string)
  | JString (s : string)
  | JArray (elements : list json)
  | JObject (items : list (string * json)).
#[local] Set Elimination Schemes.

(** [k in x] for a text [k]: a key of a [dict], an element of a [list],
    a part of a [str]; the other values are not containers. *)
Definition json_contains (k : string) (x : json) : result bool :=
  match x with
  | JObject items => Ok (bool_decide (k ∈ items.*1))
  | JArray elements =>
      Ok (existsb (fun y => match y with
                            | JString s => bool_decide (s = k)
                            | _ => false
                            end) elements)
  | JString s =>
      Ok (match String.index 0 k s with
          | Some _ => true
          | None => false
          end)
  | JNull | JBool _ | JNumber _ => Raise TypeError
  end.

(** [x[k]] for a text [k]: only a [dict] is indexed by a text. *)
Definition json_getitem (x : json) (k : string) : result json :=
  match x with
  | JObject items =>
      match list_find (fun item => item.1 = k) items with
      | Some (_, item) => Ok item.2
      | None => Raise KeyError
      end
  | _ => Raise TypeError
  end.

(** The values that [for row in x] runs over. *)
Definition json_iter (x : json) : result (list json) :=
  match x with
  | JArray elements => Ok elements
  | JObject items => Ok (JString <$> items.*1)
  | JString s =>
      Ok ((fun c => JString (String c EmptyString)) <$> list_ascii_of_string s)
  | JNull | JBool _ | JNumber _ => Raise TypeError
  end.

(** A list comprehension whose element can raise: the first exception
    ends it. *)
Fixpoint mapM_result {A B} (f : A -> result B) (l : list A) : result (list B) :=
  match l with
  | [] => Ok []
  | a :: l' => b <- f a; bs <- mapM_result f l'; Ok (b :: bs)
  end.

(** What [getLoginData] and [main] import besides [Library]:
    - [json_load content] is [json.load] on a file that holds [content];
    - [b64decode s] is [base64.b64decode(s)] for a text [s];
    - [unpad s n] is [Crypto.Util.Padding.unpad(s, n)]. *)
Class LoginLibrary : Type := {
  json_load : bytes -> result json;
  b64decode : string -> result bytes;
  unpad : bytes -> Z -> result bytes
}.

(** A profile directory with its login files. *)
Record Profile : Type := {
  key_stores : Directory;
  logins_json : option bytes;
  signons_sqlite : option bytes
}.

(** One encrypted field: [(key_id, iv, ciphertext)]. *)
Definition field : Type := bytes * bytes * bytes.

(** One saved login: the user name, the password and the host name. *)
Definition login : Type := field * field * json.

(** What [main] prints, line by line; [credential h u p] is the line
    that shows the host name [h], the user name [u] and the password
    [p]. *)
Inductive printed : Type :=
  | no_stored_passwords
  | decrypting_pairs
  | credential (hostname : json) (username password : bytes).

(** How [main] ends: at its last line, with what it printed; in
    [parser.error], which shows the first argument of the exception and
    leaves with status 2; or with an exception that nothing catches. *)
Inductive outcome : Type :=
  | Finished (out : list printed)
  | Usage_error (e : exn)
  | Traceback (e : exn).

Section Logins.
Context {L : Library} {I : Interpreter} {P : LoginLibrary}.

(** [decodeLoginData(data)]; [b64decode] takes a text or bytes and
    raises [TypeError] on the other values. *)
Definition decodeLoginData (data : json) : result field :=
  raw <- match data with
         | JString s => b64decode s
         | _ => Raise TypeError
         end;
  asn1data <- der_decode raw;
  key_id <- asn1data.1 @ [0] >>= asOctets;
  iv <- asn1data.1 @ [1; 1] >>= asOctets;
  ciphertext <- asn1data.1 @ [2] >>= asOctets;
  Ok (key_id, iv, ciphertext).

Definition no_logins_key : string := "no 'login' key in logins.json".

(** The first argument of the [RuntimeError] of [getLoginData]: the
    directory is a second argument, it is not put in the text. *)
Definition cannot_find_logins : string :=
  "cannot find logins.json or signons.sqlite in %s".

(** One element of the list that [getLoginData] builds from
    [logins.json]. *)
Definition login_row (row : json) : result login :=
  username <- json_getitem row "encryptedUsername" >>= decodeLoginData;
  password <- json_getitem row "encryptedPassword" >>= decodeLoginData;
  hostname <- json_getitem row "hostname";
  Ok (username, password, hostname).

(** What [with x as c] raises when [x] is no context manager:
    [AttributeError] up to Python 3.10, [TypeError] from Python 3.11
    on. *)
Definition no_context_manager {I : Interpreter} : exn :=
  if minor_version <? 11 then AttributeError else TypeError.

(** [getLoginData(directory)].  In the branch of [signons.sqlite] the
    connection is opened, and the statement [with conn.cursor() as c]
    raises before any query: a cursor of [sqlite3] is no context
    manager. *)
Definition getLoginData (profile : Profile) : result (list login) :=
  match logins_json profile, signons_sqlite profile with
  | Some content, _ =>
      jsonLogins <- json_load content;
      present <- json_contains "logins" jsonLogins;
      _ <- (if present then Ok tt else Raise (AssertionError no_logins_key));
      rows <- json_getitem jsonLogins "logins" >>= json_iter;
      mapM_result login_row rows
  | None, Some _ => Raise no_context_manager
  | None, None => Raise (RuntimeError cannot_find_logins)
  end.

(** [parser.error(e.args[0])], the handler of [main]: an exception
    without argument, which is what a bare [assert] raises, makes
    [e.args[0]] an [IndexError]. *)
Definition parser_error (e : exn) : outcome :=
  match e with
  | AssertionError EmptyString => Traceback IndexError
  | _ => Usage_error e
  end.

(** One field of a login in the loop of [main]:
    [assert id == CKA_ID], then
    [unpad(DES3.new(key, DES3.MODE_CBC, iv).decrypt(ciphertext), 8)];
    [DES3.new] raises [TypeError] on the key [None]. *)
Definition decrypt_field (key : option bytes) (f : field) : result bytes :=
  let '(id, iv, ciphertext) := f in
  _ <- assert (bool_decide (id = CKA_ID));
  clear <- match key with
           | Some key => DES3_CBC_decrypt key iv ciphertext
           | None => Raise TypeError
           end;
  unpad clear 8.

(** The loop [for username, password, hostname in logins]. *)
Fixpoint main_logins (key : option bytes) (logins : list login)
    : result (list printed) :=
  match logins with
  | [] => Ok []
  | (username, password, hostname) :: logins' =>
      u <- decrypt_field key username;
      p <- decrypt_field key password;
      out <- main_logins key logins';
      Ok (credential hostname u p :: out)
  end.

(** [main], once the arguments are parsed: [masterPassword] is the
    encoded password and [profile] the directory.  What [getKey] prints
    is not kept, and what is printed before an exception is not kept. *)
Definition main (masterPassword : bytes) (profile : Profile) : outcome :=
  match getKey masterPassword (key_stores profile) with
  | Raise e => parser_error e
  | Ok (key, algo) =>
      match getLoginData profile with
      | Raise e => parser_error e
      | Ok logins =>
          let out := [if len logins =? 0 then no_stored_passwords
                      else decrypting_pairs] in
          if bool_decide (algo = Some oid_pbeWithSha1AndTripleDES_CBC)
             || bool_decide (algo = Some oid_pbes2)
          then match main_logins key logins with
               | Ok creds => Finished (out ++ creds)
               | Raise e => Traceback e
               end
          else Finished out
      end
  end.

End Logins.

(** ** A small instance of the login packages *)

(** An executable [LoginLibrary]: a reader of JSON texts without escape
    sequences, the decoder of canonical base64 and the PKCS#7 [unpad]. *)
Module ToyLogins.

Definition quote : ascii := Ascii.ascii_of_nat 34.
Definition backslash : ascii := Ascii.ascii_of_nat 92.

Definition is_space (a : ascii) : bool :=
  bool_decide (Ascii.nat_of_ascii a ∈ [32; 9; 10; 13]%nat).

Fixpoint skip_space (s : list ascii) : list ascii :=
  match s with
  | a :: s' => if is_space a then skip_space s' else s
  | [] => []
  end.

(** The text of a string, after its opening quote. *)
Fixpoint read_string (s acc : list ascii) : result (string * list ascii) :=
  match s with
  | [] => Raise ValueError
  | a :: s' =>
      if Ascii.eqb a quote then Ok (string_of_list_ascii (reverse acc), s')
      else if Ascii.eqb a backslash then Raise ValueError
      else read_string s' (a :: acc)
  end.

Definition is_number_char (a : ascii) : bool :=
  let n := Ascii.nat_of_ascii a in
  bool_decide (48 <= n <= 57)%nat || bool_decide (n ∈ [43; 45; 46; 69; 101]%nat).

Fixpoint read_number (s acc : list ascii) : string * list ascii :=
  match s with
  | a :: s' =>
      if is_number_char a then read_number s' (a :: acc)
      else (string_of_list_ascii (reverse acc), s)
  | [] => (string_of_list_ascii (reverse acc), [])
  end.

(** [s] after the word [w], when [s] starts with it. *)
Definition after_word (w : string) (s : list ascii) : option (list ascii) :=
  let w := list_ascii_of_string w in
  if bool_decide (take (length w) s = w) then Some (drop (length w) s) else None.

(** A key set again keeps its place and takes the new value. *)
Fixpoint set_item (k : string) (v : json) (items : list (string * json))
    : list (string * json) :=
  match items with
  | [] => [(k, v)]
  | (k', v') :: items' =>
      if bool_decide (k' = k) then (k, v) :: items'
      else (k', v') :: set_item k v items'
  end.

Fixpoint read_value (fuel : nat) (s : list ascii) : result (json * list ascii) :=
  match fuel with
  | O => Raise OutOfFuel
  | S fuel' =>
      match skip_space s with
      | [] => Raise ValueError
      | a :: s1 =>
          if Ascii.eqb a quote then
            '(t, s2) <- read_string s1 []; Ok (JString t, s2)
          else if Ascii.eqb a "[" then
            match skip_space s1 with
            | "]"%char :: s2 => Ok (JArray [], s2)
            | _ =>
                '(elements, s2) <-
                  (fix read_elements (n : nat) (s : list ascii)
                      : result (list json * list ascii) :=
                     match n with
                     | O => Raise OutOfFuel
                     | S n' =>
                         '(x, s') <- read_value fuel' s;
                         match skip_space s' with
                         | ","%char :: s'' =>
                             '(xs, r) <- read_elements n' s''; Ok (x :: xs, r)
                         | "]"%char :: s'' => Ok ([x], s'')
                         | _ => Raise ValueError
                         end
                     end) (length s1) s1;
                Ok (JArray elements, s2)
            end
          else if Ascii.eqb a "{" then
            match skip_space s1 with
            | "}"%char :: s2 => Ok (JObject [], s2)
            | _ =>
                '(items, s2) <-
                  (fix read_items (n : nat) (s : list ascii)
                      (items : list (string * json))
                      : result (list (string * json) * list ascii) :=
                     match n with
                     | O => Raise OutOfFuel
                     | S n' =>
                         match skip_space s with
                         | q :: s' =>
                             if negb (Ascii.eqb q quote) then Raise ValueError else
                             '(k, s') <- read_string s' [];
                             match skip_space s' with
                             | ":"%char :: s' =>
                                 '(v, s') <- read_value fuel' s';
                                 let items := set_item k v items in
                                 match skip_space s' with
                                 | ","%char :: s'' => read_items n' s'' items
                                 | "}"%char :: s'' => Ok (items, s'')
                                 | _ => Raise ValueError
                                 end
                             | _ => Raise ValueError
                             end
                         | [] => Raise ValueError
                         end
                     end) (length s1) s1 [];
                Ok (JObject items, s2)
            end
          else
            match after_word "true" (a :: s1), after_word "false" (a :: s1),
                  after_word "null" (a :: s1) with
            | Some s2, _, _ => Ok (JBool true, s2)
            | _, Some s2, _ => Ok (JBool false, s2)
            | _, _, Some s2 => Ok (JNull, s2)
            | None, None, None =>
                if is_number_char a then
                  let '(t, s2) := read_number (a :: s1) [] in Ok (JNumber t, s2)
                else Raise ValueError
            end
      end
  end.

Definition parse (content : bytes) : result json :=
  let s := list_ascii_of_string (String.string_of_list_byte content) in
  '(x, rest) <- read_value (S (length s)) s;
  match skip_space rest with
  | [] => Ok x
  | _ => Raise ValueError
  end.

(** The value of a character of the base64 alphabet. *)
Definition b64_value (a : ascii) : option N :=
  let n := Ascii.N_of_ascii a in
  if (65 <=? n)%N && (n <=? 90)%N then Some (n - 65)%N
  else if (97 <=? n)%N && (n <=? 122)%N then Some (n - 71)%N
  else if (48 <=? n)%N && (n <=? 57)%N then Some (n + 4)%N
  else if (n =? 43)%N then Some 62%N
  else if (n =? 47)%N then Some 63%N
  else None.

(** The bytes of one group of four characters; [pad] of them are [=]. *)
Definition b64_group (a b c d : option N) (pad : nat) : result bytes :=
  match a, b, c, d with
  | Some a, Some b, Some c, Some d =>
      let n := (((a * 64 + b) * 64 + c) * 64 + d)%N in
      Ok (take (3 - pad)
            [byte_of_N (n / 65536); byte_of_N (n / 256 mod 256); byte_of_N (n mod 256)])
  | _, _, _, _ => Raise ValueError
  end.

Fixpoint b64_groups (fuel : nat) (s : list ascii) : result bytes :=
  match fuel with
  | O => Raise OutOfFuel
  | S fuel' =>
      match s with
      | [] => Ok []
      | [a; b; c; d] =>
          if Ascii.eqb c "=" && Ascii.eqb d "=" then
            b64_group (b64_value a) (b64_value b) (Some 0%N) (Some 0%N) 2
          else if Ascii.eqb d "=" then
            b64_group (b64_value a) (b64_value b) (b64_value c) (Some 0%N) 1
          else b64_group (b64_value a) (b64_value b) (b64_value c) (b64_value d) 0
      | a :: b :: c :: d :: s' =>
          g <- b64_group (b64_value a) (b64_value b) (b64_value c) (b64_value d) 0;
          r <- b64_groups fuel' s';
          Ok (g ++ r)
      | _ => Raise ValueError
      end
  end.

Definition decode64 (s : string) : result bytes :=
  b64_groups (S (String.length s)) (list_ascii_of_string s).

(** [unpad] for the PKCS#7 style: the last byte counts the bytes of
    padding, which all hold that count. *)
Definition unpad7 (s : bytes) (block_size : Z) : result bytes :=
  if negb (len s mod block_size =? 0) then Raise ValueError
  else
    match last s with
    | None => Raise ValueError
    | Some b =>
        let n := byte_to_Z b in
        if (n <? 1) || (Z.min block_size (len s) <? n) then Raise ValueError
        else if bool_decide (slice_from s (- n) = replicate (Z.to_nat n) b)
        then Ok (slice_to s (- n))
        else Raise ValueError
    end.

#[export] Instance library : LoginLibrary := {|
  json_load := parse;
  b64decode := decode64;
  unpad := unpad7
|}.

End ToyLogins.

(** ** More of what the script expects *)

(** The structure of the triple-DES scheme quoted in [decryptPBE] and
    in [extractSecretKey]. *)
Definition pbe3DES_item (entrySalt : bytes) (iterationCount : Z) (cipherT : bytes) : asn1 :=
  Sequence
    [Sequence
       [ObjectIdentifier arcs_pbeWithSha1AndTripleDES_CBC;
        Sequence [OctetString entrySalt; Integer iterationCount]];
     OctetString cipherT].

(** The PBES2 structure with any object identifiers for the key
    derivation, for its pseudo-random function and for the cipher. *)
Definition pbes2_item_with (kdf prf cipher : list Z) (entrySalt : bytes)
    (iterationCount keyLength : Z) (ivTail cipherT : bytes) : asn1 :=
  Sequence
    [Sequence
       [ObjectIdentifier arcs_pbes2;
        Sequence
          [Sequence
             [ObjectIdentifier kdf;
              Sequence
                [OctetString entrySalt; Integer iterationCount; Integer keyLength;
                 Sequence [ObjectIdentifier prf]]];
           Sequence [ObjectIdentifier cipher; OctetString ivTail]]];
     OctetString cipherT].

Definition arcs_aes128_CBC : list Z := [2; 16; 840; 1; 101; 3; 4; 1; 2].
Definition arcs_des_ede3_cbc : list Z := [1; 2; 840; 113549; 3; 7].

(** The structure quoted in [decodeLoginData], with any value at the
    place of the object identifier. *)
Definition login_item (key_id : bytes) (algorithm : asn1) (iv ciphertext : bytes) : asn1 :=
  Sequence
    [OctetString key_id; Sequence [algorithm; OctetString iv]; OctetString ciphertext].

Section LoginSpecification.
Context {L : Library} {I : Interpreter} {P : LoginLibrary}.

(** The field [f] is the clear text [clear] saved under [key]: its key
    id is [CKA_ID] and its bytes are the triple-DES CBC encryption of a
    padded text that [unpad] turns into [clear]. *)
Definition encrypts (key : bytes) (f : field) (clear : bytes) : Prop :=
  exists iv padded ciphertext,
    f = (CKA_ID, iv, ciphertext) /\
    DES3_CBC_encrypt key iv padded = Ok ciphertext /\
    unpad padded 8 = Ok clear.

(** The login [l] is the host [h] with the user name [u] and the
    password [p], saved under [key]. *)
Definition saves (key : bytes) (l : login) (line : printed) : Prop :=
  exists h u p,
    l.2 = h /\ line = credential h u p /\
    encrypts key l.1.1 u /\ encrypts key l.1.2 p.

End LoginSpecification.

(** ** Concrete profiles *)

(** Login files for the instances [Toy.library] and [ToyLogins.library],
    under the key [b'ABCDEFGHIJKLMNOPQRSTUVWX'] that the stores [key4] and
    [key3_file] of [Stores] hold. *)
Module Profiles.

(** The user name [b'alice'] and the password [b'correct horse'],
    padded, encrypted, wrapped in the structure that [decodeLoginData]
    reads and written in base64. *)
Definition encryptedUsername : string :=
  "MDIEEPgAAAAAAAAAAAAAAAAAAAEwFAYIKoZIhvcNAwcECAECAwQFBgcIBAghLCkjJUNDQw==".

Definition encryptedPassword : string :=
  "MDoEEPgAAAAAAAAAAAAAAAAAAAEwFAYIKoZIhvcNAwcECBESExQVFhcYBBAzPyIiNTMkcBoSExUVdmA7".

(** A [logins.json] with the keys [nextId] and [logins], the second one
    a list of one login for the host [https://example.org]. *)
Definition logins_file : bytes :=
  hex ("7b226e6578744964223a20322c20226c6f67696e73223a205b7b226964223a20" ++
     "312c2022686f73746e616d65223a202268747470733a2f2f6578616d706c652e" ++
     "6f7267222c2022656e63727970746564557365726e616d65223a20224d444945" ++
     "455067414141414141414141414141414141414141414577464159494b6f5a49" ++
     "6876634e41776345434145434177514642676349424167684c436b6a4a554e44" ++
     "51773d3d222c2022656e6372797074656450617373776f7264223a20224d446f" ++
     "45455067414141414141414141414141414141414141414577464159494b6f5a" ++
     "496876634e417763454342455345785156466863594242417a507949694e544d" ++
     "6b63426f5345785556646d4137227d5d7d")%string.

(** The same file where the key id of the user name ends with [02]. *)
Definition logins_file_other_id : bytes :=
  hex ("7b226e6578744964223a20322c20226c6f67696e73223a205b7b226964223a20" ++
     "312c2022686f73746e616d65223a202268747470733a2f2f6578616d706c652e" ++
     "6f7267222c2022656e63727970746564557365726e616d65223a20224d444945" ++
     "455067414141414141414141414141414141414141414977464159494b6f5a49" ++
     "6876634e41776345434145434177514642676349424167684c436b6a4a554e44" ++
     "51773d3d222c2022656e6372797074656450617373776f7264223a20224d446f" ++
     "45455067414141414141414141414141414141414141414577464159494b6f5a" ++
     "496876634e417763454342455345785156466863594242417a507949694e544d" ++
     "6b63426f5345785556646d4137227d5d7d")%string.

(** A [logins.json] whose list of logins is empty, and one without the
    key [logins]. *)
Definition logins_file_empty : bytes := hex "7b226c6f67696e73223a205b5d7d".
Definition logins_file_no_key : bytes := hex "7b226e6578744964223a20317d".

Definition profile (stores : Directory) (logins : bytes) : Profile :=
  {| key_stores := stores; logins_json := Some logins; signons_sqlite := None |}.

(** The check value of [Stores.item2] with a key length of 16 in place
    of 32. *)
Definition item2_key16 : bytes :=
  hex ("308181306d06092a864886f70d01050d3060304106092a864886f70d01050c30" ++
     "340420101112131415161718191a1b1c1d1e1f202122232425262728292a2b2c" ++
     "2d2e2f020101020110300a06082a864886f70d0209301b060960864801650304" ++
     "012a040ea0a1a2a3a4a5a6a7a8a9aaabacad0410661d01e0473e847399b612fe" ++
     "5b32fc1d")%string.

Definition key4_key16 : Directory :=
  {| path := "profile";
     key4_db := Some {| metadata := [("password"%string, b_ "salt", item2_key16)];
                        nssPrivate := [(Some Stores.a11, CKA_ID)] |};
     key3_db := None |}.

(** The one login of [logins_file], as [getLoginData] returns it. *)
Definition saved_login : login :=
  ((CKA_ID, hex "0102030405060708", hex "212c292325434343"),
   (CKA_ID, hex "1112131415161718", hex "333f2222353324701a1213151576603b"),
   JString "https://example.org").

End Profiles.

(** ** One page of a legacy store *)

(** The table of a page lists its pairs from [i] on as the offsets
    [offs]: for each pair the offset of the key, then the offset of the
    value; the slot that follows the last pair holds the offset of its
    value once more, which is what stops the walk of [readBsddb]. *)
Fixpoint table_lists (table : bytes) (i : Z) (offs : list (Z * Z)) : Prop :=
  match offs with
  | [] => True
  | (k, v) :: offs' =>
      getShortLE table (2 + i) = Ok k /\
      getShortLE table (4 + i) = Ok v /\
      match offs' with
      | [] => getShortLE table (8 + i) = Ok v
      | _ :: _ => True
      end /\
      table_lists table (i + 4) offs'
  end.

(** The offsets go down from [top]: each key ends where the value
    before it starts, each value ends where its key starts, and a pair
    is not empty. *)
Fixpoint offsets_ordered (top : Z) (offs : list (Z * Z)) : Prop :=
  match offs with
  | [] => True
  | (k, v) :: offs' => 0 <= v /\ v <= k /\ k <= top /\ v < top /\ offsets_ordered v offs'
  end.

(** The pairs [(key, value)] that the offsets [offs] cut out of the
    page that starts at [base]. *)
Fixpoint page_records (content : bytes) (base top : Z) (offs : list (Z * Z))
    : list (bytes * bytes) :=
  match offs with
  | [] => []
  | (k, v) :: offs' =>
      (slice content (base + k) (base + top), slice content (base + v) (base + k))
      :: page_records content base v offs'
  end.

(** The offsets of [offs] in ascending order, for the page at [base]. *)
Fixpoint ascending (base : Z) (offs : list (Z * Z)) : list Z :=
  match offs with
  | [] => []
  | (k, v) :: offs' => ascending base offs' ++ [v + base; k + base]
  end.

(** The bytes of [content] between each offset of a list and the
    next one. *)
Fixpoint pieces (content : bytes) (offsets : list Z) : list bytes :=
  match offsets with
  | a :: (b :: _) as offsets' => slice content a b :: pieces content offsets'
  | _ => []
  end.

(** The offsets of [Stores.key3_file]: three pairs in a page of 256
    bytes. *)
Definition key3_file_offsets : list (Z * Z) :=
  [(0xf5, 0xf1); (0xe3, 0xbc); (0xac, 0x2b)].

(** * Properties *)

(** ** The result monad, bytes and slices *)

Lemma bind_Ok {A B} (m : result A) (f : A -> result B) b :
  bind m f = Ok b -> exists a, m = Ok a /\ f a = Ok b.
Proof. destruct m; simpl; [eauto | discriminate]. Qed.

Lemma fmap_result_Ok {A B} (f : A -> B) (m : result A) b :
  fmap_result f m = Ok b -> exists a, m = Ok a /\ b = f a.
Proof. destruct m; simpl; [| discriminate]. intros [= <-]. eauto. Qed.

Lemma byte_to_Z_range b : 0 <= byte_to_Z b < 256.
Proof. unfold byte_to_Z. pose proof (Byte.to_N_bounded b). lia. Qed.


Lemma getitem_Ok_length d i v : 0 <= i -> getitem d i = Ok v -> i < len d.
Proof.
  unfold getitem, len. intros Hi.
  destruct (Z.ltb_spec i 0); [lia |].
  destruct (Z.ltb_spec i 0); [lia |].
  destruct (d !! Z.to_nat i) eqn:El; [| discriminate].
  apply lookup_lt_Some in El. lia.
Qed.



Lemma len_nonneg {A} (d : list A) : 0 <= len d.
Proof. unfold len. lia. Qed.


Lemma slice_from_neg {A} (d : list A) n :
  0 < n -> slice_from d (- n) = drop (length d - Z.to_nat n) d.
Proof.
  intros. unfold slice_from, clamp_index, len.
  destruct (Z.ltb_spec (- n) 0); [| lia].
  f_equal. lia.
Qed.

Lemma slice_to_take {A} (d : list A) n :
  0 <= n -> slice_to d n = take (Z.to_nat n) d.
Proof.
  intros. unfold slice_to, clamp_index, len.
  destruct (Z.ltb_spec n 0); [lia |].
  destruct (Z.le_gt_cases n (Z.of_nat (length d))).
  - f_equal. lia.
  - rewrite !take_ge by lia. done.
Qed.

Lemma length_slice_to {A} (d : list A) n :
  0 <= n -> len (slice_to d n) = Z.min n (len d).
Proof.
  intros. rewrite slice_to_take by done. unfold len. rewrite length_take. lia.
Qed.

Lemma bytes_mul_replicate b n : bytes_mul [b] n = replicate (Z.to_nat n) b.
Proof.
  unfold bytes_mul. induction (Z.to_nat n) as [| k IH]; simpl; [done |].
  by rewrite IH.
Qed.

(** ** The ASN.1 display function *)

Lemma asn1Types_get_Ok t s :
  asn1Types_get t = Ok s -> t = 0x30 \/ t = 4 \/ t = 6 \/ t = 2 \/ t = 5.
Proof.
  unfold asn1Types_get, asn1Types. simpl.
  destruct (decide (t = 48)); [auto |].
  destruct (decide (t = 4)); [auto |].
  destruct (decide (t = 6)); [auto |].
  destruct (decide (t = 2)); [auto |].
  destruct (decide (t = 5)); [auto |].
  rewrite !lookup_insert_ne by done. rewrite lookup_empty. discriminate.
Qed.


Lemma length_slice {A} (d : list A) lo hi :
  0 <= lo -> 0 <= hi -> len (slice d lo hi) = Z.max 0 (Z.min hi (len d) - Z.min lo (len d)).
Proof.
  intros Hlo Hhi. unfold slice, clamp_index, len.
  destruct (Z.ltb_spec lo 0); [lia |]. destruct (Z.ltb_spec hi 0); [lia |].
  rewrite length_take, length_drop. lia.
Qed.




Lemma long_form_test b :
  (Z.land (byte_to_Z b) 0x80 >? 0) = negb (byte_to_Z b <? 128).
Proof. destruct b; reflexivity. Qed.

Lemma getitem_Ok_byte d i v : getitem d i = Ok v -> exists b, v = byte_to_Z b.
Proof.
  unfold getitem. destruct (_ <? 0); [discriminate |].
  destruct (d !! _) as [b |]; [| discriminate]. intros [= <-]. eauto.
Qed.











(** Deep nesting meets the recursion limit: 1100 SEQUENCE headers, one
    inside the other, need 1100 frames; 400 of them around a NULL are
    displayed. *)
Lemma printASN1_deep_nesting :
  printASN1 (I := python311) (mjoin (replicate 1100 [x30; x02]) ++ [x05; x00]) 2202 0
    = Raise RecursionError
  /\ is_Ok_b (printASN1 (I := python311) (mjoin (replicate 400 [x30; x02]) ++ [x05; x00])
                802 0) = true.
Proof. split; vm_compute; reflexivity. Qed.

(** ** The legacy page store *)

Lemma clamp_index_min n a : 0 <= a -> 0 <= n -> clamp_index n (Z.min a n) = clamp_index n a.
Proof.
  intros. unfold clamp_index.
  destruct (Z.ltb_spec (Z.min a n) 0), (Z.ltb_spec a 0); lia.
Qed.

Lemma slice_min {A} (d : list A) a b :
  0 <= a -> 0 <= b -> slice d (Z.min a (len d)) (Z.min b (len d)) = slice d a b.
Proof.
  intros. unfold slice. rewrite !clamp_index_min by (done || apply len_nonneg). done.
Qed.

(** The first read of [readBsddb]: the header, and nothing else. *)
Lemma f_read_header content :
  f_read content (4 * 15) open_rb
    = (Ok (header content), Handle (len (header content)) [(0, 60)]).
Proof.
  unfold f_read, open_rb, header. simpl pos. simpl reads.
  change (4 * 15 <? 0) with false. cbv iota.
  change (0 + 4 * 15) with 60. rewrite slice_min by lia. done.
Qed.

Lemma readBsddb_file_bad_header (content : bytes) (magic : Z) :
  getLongBE (header content) 0 = Ok magic ->
  (magic <> 0x61561 \/
   exists version, getLongBE (header content) 4 = Ok version /\ version <> 2) ->
  exists msg,
    readBsddb_file content open_rb
      = (Raise (AssertionError msg), Handle (len (header content)) [(0, 60)]).
Proof.
  intros Hm Hbad. unfold readBsddb_file.
  unfold io_bind at 1. rewrite f_read_header.
  unfold io_bind at 1. unfold io_lift at 1. rewrite Hm. simpl.
  destruct (Z.eqb_spec magic 0x61561) as [-> | Hne]; simpl.
  - destruct Hbad as [? | (version & Hv & Hne)]; [done |].
    unfold io_bind at 1. unfold io_lift at 1. rewrite Hv. simpl.
    destruct (Z.eqb_spec version 2) as [-> | _]; [done |].
    simpl. eauto.
  - eauto.
Qed.

(** C7.  When the magic number of the header is not [0x61561], or its
    version is not 2, [readBsddb] fails with the [AssertionError] of its
    [assert], and the only read it has made is the read of the 60 bytes
    of the header at offset 0: no page is read. *)
Theorem readBsddb_bad_header (content : bytes) (magic : Z) :
  getLongBE (header content) 0 = Ok magic ->
  (magic <> 0x61561 \/
   exists version, getLongBE (header content) 4 = Ok version /\ version <> 2) ->
  exists msg,
    (readBsddb content).1 = Raise (AssertionError msg) /\
    reads (readBsddb content).2 = [(0, 60)].
Proof.
  intros Hm Hbad.
  destruct (readBsddb_file_bad_header content magic Hm Hbad) as (msg & Hf).
  exists msg. unfold readBsddb. rewrite Hf. done.
Qed.

(** A file of 60 bytes whose magic number is [0x00061562]. *)
Lemma readBsddb_bad_header_witness :
  exists msg,
    (readBsddb (hex "00061562" ++ replicate 56 x00)).1 = Raise (AssertionError msg) /\
    reads (readBsddb (hex "00061562" ++ replicate 56 x00)).2 = [(0, 60)].
Proof.
  apply (readBsddb_bad_header (hex "00061562" ++ replicate 56 x00) 0x61562).
  - vm_compute. reflexivity.
  - left. lia.
Defined.

(** A header with the right magic number and version 3 is refused in
    the same way. *)
Lemma readBsddb_bad_version :
  readBsddb (hex "0006156100000003" ++ replicate 52 x00)
    = (Raise (AssertionError "bad version 3 (expected 2 for BSD DB 1.85)"),
       Handle 60 [(0, 60)]).
Proof. vm_compute. reflexivity. Qed.

(** The loops of [readBsddb] end. *)

Lemma getShortLE_Ok_length d a v : 0 <= a -> getShortLE d a = Ok v -> a + 2 <= len d.
Proof.
  intros Ha. unfold getShortLE, unpack_H_le.
  pose proof (length_slice d a (a + 2) ltac:(lia) ltac:(lia)) as Hl.
  destruct (slice d a (a + 2)) as [| b0 [| b1 [| b2 s]]]; try discriminate.
  intros _. unfold len in *. simpl in Hl. lia.
Qed.

Lemma getLongBE_Ok_nonneg d a v : getLongBE d a = Ok v -> 0 <= v.
Proof.
  unfold getLongBE, unpack_L_be.
  destruct (slice d a (a + 4)) as [| b0 [| b1 [| b2 [| b3 [| b4 s]]]]]; try discriminate.
  intros [= <-].
  pose proof (byte_to_Z_range b0). pose proof (byte_to_Z_range b1).
  pose proof (byte_to_Z_range b2). pose proof (byte_to_Z_range b3). lia.
Qed.

(** The walk over the offset table stops by itself: each round needs
    four more bytes of the table. *)
Lemma readBsddb_offsets_fuel offsets pagesize page n :
  forall i nval val keys readkeys offsetVals,
    0 <= i -> len offsets < i + 10 + 4 * Z.of_nat n ->
    readBsddb_offsets (S n) offsets pagesize page i nval val keys readkeys offsetVals
      <> Raise OutOfFuel.
Proof.
  induction n as [| n IH]; intros i nval val keys readkeys offsetVals Hi Hl.
  - cbn [readBsddb_offsets]. destruct (bool_decide (nval ≠ val)); [| done].
    destruct (getShortLE offsets (2 + i)) as [key |] eqn:E1; simpl;
      [| unfold getShortLE, unpack_H_le in E1; repeat case_match; congruence].
    destruct (getShortLE offsets (4 + i)) as [val' |] eqn:E2; simpl;
      [| unfold getShortLE, unpack_H_le in E2; repeat case_match; congruence].
    destruct (getShortLE offsets (8 + i)) as [nval' |] eqn:E3; simpl;
      [| unfold getShortLE, unpack_H_le in E3; repeat case_match; congruence].
    apply getShortLE_Ok_length in E3; lia.
  - remember (S n) as m eqn:Hm. cbn [readBsddb_offsets].
    destruct (bool_decide (nval ≠ val)); [| done].
    destruct (getShortLE offsets (2 + i)) as [key |] eqn:E1; simpl;
      [| unfold getShortLE, unpack_H_le in E1; repeat case_match; congruence].
    destruct (getShortLE offsets (4 + i)) as [val' |] eqn:E2; simpl;
      [| unfold getShortLE, unpack_H_le in E2; repeat case_match; congruence].
    destruct (getShortLE offsets (8 + i)) as [nval' |] eqn:E3; simpl;
      [| unfold getShortLE, unpack_H_le in E3; repeat case_match; congruence].
    subst m. apply IH; lia.
Qed.

(** Each walk that starts counts at least one key. *)
Lemma readBsddb_offsets_readkeys offsets pagesize page n :
  forall i nval val keys readkeys offsetVals keys' readkeys' offsetVals',
    readBsddb_offsets n offsets pagesize page i nval val keys readkeys offsetVals
      = Ok (keys', readkeys', offsetVals') ->
    readkeys <= readkeys' /\ (nval <> val -> readkeys < readkeys').
Proof.
  induction n as [| n IH]; intros i nval val keys readkeys offsetVals keys' readkeys' ovs' H;
    cbn [readBsddb_offsets] in H.
  - destruct (decide (nval ≠ val)) as [Hne | He].
    + rewrite bool_decide_eq_true_2 in H by done. discriminate.
    + rewrite bool_decide_eq_false_2 in H by done. injection H as <- <- <-. lia.
  - destruct (decide (nval ≠ val)) as [Hne | He].
    + rewrite bool_decide_eq_true_2 in H by done.
      apply bind_Ok in H as (key & _ & H). apply bind_Ok in H as (val' & _ & H).
      apply bind_Ok in H as (nval' & _ & H). apply IH in H. lia.
    + rewrite bool_decide_eq_false_2 in H by done. injection H as <- <- <-. lia.
Qed.

Lemma f_seek_not_OutOfFuel p h : (f_seek p h).1 <> Raise OutOfFuel.
Proof. unfold f_seek. by destruct (p <? 0). Qed.

Lemma list_getitem_not_OutOfFuel {A} (l : list A) i : list_getitem l i <> Raise OutOfFuel.
Proof. unfold list_getitem. repeat case_match; done. Qed.

Lemma readBsddb_records_not_OutOfFuel content valKey idx : forall db1 h,
  (readBsddb_records content valKey idx db1 h).1 <> Raise OutOfFuel.
Proof.
  induction idx as [| i idx IH]; intros db1 h; cbn [readBsddb_records]; [done |].
  unfold io_bind at 1. unfold io_lift at 1.
  pose proof (list_getitem_not_OutOfFuel valKey i) as Ha.
  destruct (list_getitem valKey i) as [a |]; simpl; [| congruence].
  unfold io_bind at 1. pose proof (f_seek_not_OutOfFuel a h) as Hs.
  destruct (f_seek a h) as [[[] |] h1]; simpl in *; [| congruence].
  unfold io_bind at 1. unfold io_lift at 1.
  pose proof (list_getitem_not_OutOfFuel valKey (i + 1)) as Hb.
  destruct (list_getitem valKey (i + 1)) as [b |]; simpl; [| congruence].
  unfold io_bind at 1. unfold f_read at 1. simpl. apply IH.
Qed.

Lemma length_f_read content n h data h' :
  0 <= n -> 0 <= pos h -> f_read content n h = (Ok data, h') -> len data <= n.
Proof.
  intros Hn Hp. unfold f_read. destruct (Z.ltb_spec n 0); [lia |].
  intros [= <- _]. pose proof (len_nonneg content).
  rewrite length_slice by lia. lia.
Qed.

(** The loop over the pages ends: each page counts at least one key. *)
Lemma readBsddb_pages_fuel content pagesize nkeys n :
  forall readkeys page db1 h,
    0 <= nkeys -> 0 <= pagesize -> 0 <= page ->
    nkeys - readkeys <= Z.of_nat n ->
    (readBsddb_pages n content pagesize nkeys readkeys page db1 h).1 <> Raise OutOfFuel.
Proof.
  induction n as [| n IH]; intros readkeys page db1 h Hk Hps Hpg Hn;
    cbn [readBsddb_pages].
  - destruct (Z.ltb_spec readkeys nkeys); [lia | done].
  - destruct (Z.ltb_spec readkeys nkeys); [| done].
    unfold io_bind at 1. unfold f_seek at 1.
    destruct (Z.ltb_spec (pagesize * page) 0); [done |]. cbv beta iota.
    unfold io_bind at 1.
    destruct (f_read content ((nkeys + 1) * 4 + 2) (Handle (pagesize * page) (reads h)))
      as [[offsets |] h1] eqn:Er; [| by (unfold f_read in Er; repeat case_match)].
    apply length_f_read in Er as Hlo; [| lia | simpl; lia]. cbv beta iota.
    unfold io_bind at 1. unfold io_lift at 1.
    pose proof (readBsddb_offsets_fuel offsets pagesize page (Z.to_nat nkeys)
                  0 0 1 0 readkeys [] ltac:(lia) ltac:(lia)) as Hf.
    destruct (readBsddb_offsets _ _ _ _ _ _ _ _ _ _) as [[[keys readkeys'] offsetVals] |] eqn:Eo;
      [| simpl; congruence].
    apply readBsddb_offsets_readkeys in Eo as [_ Hlt]. specialize (Hlt ltac:(lia)).
    cbv beta iota. unfold io_bind at 1.
    match goal with |- context [readBsddb_records ?c ?v ?i ?d ?hh] =>
      pose proof (readBsddb_records_not_OutOfFuel c v i d hh) as Hrec;
      destruct (readBsddb_records c v i d hh) as [[db1' |] h2] end;
      simpl in *; [| done].
    apply IH; lia.
Qed.

Lemma readBsddb_dict_not_OutOfFuel db1 : forall db,
  readBsddb_dict db1 db <> Raise OutOfFuel.
Proof.
  induction db1 as [db1 IH] using (induction_ltof1 _ length). unfold ltof in IH.
  intros db. destruct db1 as [| v [| k rest]]; simpl; [done | done |].
  apply IH. simpl. lia.
Qed.

(** [readBsddb] ends on every file: the fuel of its loops is never
    spent. *)
Lemma readBsddb_total content : (readBsddb content).1 <> Raise OutOfFuel.
Proof.
  unfold readBsddb.
  assert ((readBsddb_file content open_rb).1 <> Raise OutOfFuel) as Hf.
  { unfold readBsddb_file. unfold io_bind at 1. rewrite f_read_header. cbv beta iota.
    unfold io_bind at 1. unfold io_lift at 1.
    destruct (getLongBE (header content) 0) as [magic |] eqn:Em;
      [| unfold getLongBE, unpack_L_be in Em; repeat case_match; simpl; congruence].
    cbv beta iota. destruct (negb (magic =? 398689)); [done |].
    unfold io_bind at 1. unfold io_lift at 1.
    destruct (getLongBE (header content) 4) as [version |] eqn:Ev;
      [| unfold getLongBE, unpack_L_be in Ev; repeat case_match; simpl; congruence].
    cbv beta iota. destruct (negb (version =? 2)); [done |].
    unfold io_bind at 1. unfold io_lift at 1.
    destruct (getLongBE (header content) 12) as [pagesize |] eqn:Ep;
      [| unfold getLongBE, unpack_L_be in Ep; repeat case_match; simpl; congruence].
    cbv beta iota. unfold io_bind at 1. unfold io_lift at 1.
    destruct (getLongBE (header content) 56) as [nkeys |] eqn:En;
      [| unfold getLongBE, unpack_L_be in En; repeat case_match; simpl; congruence].
    cbv beta iota.
    apply getLongBE_Ok_nonneg in Ep, En.
    apply readBsddb_pages_fuel; lia. }
  destruct (readBsddb_file content open_rb) as [[db1 |] h]; simpl in *; [| congruence].
  apply readBsddb_dict_not_OutOfFuel.
Qed.

(** ** Cipher block chaining *)

Lemma byte_xor_involutive a b : byte_xor (byte_xor a b) b = a.
Proof.
  unfold byte_xor.
  destruct (Byte.to_bits a) as [a0 [a1 [a2 [a3 [a4 [a5 [a6 a7]]]]]]] eqn:Ea.
  destruct (Byte.to_bits b) as [b0 [b1 [b2 [b3 [b4 [b5 [b6 b7]]]]]]] eqn:Eb.
  rewrite Byte.to_bits_of_bits.
  rewrite !xorb_assoc, !xorb_nilpotent, !xorb_false_r.
  rewrite <- Ea. apply Byte.of_bits_to_bits.
Qed.

Lemma length_strxor a b : length (strxor a b) = (length a `min` length b)%nat.
Proof. apply length_zip_with. Qed.

Lemma strxor_involutive a b :
  (length a <= length b)%nat -> strxor (strxor a b) b = a.
Proof.
  unfold strxor. revert b. induction a as [| x a IH]; intros [| y b] Hl; simpl in *;
    try done; try lia.
  rewrite byte_xor_involutive, IH by lia. done.
Qed.

Section CBC.
Variables (E D : bytes -> bytes) (bs : nat).
Hypothesis E_length : forall b, length b = bs -> length (E b) = bs.
Hypothesis D_length : forall b, length b = bs -> length (D b) = bs.

Lemma length_cbc_decrypt n : forall prev data,
  length prev = bs -> length data = (n * bs)%nat ->
  length (cbc_decrypt D bs n prev data) = length data.
Proof using D_length.
  induction n as [| n IH]; intros prev data Hp Hd; simpl in *.
  - lia.
  - rewrite length_app, length_strxor, D_length, Hp by (rewrite length_take; lia).
    rewrite IH; rewrite ?length_take, ?length_drop; lia.
Qed.

Lemma length_cbc_encrypt n : forall prev data,
  length prev = bs -> length data = (n * bs)%nat ->
  length (cbc_encrypt E bs n prev data) = length data.
Proof using E_length.
  induction n as [| n IH]; intros prev data Hp Hd; simpl in *.
  - lia.
  - assert (length (E (strxor (take bs data) prev)) = bs) as Hc.
    { apply E_length. rewrite length_strxor, length_take. lia. }
    rewrite length_app, Hc.
    rewrite IH; rewrite ?length_drop; lia.
Qed.

Hypothesis D_E : forall b, length b = bs -> D (E b) = b.

(** Decryption undoes encryption, block after block. *)
Lemma cbc_decrypt_encrypt n : forall prev data,
  length prev = bs -> length data = (n * bs)%nat ->
  cbc_decrypt D bs n prev (cbc_encrypt E bs n prev data) = data.
Proof using E_length D_E.
  induction n as [| n IH]; intros prev data Hp Hd; simpl in *.
  - destruct data; [done | simpl in Hd; lia].
  - assert (length (strxor (take bs data) prev) = bs) as Hx.
    { rewrite length_strxor, length_take. lia. }
    pose proof (E_length _ Hx) as Hc.
    rewrite take_app_length' by done. rewrite drop_app_length' by done.
    rewrite D_E by done.
    rewrite strxor_involutive by (rewrite length_take; lia).
    rewrite IH by (rewrite ?length_drop; lia).
    apply take_drop.
Qed.

End CBC.

Section Derivation.
Context {L : Library} {I : Interpreter}.

Lemma len_mod_div (data : bytes) (bs : nat) :
  (0 < bs)%nat -> len data mod Z.of_nat bs = 0 ->
  length data = (length data / bs * bs)%nat.
Proof.
  intros Hb Hm. unfold len in Hm.
  assert (length data mod bs = 0)%nat as Hn.
  { apply Nat2Z.inj. rewrite Nat2Z.inj_mod. exact Hm. }
  pose proof (Nat.div_mod_eq (length data) bs). lia.
Qed.

Lemma DES3_CBC_decrypt_Ok key iv data p :
  DES3_CBC_decrypt key iv data = Ok p ->
  DES3_key_ok key = true /\ length iv = 8%nat /\ len data mod 8 = 0 /\
  p = cbc_decrypt (DES3_D key) 8 (length data / 8) iv data.
Proof.
  unfold DES3_CBC_decrypt.
  destruct (DES3_key_ok key); simpl; [| discriminate].
  destruct (Z.eqb_spec (len iv) 8) as [Hi |]; simpl; [| discriminate].
  destruct (Z.eqb_spec (len data mod 8) 0) as [Hd |]; simpl; [| discriminate].
  intros [= <-]. unfold len in Hi. repeat split; [lia | done].
Qed.

Lemma DES3_CBC_encrypt_Ok key iv data c :
  DES3_CBC_encrypt key iv data = Ok c ->
  DES3_key_ok key = true /\ length iv = 8%nat /\ len data mod 8 = 0 /\
  c = cbc_encrypt (DES3_E key) 8 (length data / 8) iv data.
Proof.
  unfold DES3_CBC_encrypt.
  destruct (DES3_key_ok key); simpl; [| discriminate].
  destruct (Z.eqb_spec (len iv) 8) as [Hi |]; simpl; [| discriminate].
  destruct (Z.eqb_spec (len data mod 8) 0) as [Hd |]; simpl; [| discriminate].
  intros [= <-]. unfold len in Hi. repeat split; [lia | done].
Qed.

Lemma AES_CBC_decrypt_Ok key iv data p :
  AES_CBC_decrypt key iv data = Ok p ->
  length iv = 16%nat /\ len data mod 16 = 0 /\
  p = cbc_decrypt (AES_D key) 16 (length data / 16) iv data.
Proof.
  unfold AES_CBC_decrypt.
  destruct (bool_decide _); simpl; [| discriminate].
  destruct (Z.eqb_spec (len iv) 16) as [Hi |]; simpl; [| discriminate].
  destruct (Z.eqb_spec (len data mod 16) 0) as [Hd |]; simpl; [| discriminate].
  intros [= <-]. unfold len in Hi. repeat split; [lia | done].
Qed.

Context {laws : LibraryLaws L}.

(** The cipher returns as many bytes as it is given: no padding is
    removed. *)
Lemma DES3_CBC_decrypt_length key iv data p :
  DES3_CBC_decrypt key iv data = Ok p -> length p = length data.
Proof.
  intros H. apply DES3_CBC_decrypt_Ok in H as (_ & Hi & Hd & ->).
  apply length_cbc_decrypt; [apply DES3_D_length | done |].
  apply (len_mod_div data 8); [lia | done].
Qed.

Lemma AES_CBC_decrypt_length key iv data p :
  AES_CBC_decrypt key iv data = Ok p -> length p = length data.
Proof.
  intros H. apply AES_CBC_decrypt_Ok in H as (Hi & Hd & ->).
  apply length_cbc_decrypt; [apply AES_D_length | done |].
  apply (len_mod_div data 16); [lia | done].
Qed.

Lemma DES3_CBC_round_trip key iv data c :
  DES3_CBC_encrypt key iv data = Ok c -> DES3_CBC_decrypt key iv c = Ok data.
Proof.
  intros H. apply DES3_CBC_encrypt_Ok in H as (Hk & Hi & Hd & ->).
  pose proof (len_mod_div data 8 ltac:(lia) Hd) as Hn.
  assert (length (cbc_encrypt (DES3_E key) 8 (length data / 8) iv data) = length data) as Hc.
  { apply length_cbc_encrypt; [apply DES3_E_length | done | done]. }
  set (c := cbc_encrypt _ _ _ _ _) in *.
  assert ((len iv =? 8) = true) as Hiv by (unfold len; rewrite Hi; done).
  assert ((len c mod 8 =? 0) = true) as Hcm
    by (unfold len in *; rewrite Hc, Hd; done).
  unfold DES3_CBC_decrypt. rewrite Hk, Hiv, Hcm. simpl. rewrite Hc.
  f_equal. apply cbc_decrypt_encrypt;
    [apply DES3_E_length | intros; apply DES3_D_E; done | done | done].
Qed.

End Derivation.

(** ** The instance satisfies the laws *)

Lemma length_toy_block n k b : length b = n -> length (Toy.block n k b) = n.
Proof.
  intros Hb. unfold Toy.block.
  rewrite length_strxor, length_take, length_app, length_replicate. lia.
Qed.

Lemma toy_block_involutive n k b : length b = n -> Toy.block n k (Toy.block n k b) = b.
Proof.
  intros Hb. unfold Toy.block. apply strxor_involutive.
  rewrite length_take, length_app, length_replicate. lia.
Qed.

Lemma length_toy_digest n m : length (Toy.digest n m) = n.
Proof. unfold Toy.digest. by rewrite length_fmap, length_seq. Qed.

Lemma toy_laws : LibraryLaws Toy.library.
Proof.
  split.
  - intros m. apply length_toy_digest.
  - intros k m. apply length_toy_digest.
  - intros k b. apply length_toy_block.
  - intros k b. apply length_toy_block.
  - intros k b _. apply toy_block_involutive.
  - intros k b. apply length_toy_block.
Qed.

(** ** Key derivation *)

Section KeyDerivation.
Context {L : Library} {I : Interpreter}.

(** C1.  For an entry salt of at most 20 bytes, [decryptMoz3DES] is
    [legacy3DES] of the specification: it derives the same key and IV
    through [hp], [pes] (the salt padded with zero bytes to 20 bytes),
    [chp], [k1], [tk] and [k2], and returns what triple DES in CBC mode
    returns under them, as it is. *)
Theorem decryptMoz3DES_is_legacy3DES (globalSalt masterPassword entrySalt ciphertext : bytes) :
  (length entrySalt <= 20)%nat ->
  length (pad_right 20 entrySalt) = 20%nat
  /\ decryptMoz3DES_key_iv globalSalt masterPassword entrySalt
     = legacy3DES_key_iv globalSalt masterPassword entrySalt
  /\ decryptMoz3DES globalSalt masterPassword entrySalt ciphertext
     = legacy3DES globalSalt masterPassword entrySalt ciphertext.
Proof.
  intros Hl.
  assert (decryptMoz3DES_key_iv globalSalt masterPassword entrySalt
          = legacy3DES_key_iv globalSalt masterPassword entrySalt) as Hk.
  { unfold decryptMoz3DES_key_iv, legacy3DES_key_iv, pad_right, last_bytes.
    rewrite bytes_mul_replicate, resize_ge by done.
    replace (Z.to_nat (20 - len entrySalt)) with (20 - length entrySalt)%nat
      by (unfold len; lia).
    rewrite (slice_from_neg _ 8) by lia. rewrite slice_to_take by lia. done. }
  split; [apply length_resize |]. split; [done |].
  unfold decryptMoz3DES, legacy3DES. rewrite Hk.
  by destruct (legacy3DES_key_iv _ _ _).
Qed.

Context {laws : LibraryLaws L}.

(** The key has 24 bytes and the IV 8 bytes, whatever the salts. *)
Lemma decryptMoz3DES_key_iv_length globalSalt masterPassword entrySalt :
  length (decryptMoz3DES_key_iv globalSalt masterPassword entrySalt).1 = 24%nat /\
  length (decryptMoz3DES_key_iv globalSalt masterPassword entrySalt).2 = 8%nat.
Proof.
  unfold decryptMoz3DES_key_iv. simpl.
  rewrite (slice_from_neg _ 8) by lia. rewrite slice_to_take by lia.
  rewrite length_take, length_drop, !length_app, !hmac_sha1_length. lia.
Qed.

(** Nothing is removed from what the cipher returns. *)
Lemma decryptMoz3DES_length globalSalt masterPassword entrySalt ciphertext p :
  decryptMoz3DES globalSalt masterPassword entrySalt ciphertext = Ok p ->
  length p = length ciphertext.
Proof.
  unfold decryptMoz3DES. destruct (decryptMoz3DES_key_iv _ _ _).
  apply DES3_CBC_decrypt_length.
Qed.

(** C8.  A plaintext encrypted by triple DES in CBC mode under the key
    and the IV that [decryptMoz3DES] derives is returned by
    [decryptMoz3DES] on the resulting ciphertext, for the same salts and
    password. *)
Theorem decryptMoz3DES_round_trip
    (globalSalt masterPassword entrySalt plaintext ciphertext : bytes) :
  DES3_CBC_encrypt (decryptMoz3DES_key_iv globalSalt masterPassword entrySalt).1
    (decryptMoz3DES_key_iv globalSalt masterPassword entrySalt).2 plaintext
    = Ok ciphertext ->
  decryptMoz3DES globalSalt masterPassword entrySalt ciphertext = Ok plaintext.
Proof.
  unfold decryptMoz3DES. destruct (decryptMoz3DES_key_iv _ _ _) as [key iv]. simpl.
  apply DES3_CBC_round_trip.
Qed.

(** The encryption of C8 is possible for every plaintext whose length
    is a multiple of 8, as soon as [DES3.new] accepts the derived key. *)
Lemma decryptMoz3DES_encrypt_Ok globalSalt masterPassword entrySalt plaintext :
  DES3_key_ok (decryptMoz3DES_key_iv globalSalt masterPassword entrySalt).1 = true ->
  len plaintext mod 8 = 0 ->
  is_Ok (DES3_CBC_encrypt (decryptMoz3DES_key_iv globalSalt masterPassword entrySalt).1
           (decryptMoz3DES_key_iv globalSalt masterPassword entrySalt).2 plaintext).
Proof.
  intros Hk Hp. destruct (decryptMoz3DES_key_iv_length globalSalt masterPassword entrySalt)
    as [_ Hi].
  unfold DES3_CBC_encrypt. rewrite Hk. unfold len in *. rewrite Hi, Hp. simpl. by eexists.
Qed.

End KeyDerivation.

(** An entry salt of 2 bytes, under the instance. *)
Lemma decryptMoz3DES_is_legacy3DES_witness :
  length (pad_right 20 [xaa; xbb]) = 20%nat
  /\ decryptMoz3DES_key_iv (L := Toy.library) (b_ "salt") [] [xaa; xbb]
     = legacy3DES_key_iv (L := Toy.library) (b_ "salt") [] [xaa; xbb]
  /\ decryptMoz3DES (L := Toy.library) (b_ "salt") [] [xaa; xbb] (replicate 8 x00)
     = legacy3DES (L := Toy.library) (b_ "salt") [] [xaa; xbb] (replicate 8 x00).
Proof.
  apply (decryptMoz3DES_is_legacy3DES (L := Toy.library)). simpl. lia.
Defined.

(** The check value [password_check], encrypted and decrypted under the
    instance. *)
Lemma decryptMoz3DES_round_trip_witness :
  decryptMoz3DES (L := Toy.library) (b_ "salt") [] [xaa; xbb]
    (hex "c4d5c7c73b233e2815cb51dd58c93ea9") = Ok password_check.
Proof.
  apply (decryptMoz3DES_round_trip (L := Toy.library) (laws := toy_laws)).
  vm_compute. reflexivity.
Defined.

(** ** The PBE dispatch *)

Lemma dotted_pbeWithSha1AndTripleDES_CBC :
  dotted arcs_pbeWithSha1AndTripleDES_CBC = oid_pbeWithSha1AndTripleDES_CBC.
Proof. vm_compute. reflexivity. Qed.

Lemma dotted_pbes2 : dotted arcs_pbes2 = oid_pbes2.
Proof. vm_compute. reflexivity. Qed.

Lemma dotted_PBKDF2 : dotted arcs_PBKDF2 = oid_PBKDF2.
Proof. vm_compute. reflexivity. Qed.

Lemma dotted_hmacWithSHA256 : dotted arcs_hmacWithSHA256 = oid_hmacWithSHA256.
Proof. vm_compute. reflexivity. Qed.

Lemma dotted_aes256_CBC : dotted arcs_aes256_CBC = oid_aes256_CBC.
Proof. vm_compute. reflexivity. Qed.

Section Dispatch.
Context {L : Library} {I : Interpreter}.

Lemma oid_pbes2_not_3DES : oid_pbes2 <> oid_pbeWithSha1AndTripleDES_CBC.
Proof. discriminate. Qed.

(** The places of the PBES2 structure that [decryptPBE] visits. *)
Lemma pbes2_item_paths entrySalt iterationCount keyLength ivTail cipherT :
  let item := pbes2_item entrySalt iterationCount keyLength ivTail cipherT in
  item @ [0; 0] = Ok (ObjectIdentifier arcs_pbes2)
  /\ item @ [0; 1; 0; 0] = Ok (ObjectIdentifier arcs_PBKDF2)
  /\ item @ [0; 1; 0; 1; 3; 0] = Ok (ObjectIdentifier arcs_hmacWithSHA256)
  /\ item @ [0; 1; 1; 0] = Ok (ObjectIdentifier arcs_aes256_CBC)
  /\ item @ [0; 1; 0; 1; 0] = Ok (OctetString entrySalt)
  /\ item @ [0; 1; 0; 1; 1] = Ok (Integer iterationCount)
  /\ item @ [0; 1; 0; 1; 2] = Ok (Integer keyLength)
  /\ item @ [0; 1; 1; 1] = Ok (OctetString ivTail)
  /\ item @ [1] = Ok (OctetString cipherT).
Proof. repeat split; reflexivity. Qed.

(** What [decryptPBE] does on the PBES2 structure, for any key length:
    the three object identifiers pass their [assert], the key length is
    compared with 32, and then the derivation runs. *)
Lemma decryptPBE_pbes2_item entrySalt iterationCount keyLength ivTail cipherT rest
    masterPassword globalSalt :
  decryptPBE (pbes2_item entrySalt iterationCount keyLength ivTail cipherT, rest)
    masterPassword globalSalt
  = (_ <- assert (keyLength =? 32);
     key <- pbkdf2_hmac_sha256 (sha1 (globalSalt ++ masterPassword)) entrySalt
              iterationCount keyLength;
     clearText <- AES_CBC_decrypt key ([x04; x0e] ++ ivTail) cipherT;
     Ok (Some (clearText, oid_pbes2))).
Proof.
  destruct (pbes2_item_paths entrySalt iterationCount keyLength ivTail cipherT)
    as (P1 & P2 & P3 & P4 & P5 & P6 & P7 & P8 & P9).
  unfold decryptPBE. cbn [fst].
  rewrite P1, P2, P3, P4, P5, P6, P7, P8, P9.
  cbn [fmap_result bind py_str asOctets py_int].
  rewrite dotted_pbes2, dotted_PBKDF2, dotted_hmacWithSHA256, dotted_aes256_CBC.
  rewrite (bool_decide_eq_false_2 _ oid_pbes2_not_3DES).
  rewrite !bool_decide_eq_true_2 by done.
  reflexivity.
Qed.

(** C3.  On the PBES2 structure with a key length of 32, [decryptPBE]
    returns what [pbes2AesPbkdf2] of the specification returns, with the
    identifier of the scheme: the seed is the SHA-1 digest of the global
    salt followed by the password, the key the 32 bytes that PBKDF2 with
    HMAC-SHA256 derives from it, the IV the two bytes [04 0e] followed by
    the IV of the structure, and the clear text the AES-CBC decryption
    under them. *)
Theorem decryptPBE_pbes2 (globalSalt masterPassword entrySalt : bytes)
    (iterationCount : Z) (ivTail cipherT rest : bytes) :
  decryptPBE (pbes2_item entrySalt iterationCount 32 ivTail cipherT, rest)
    masterPassword globalSalt
  = (fun clearText => Some (clearText, oid_pbes2))
      <$$> pbes2AesPbkdf2 globalSalt masterPassword entrySalt iterationCount
             ivTail cipherT.
Proof.
  rewrite decryptPBE_pbes2_item. unfold pbes2AesPbkdf2. simpl.
  destruct (pbkdf2_hmac_sha256 _ _ _ _); simpl; [| done].
  destruct (AES_CBC_decrypt _ _ _); done.
Qed.

(** The part of C6 that the code has: a key length other than 32 stops
    [decryptPBE] at its [assert keyLength == 32]. *)
Lemma decryptPBE_pbes2_key_length entrySalt iterationCount keyLength ivTail cipherT
    rest masterPassword globalSalt :
  keyLength <> 32 ->
  decryptPBE (pbes2_item entrySalt iterationCount keyLength ivTail cipherT, rest)
    masterPassword globalSalt
  = Raise (AssertionError "").
Proof.
  intros Hk. rewrite decryptPBE_pbes2_item.
  destruct (Z.eqb_spec keyLength 32); [done |]. reflexivity.
Qed.

(** C6 at the input where it fails.  When the object identifier at the
    head of the structure is neither that of
    [pbeWithSha1AndTripleDES-CBC] nor that of PBES2, [decryptPBE] raises
    nothing: it reaches the end of its [if]/[elif] and returns [None]. *)
Theorem decryptPBE_unknown_algorithm (arcs : list Z) (params : list asn1)
    (tail : list asn1) (rest masterPassword globalSalt : bytes) :
  dotted arcs <> oid_pbeWithSha1AndTripleDES_CBC ->
  dotted arcs <> oid_pbes2 ->
  decryptPBE (Sequence (Sequence (ObjectIdentifier arcs :: params) :: tail), rest)
    masterPassword globalSalt
  = Ok None.
Proof.
  intros H1 H2. unfold decryptPBE. cbn [fst].
  change (Sequence (Sequence (ObjectIdentifier arcs :: params) :: tail) @ [0; 0])
    with (Ok (ObjectIdentifier arcs)).
  cbn [fmap_result bind py_str].
  rewrite !bool_decide_eq_false_2 by done. reflexivity.
Qed.

(** The callers unpack the result at once, which then fails. *)
Lemma unpack_pair_None {A B} : unpack_pair (@None (A * B)) = Raise TypeError.
Proof. reflexivity. Qed.

End Dispatch.

(** On such a check value [getKey] fails when it unpacks the result of
    [decryptPBE]. *)
Lemma getKey_unknown_algorithm {L : Library} {I : Interpreter} masterPassword p db k3
    globalSalt item2 out
    decodedItem2 :
  select_password db = Some (globalSalt, item2) ->
  printASN1 item2 (len item2) 0 = Ok out ->
  der_decode item2 = Ok decodedItem2 ->
  decryptPBE decodedItem2 masterPassword globalSalt = Ok None ->
  getKey masterPassword {| path := p; key4_db := Some db; key3_db := k3 |}
    = Raise TypeError.
Proof.
  intros Hs Hp Hd Hpbe. unfold getKey. cbn [key4_db key3_db].
  rewrite Hs, Hp. cbn [bind]. rewrite Hd. cbn [bind]. rewrite Hpbe. reflexivity.
Qed.

(** The structure [SEQUENCE { SEQUENCE { OID pkcs-1, NULL }, OCTETSTRING }]. *)
Lemma decryptPBE_unknown_algorithm_witness :
  decryptPBE (L := Toy.library)
    (Sequence [Sequence [ObjectIdentifier arcs_pkcs_1; Null]; OctetString []], [])
    [] (b_ "salt")
  = Ok None.
Proof.
  apply (decryptPBE_unknown_algorithm (L := Toy.library));
    vm_compute; discriminate.
Defined.

(** ** Master-key extraction *)

Lemma CKA_ID_unhexlify : unhexlify "f8000000000000000000000000000001" = Some CKA_ID.
Proof. reflexivity. Qed.

Section Extraction.
Context {L : Library} {I : Interpreter}.

(** [extractSecretKey] up to its password check. *)
Lemma extractSecretKey_check masterPassword keyData :
  extractSecretKey masterPassword keyData
  = (cleartextData <- key3_check_value masterPassword keyData;
     if bool_decide (cleartextData <> password_check)
     then Raise (RuntimeError password_check_error)
     else
       match keyData !! CKA_ID with
       | None => Ok None
       | Some _ => extractSecretKey masterPassword keyData
       end).
Proof.
  unfold extractSecretKey, key3_check_value.
  destruct (dict_getitem keyData (b_ "password-check")) as [pwdCheck |]; simpl; [| done].
  destruct (getitem pwdCheck 1) as [entrySaltLen |]; simpl; [| done].
  destruct (dict_getitem keyData (b_ "global-salt")) as [globalSalt |]; simpl; [| done].
  destruct (decryptMoz3DES _ _ _ _) as [cleartextData |]; simpl; [| done].
  destruct (bool_decide _); [done |].
  destruct (keyData !! CKA_ID); done.
Qed.

(** The half of C2 that the code has: on the legacy path a clear text
    other than the check value raises the [RuntimeError] of the password
    check. *)
Lemma extractSecretKey_check_fails masterPassword keyData cleartextData :
  key3_check_value masterPassword keyData = Ok cleartextData ->
  cleartextData <> password_check ->
  extractSecretKey masterPassword keyData = Raise (RuntimeError password_check_error).
Proof.
  intros Hc Hne. rewrite extractSecretKey_check, Hc. cbn [bind].
  by rewrite bool_decide_eq_true_2.
Qed.

(** C2 at the input where it fails.  On the modern path, when the clear
    text of the check value is not [password_check], [getKey] raises
    nothing: it returns the pair [(None, None)]. *)
Theorem getKey_key4_check_fails (masterPassword : bytes) (p : string) (db : Key4Db)
    (k3 : option bytes) :
  key4_check_fails masterPassword db ->
  getKey masterPassword {| path := p; key4_db := Some db; key3_db := k3 |}
    = Ok (None, None).
Proof.
  intros (globalSalt & item2 & out & decodedItem2 & clearText & algo &
          Hs & Hp & Hd & Hpbe & Hne).
  unfold getKey. cbn [key4_db key3_db]. rewrite Hs, Hp. cbn [bind].
  rewrite Hd. cbn [bind]. rewrite Hpbe. cbn [bind unpack_pair].
  by rewrite bool_decide_eq_false_2.
Qed.

(** C10.  On the legacy path, when the password check succeeds and the
    store has no record under [CKA_ID], [extractSecretKey] returns [None]
    and [getKey] returns [None] with the identifier of the triple-DES
    scheme; on the modern path, when the password check succeeds and no
    row of [nssPrivate] is selected, [getKey] raises the [RuntimeError]
    of the missing login. *)
Theorem getKey_no_private_key (masterPassword : bytes)
    (keyData : gmap bytes bytes) (content : bytes)
    (p : string) (db : Key4Db) (globalSalt : bytes) (k3 : option bytes) :
  key3_check_value masterPassword keyData = Ok password_check ->
  keyData !! CKA_ID = None ->
  (readBsddb content).1 = Ok keyData ->
  key4_check_passes masterPassword db globalSalt ->
  select_a11 db = None ->
  extractSecretKey masterPassword keyData = Ok None
  /\ getKey masterPassword {| path := p; key4_db := None; key3_db := Some content |}
     = Ok (None, Some oid_pbeWithSha1AndTripleDES_CBC)
  /\ getKey masterPassword {| path := p; key4_db := Some db; key3_db := k3 |}
     = Raise (RuntimeError no_saved_login).
Proof.
  intros Hc Hk Hr (item2 & out & decodedItem2 & algo & Hs & Hp & Hd & Hpbe) Ha.
  assert (extractSecretKey masterPassword keyData = Ok None) as He.
  { rewrite extractSecretKey_check, Hc. cbn [bind].
    rewrite bool_decide_eq_false_2 by (intros H; by apply H). by rewrite Hk. }
  split; [done |]. split.
  - unfold getKey. simpl. rewrite Hr. simpl. rewrite He. done.
  - unfold getKey. cbn [key4_db key3_db]. rewrite Hs, Hp. cbn [bind].
    rewrite Hd. cbn [bind]. rewrite Hpbe. cbn [bind unpack_pair].
    rewrite bool_decide_eq_true_2 by done. by rewrite Ha.
Qed.

(** The result of [extractSecretKey], when there is one, depends on the
    three records it looks up and on nothing else: not on the other
    records, and not on the interpreter. *)
Lemma extractSecretKey_records (I1 I2 : Interpreter) (masterPassword : bytes)
    (keyData keyData' : gmap bytes bytes) (r r' : option bytes) :
  (forall k, k ∈ key3_records -> keyData !! k = keyData' !! k) ->
  extractSecretKey (I := I1) masterPassword keyData = Ok r ->
  extractSecretKey (I := I2) masterPassword keyData' = Ok r' ->
  r = r'.
Proof.
  intros Hk. unfold extractSecretKey, dict_getitem, key3_records in *.
  rewrite <- !Hk by (rewrite !elem_of_cons; tauto).
  destruct (keyData !! b_ "password-check") as [pwdCheck |]; simpl; [| done].
  destruct (getitem pwdCheck 1) as [entrySaltLen |]; simpl; [| done].
  destruct (keyData !! b_ "global-salt") as [globalSalt |]; simpl; [| done].
  destruct (decryptMoz3DES _ _ _ _) as [cleartextData |]; simpl; [| done].
  destruct (bool_decide _); [done |].
  destruct (keyData !! CKA_ID) as [privKeyEntry |]; [| congruence].
  destruct (getitem privKeyEntry 1) as [saltLen |]; simpl; [| done].
  destruct (getitem privKeyEntry 2) as [nameLen |]; simpl; [| done].
  destruct (der_decode _) as [privKeyEntryASN1 |]; simpl; [| done].
  destruct (printASN1_fuel (recursion_room (Interpreter := I1)) _ _ _); simpl; [| done].
  destruct (printASN1_fuel (recursion_room (Interpreter := I2)) _ _ _); simpl; [| done].
  destruct (_ >>= asOctets) as [entrySalt |]; simpl; [| done].
  destruct (_ >>= asOctets) as [privKeyData |]; simpl; [| done].
  destruct (decryptMoz3DES _ _ _ _) as [privKey |]; simpl; [| done].
  destruct (printASN1_fuel (recursion_room (Interpreter := I1)) _ _ _); simpl; [| done].
  destruct (printASN1_fuel (recursion_room (Interpreter := I2)) _ _ _); simpl; [| done].
  destruct (der_decode privKey) as [privKeyASN1 |]; simpl; [| done].
  destruct (_ >>= asOctets) as [prKey |]; simpl; [| done].
  destruct (printASN1_fuel (recursion_room (Interpreter := I1)) _ _ _); simpl; [| done].
  destruct (printASN1_fuel (recursion_room (Interpreter := I2)) _ _ _); simpl; [| done].
  congruence.
Qed.

(** C9.  Two runs give the same key.
    - [decryptMoz3DES] reads its salt and its password through their
      concatenation only: runs on equal concatenations, entry salts and
      ciphertexts compute the same key, the same IV and the same clear
      text.
    - Two runs of [getKey] that return, on stores that hold the same
      key records, return the same pair, whatever else the stores hold
      and even when the interpreters of the two runs differ by their
      version and by the room their recursion limit leaves.
    - A store holds the same key records as itself, so two runs on the
      same store contents and password are such runs. *)
Theorem extraction_deterministic (I1 I2 : Interpreter) (masterPassword : bytes) :
  (forall globalSalt globalSalt' masterPassword' entrySalt ciphertext,
     globalSalt ++ masterPassword = globalSalt' ++ masterPassword' ->
     decryptMoz3DES_key_iv globalSalt masterPassword entrySalt
       = decryptMoz3DES_key_iv globalSalt' masterPassword' entrySalt
     /\ decryptMoz3DES globalSalt masterPassword entrySalt ciphertext
       = decryptMoz3DES globalSalt' masterPassword' entrySalt ciphertext)
  /\ (forall directory directory' r r',
        same_key_records directory directory' ->
        getKey (I := I1) masterPassword directory = Ok r ->
        getKey (I := I2) masterPassword directory' = Ok r' ->
        r = r')
  /\ (forall directory, same_key_records directory directory).
Proof.
  split; [| split].
  - intros globalSalt globalSalt' masterPassword' entrySalt ciphertext Hc.
    unfold decryptMoz3DES, decryptMoz3DES_key_iv. rewrite Hc. done.
  - intros directory directory' r r'. unfold same_key_records, getKey.
    destruct (key4_db directory) as [db |], (key4_db directory') as [db' |]; try done.
    + intros [<- <-].
      destruct (select_password db) as [[globalSalt item2] |]; [| done].
      destruct (printASN1 (I := I1) _ _ _); simpl; [| done].
      destruct (printASN1 (I := I2) _ _ _); simpl; [| done].
      destruct (der_decode item2) as [decodedItem2 |]; simpl; [| done].
      destruct (decryptPBE _ _ _ >>= unpack_pair) as [[clearText algo] |]; simpl; [| done].
      destruct (bool_decide _); [| congruence].
      destruct (select_a11 db) as [a11 |]; [| done].
      destruct (printASN1 (I := I1) _ _ _); simpl; [| done].
      destruct (printASN1 (I := I2) _ _ _); simpl; [| done].
      congruence.
    + destruct (key3_db directory) as [content |], (key3_db directory') as [content' |];
        try done.
      intros Hk.
      destruct (readBsddb content).1 as [keyData |]; simpl; [| done].
      destruct (readBsddb content').1 as [keyData' |]; simpl; [| done].
      specialize (Hk keyData keyData' eq_refl eq_refl).
      destruct (extractSecretKey (I := I1) _ _) as [key |] eqn:E1; simpl; [| done].
      destruct (extractSecretKey (I := I2) _ _) as [key' |] eqn:E2; simpl; [| done].
      rewrite (extractSecretKey_records I1 I2 _ _ _ _ _ Hk E1 E2). congruence.
  - intros directory. unfold same_key_records.
    destruct (key4_db directory); [done |].
    destruct (key3_db directory); [| done].
    intros keyData keyData' -> [= ->]. done.
Qed.

End Extraction.

(** ** The concrete stores *)

(** The check value and the two private-key records are PBES2
    structures with the same parameters; they differ by their encrypted
    blob. *)
Lemma Stores_item2_decode :
  Toy.decode Stores.item2
  = Ok (pbes2_item (hex "101112131415161718191a1b1c1d1e1f202122232425262728292a2b2c2d2e2f")
          1 32 (hex "a0a1a2a3a4a5a6a7a8a9aaabacad")
          (hex "661d01e0473e847399b612fe5b32fc1d"), []).
Proof. vm_compute. reflexivity. Qed.

Lemma Stores_a11_short_decode :
  Toy.decode Stores.a11_short
  = Ok (pbes2_item (hex "101112131415161718191a1b1c1d1e1f202122232425262728292a2b2c2d2e2f")
          1 32 (hex "a0a1a2a3a4a5a6a7a8a9aaabacad")
          (hex "573e31d77517b15ffd9f31d77517b14f"), []).
Proof. vm_compute. reflexivity. Qed.

Lemma Stores_a11_decode :
  Toy.decode Stores.a11
  = Ok (pbes2_item (hex "101112131415161718191a1b1c1d1e1f202122232425262728292a2b2c2d2e2f")
          1 32 (hex "a0a1a2a3a4a5a6a7a8a9aaabacad")
          (hex ("573e31d77517b15ffd9f31d77517b14f" ++
                "141eb0b1b2b3b4b5e7e5ebedefedebf5")%string), []).
Proof. vm_compute. reflexivity. Qed.

(** What [readBsddb] finds in the legacy stores. *)
Lemma Stores_key3_no_key_records :
  is_Ok_b (readBsddb Stores.key3_no_key).1 = true
  /\ Stores.key3_data Stores.key3_no_key !! b_ "global-salt" = Some (b_ "salt")
  /\ Stores.key3_data Stores.key3_no_key !! b_ "password-check"
     = Some (hex ("031400303132333435363738393a3b3c3d3e3f40414243" ++
                  "041507077b637e6815cb51dd58c93ea9")%string)
  /\ Stores.key3_data Stores.key3_no_key !! CKA_ID = None.
Proof.
  split; [vm_compute; reflexivity |]. split; [vm_compute; reflexivity |].
  split; vm_compute; reflexivity.
Qed.

Lemma Stores_key3_file_records :
  is_Ok_b (readBsddb Stores.key3_file).1 = true
  /\ Stores.key3_data Stores.key3_file !! b_ "global-salt" = Some (b_ "salt")
  /\ Stores.key3_data Stores.key3_file !! b_ "password-check"
     = Stores.key3_data Stores.key3_no_key !! b_ "password-check"
  /\ length <$> Stores.key3_data Stores.key3_file !! CKA_ID = Some 129%nat.
Proof.
  split; [vm_compute; reflexivity |]. split; [vm_compute; reflexivity |].
  split; vm_compute; reflexivity.
Qed.

(** The store [Stores.key4] under the password [b'wrong']. *)
Lemma getKey_key4_check_fails_witness :
  getKey (L := Toy.library) (I := python311) (b_ "wrong") (Stores.key4 Stores.a11)
    = Ok (None, None).
Proof.
  apply (getKey_key4_check_fails (L := Toy.library) (I := python311)).
  eexists _, _, _, _, _, _.
  split; [reflexivity |].
  split; [vm_compute; reflexivity |].
  split; [vm_compute; reflexivity |].
  split; [vm_compute; reflexivity |].
  vm_compute. discriminate.
Defined.

Lemma key3_data_Ok content :
  is_Ok_b (readBsddb content).1 = true ->
  (readBsddb content).1 = Ok (Stores.key3_data content).
Proof. unfold Stores.key3_data. by destruct (readBsddb content).1. Qed.

(** The legacy store without a key and the modern store without a key,
    under the empty password. *)
Lemma getKey_no_private_key_witness :
  extractSecretKey (L := Toy.library) (I := python311) []
    (Stores.key3_data Stores.key3_no_key) = Ok None
  /\ getKey (L := Toy.library) (I := python311) [] (Stores.key3 Stores.key3_no_key)
     = Ok (None, Some oid_pbeWithSha1AndTripleDES_CBC)
  /\ getKey (L := Toy.library) (I := python311) [] Stores.key4_no_key
     = Raise (RuntimeError no_saved_login).
Proof.
  apply (getKey_no_private_key (L := Toy.library) (I := python311) []
           (Stores.key3_data Stores.key3_no_key) Stores.key3_no_key "profile" _
           (b_ "salt") None).
  - vm_compute. reflexivity.
  - vm_compute. reflexivity.
  - apply key3_data_Ok. vm_compute. reflexivity.
  - eexists _, _, _, _.
    split; [reflexivity |].
    split; [vm_compute; reflexivity |].
    split; [vm_compute; reflexivity |].
    vm_compute. reflexivity.
  - reflexivity.
Defined.

(** Two runs on a modern store and two runs on a legacy store: the
    second run of each pair is on a store with more in it, under an
    older interpreter with less room. *)
Lemma extraction_deterministic_witness :
  (exists r,
     getKey (L := Toy.library) (I := python311) [] (Stores.key4 Stores.a11) = Ok r
     /\ getKey (L := Toy.library) (I := python37) [] Stores.key4_more = Ok r)
  /\ (exists r,
        getKey (L := Toy.library) (I := python311) [] (Stores.key3 Stores.key3_file) = Ok r
        /\ getKey (L := Toy.library) (I := python37) []
             (Stores.key3 Stores.key3_file_more) = Ok r).
Proof.
  destruct (extraction_deterministic (L := Toy.library) python311 python37 [])
    as (_ & H & _).
  split.
  - destruct (getKey (L := Toy.library) (I := python311) [] (Stores.key4 Stores.a11))
      as [r |] eqn:E1; [| revert E1; vm_compute; discriminate].
    destruct (getKey (L := Toy.library) (I := python37) [] Stores.key4_more)
      as [r' |] eqn:E2; [| revert E2; vm_compute; discriminate].
    exists r. split; [done |]. f_equal. symmetry.
    apply (H (Stores.key4 Stores.a11) Stores.key4_more r r'); [| done | done].
    split; reflexivity.
  - destruct (getKey (L := Toy.library) (I := python311) [] (Stores.key3 Stores.key3_file))
      as [r |] eqn:E1; [| revert E1; vm_compute; discriminate].
    destruct (getKey (L := Toy.library) (I := python37) []
                (Stores.key3 Stores.key3_file_more))
      as [r' |] eqn:E2; [| revert E2; vm_compute; discriminate].
    exists r. split; [done |]. f_equal. symmetry.
    apply (H (Stores.key3 Stores.key3_file) (Stores.key3 Stores.key3_file_more) r r');
      [| done | done].
    intros keyData keyData' H1 H2 k Hk.
    assert (keyData = Stores.key3_data Stores.key3_file) as ->.
    { unfold Stores.key3_data. by rewrite H1. }
    assert (keyData' = Stores.key3_data Stores.key3_file_more) as ->.
    { unfold Stores.key3_data. by rewrite H2. }
    unfold key3_records in Hk. rewrite !elem_of_cons, elem_of_nil in Hk.
    destruct Hk as [-> | [-> | [-> | []]]]; vm_compute; reflexivity.
Defined.

(** ** The length of the key *)

Lemma long_to_bytes_go_0 fuel acc : long_to_bytes_go fuel 0 acc = acc.
Proof. by destruct fuel. Qed.

Lemma length_long_to_bytes_go k : forall fuel n acc,
  (k < fuel)%nat -> (256 ^ N.of_nat k <= n < 256 ^ N.of_nat (S k))%N ->
  length (long_to_bytes_go fuel n acc) = (S k + length acc)%nat.
Proof.
  induction k as [| k IH]; intros fuel n acc Hf Hn.
  - destruct fuel as [| fuel]; [lia |]. simpl long_to_bytes_go.
    change (256 ^ N.of_nat 0)%N with 1%N in Hn. change (256 ^ N.of_nat 1)%N with 256%N in Hn.
    destruct (N.eqb_spec n 0); [lia |].
    rewrite N.div_small by lia. by rewrite long_to_bytes_go_0.
  - destruct fuel as [| fuel]; [lia |]. simpl long_to_bytes_go.
    assert (0 < 256 ^ N.of_nat (S k))%N as Hpos by (apply N.neq_0_lt_0, N.pow_nonzero; lia).
    destruct (N.eqb_spec n 0); [lia |].
    rewrite IH; [simpl; lia | lia |].
    rewrite !Nat2N.inj_succ, !N.pow_succ_r' in *. split.
    + apply N.div_le_lower_bound; lia.
    + apply N.Div0.div_lt_upper_bound; lia.
Qed.

(** [long_to_bytes] of a number of [k + 1] base-256 digits has [k + 1]
    bytes. *)
Lemma length_long_to_bytes (k : nat) (n : Z) key :
  256 ^ Z.of_nat k <= n < 256 ^ Z.of_nat (S k) ->
  long_to_bytes n = Ok key -> length key = S k.
Proof.
  intros Hn. unfold long_to_bytes.
  assert (0 < 256 ^ Z.of_nat k) as Hpos by (apply Z.pow_pos_nonneg; lia).
  destruct (Z.ltb_spec n 0); [lia |]. destruct (Z.eqb_spec n 0); [lia |].
  remember (S (N.to_nat (N.log2 (Z.to_N n)))) as fuel eqn:Hfuel.
  intros [= <-].
  assert (256 ^ N.of_nat k <= Z.to_N n < 256 ^ N.of_nat (S k))%N as HN.
  { rewrite <- (Z2N.id n) in Hn by lia.
    rewrite <- !nat_N_Z in Hn. change 256 with (Z.of_N 256) in Hn.
    rewrite <- !N2Z.inj_pow in Hn. lia. }
  rewrite (length_long_to_bytes_go k); [simpl; lia | | done].
  assert (N.of_nat k <= N.log2 (Z.to_N n))%N; [| lia].
  transitivity (N.log2 (256 ^ N.of_nat k))%N; [| apply N.log2_le_mono; lia].
  change 256%N with (2 ^ 8)%N. rewrite <- N.pow_mul_r, N.log2_pow2 by lia. lia.
Qed.

Section KeyLength.
Context {L : Library} {I : Interpreter} {laws : LibraryLaws L}.

(** The clear text that [decryptPBE] returns, cut at 24 bytes, is as
    long as the encrypted blob of the structure, cut at 24 bytes. *)
Lemma decryptPBE_clearText_length decodedItem masterPassword globalSalt clearText algo :
  decryptPBE decodedItem masterPassword globalSalt = Ok (Some (clearText, algo)) ->
  exists cipherT,
    decodedItem.1 @ [1] >>= asOctets = Ok cipherT /\
    len (slice_to clearText 24) = Z.min 24 (len cipherT).
Proof.
  unfold decryptPBE. intros H.
  apply bind_Ok in H as (pbeAlgo & _ & H).
  destruct (bool_decide (pbeAlgo = oid_pbeWithSha1AndTripleDES_CBC)).
  { apply bind_Ok in H as (entrySalt & _ & H).
    apply bind_Ok in H as (cipherT & Hc & H).
    apply bind_Ok in H as (key & Hk & H).
    injection H as <- <-. exists cipherT. split; [done |].
    apply decryptMoz3DES_length in Hk.
    rewrite !length_slice_to by lia. unfold len. lia. }
  destruct (bool_decide (pbeAlgo = oid_pbes2)); [| discriminate].
  apply bind_Ok in H as (a1 & _ & H). apply bind_Ok in H as (u1 & _ & H).
  apply bind_Ok in H as (a2 & _ & H). apply bind_Ok in H as (u2 & _ & H).
  apply bind_Ok in H as (a3 & _ & H). apply bind_Ok in H as (u3 & _ & H).
  apply bind_Ok in H as (entrySalt & _ & H).
  apply bind_Ok in H as (iterationCount & _ & H).
  apply bind_Ok in H as (keyLength & _ & H).
  apply bind_Ok in H as (u4 & _ & H).
  apply bind_Ok in H as (key & _ & H).
  apply bind_Ok in H as (ivTail & _ & H).
  apply bind_Ok in H as (cipherT & Hc & H).
  apply bind_Ok in H as (clearText' & Ha & H).
  injection H as <- <-. exists cipherT. split; [done |].
  apply AES_CBC_decrypt_length in Ha.
  rewrite length_slice_to by lia. unfold len. lia.
Qed.

(** What a key returned on the modern path is. *)
Lemma getKey_key4_Some masterPassword p db k3 key algo :
  getKey masterPassword {| path := p; key4_db := Some db; key3_db := k3 |}
    = Ok (Some key, algo) ->
  exists globalSalt a11 decoded_a11 clearText algo',
    key4_check_passes masterPassword db globalSalt /\
    select_a11 db = Some a11 /\
    der_decode a11 = Ok decoded_a11 /\
    decryptPBE decoded_a11 masterPassword globalSalt = Ok (Some (clearText, algo')) /\
    key = slice_to clearText 24.
Proof.
  unfold getKey. cbn [key4_db key3_db]. intros H.
  destruct (select_password db) as [[globalSalt item2] |] eqn:Hs; [| discriminate].
  apply bind_Ok in H as (out & Hp & H).
  apply bind_Ok in H as (decodedItem2 & Hd & H).
  apply bind_Ok in H as ([clearText0 algo0] & Hu & H).
  apply bind_Ok in Hu as (r & Hpbe & Hu).
  destruct r as [[c a] |]; simpl in Hu; [| discriminate]. injection Hu as -> ->.
  destruct (decide (clearText0 = password_check)) as [-> | Hne].
  2:{ rewrite bool_decide_eq_false_2 in H by done. discriminate. }
  rewrite bool_decide_eq_true_2 in H by done.
  destruct (select_a11 db) as [a11 |]; [| discriminate].
  apply bind_Ok in H as (out' & Hp' & H).
  apply bind_Ok in H as (decoded_a11 & Hd' & H).
  apply bind_Ok in H as ([clearText algo'] & Hu & H).
  apply bind_Ok in Hu as (r & Hpbe' & Hu).
  destruct r as [[c a] |]; simpl in Hu; [| discriminate]. injection Hu as -> ->.
  injection H as <- <-.
  exists globalSalt, a11, decoded_a11, clearText, algo'.
  split; [by exists item2, out, decodedItem2, algo0 |]. done.
Qed.

(** What a key returned on the legacy path is: [long_to_bytes] of the
    integer at the fourth place of the last structure decoded. *)
Lemma extractSecretKey_Some masterPassword keyData key :
  extractSecretKey masterPassword keyData = Ok (Some key) ->
  exists prKey prKeyASN1 n,
    der_decode prKey = Ok prKeyASN1 /\
    prKeyASN1.1 @ [3] >>= asn1_number = Ok n /\
    long_to_bytes n = Ok key.
Proof.
  unfold extractSecretKey. intros H.
  apply bind_Ok in H as (pwdCheck & _ & H).
  apply bind_Ok in H as (entrySaltLen & _ & H).
  apply bind_Ok in H as (globalSalt & _ & H).
  apply bind_Ok in H as (cleartextData & _ & H).
  destruct (bool_decide (cleartextData <> password_check)); [discriminate |].
  destruct (keyData !! CKA_ID) as [privKeyEntry |]; [| discriminate].
  apply bind_Ok in H as (saltLen & _ & H).
  apply bind_Ok in H as (nameLen & _ & H).
  apply bind_Ok in H as (privKeyEntryASN1 & _ & H).
  apply bind_Ok in H as (o1 & _ & H).
  apply bind_Ok in H as (entrySalt & _ & H).
  apply bind_Ok in H as (privKeyData & _ & H).
  apply bind_Ok in H as (privKey & _ & H).
  apply bind_Ok in H as (o2 & _ & H).
  apply bind_Ok in H as (privKeyASN1 & _ & H).
  apply bind_Ok in H as (prKey & _ & H).
  apply bind_Ok in H as (o3 & _ & H).
  apply bind_Ok in H as (prKeyASN1 & Hd & H).
  apply bind_Ok in H as (key' & Hk & H).
  injection H as <-.
  apply bind_Ok in Hk as (n & Hn & Hk).
  by exists prKey, prKeyASN1, n.
Qed.

(** C5, as the code has it.  On the modern path the key that [getKey]
    returns is the clear text of the private-key record cut at 24
    bytes: it is as long as the encrypted blob of the record when this
    one has less than 24 bytes, and 24 bytes long otherwise.  On the
    legacy path the key is [long_to_bytes] of the fourth integer of the
    innermost sequence, and has 24 bytes when this integer has 24
    base-256 digits. *)
Theorem getKey_key_length (masterPassword : bytes) :
  (forall p db k3 key algo,
     getKey masterPassword {| path := p; key4_db := Some db; key3_db := k3 |}
       = Ok (Some key, algo) ->
     exists a11 decoded_a11 cipherT,
       select_a11 db = Some a11 /\
       der_decode a11 = Ok decoded_a11 /\
       decoded_a11.1 @ [1] >>= asOctets = Ok cipherT /\
       len key = Z.min 24 (len cipherT))
  /\ (forall p content key algo,
        getKey masterPassword {| path := p; key4_db := None; key3_db := Some content |}
          = Ok (Some key, algo) ->
        exists prKey prKeyASN1 n,
          der_decode prKey = Ok prKeyASN1 /\
          prKeyASN1.1 @ [3] >>= asn1_number = Ok n /\
          long_to_bytes n = Ok key /\
          (256 ^ 23 <= n < 256 ^ 24 -> len key = 24)).
Proof.
  split.
  - intros p db k3 key algo H.
    apply getKey_key4_Some in H
      as (globalSalt & a11 & decoded_a11 & clearText & algo' & _ & Ha & Hd & Hpbe & ->).
    apply decryptPBE_clearText_length in Hpbe as (cipherT & Hc & Hl).
    by exists a11, decoded_a11, cipherT.
  - intros p content key algo H. unfold getKey in H. cbn [key4_db key3_db] in H.
    apply bind_Ok in H as (keyData & _ & H).
    apply bind_Ok in H as (k & He & H). injection H as -> <-.
    apply extractSecretKey_Some in He as (prKey & prKeyASN1 & n & Hd & Hn & Hk).
    exists prKey, prKeyASN1, n. repeat split; try done.
    intros Hr. unfold len. rewrite (length_long_to_bytes 23 n key); done.
Qed.

End KeyLength.

(** The modern store with a blob of 32 bytes and the legacy store with
    a key of 24 bytes, under the empty password: both give the key
    [b'ABCDEFGHIJKLMNOPQRSTUVWX']. *)
Lemma getKey_key_length_witness :
  getKey (L := Toy.library) (I := python311) [] (Stores.key4 Stores.a11)
    = Ok (Some (b_ "ABCDEFGHIJKLMNOPQRSTUVWX"), Some oid_pbes2)
  /\ getKey (L := Toy.library) (I := python311) [] (Stores.key3 Stores.key3_file)
    = Ok (Some (b_ "ABCDEFGHIJKLMNOPQRSTUVWX"), Some oid_pbeWithSha1AndTripleDES_CBC)
  /\ len (b_ "ABCDEFGHIJKLMNOPQRSTUVWX") = 24.
Proof.
  assert (getKey (L := Toy.library) (I := python311) [] (Stores.key4 Stores.a11)
          = Ok (Some (b_ "ABCDEFGHIJKLMNOPQRSTUVWX"), Some oid_pbes2)) as H4
    by (vm_compute; reflexivity).
  assert (getKey (L := Toy.library) (I := python311) [] (Stores.key3 Stores.key3_file)
          = Ok (Some (b_ "ABCDEFGHIJKLMNOPQRSTUVWX"),
                Some oid_pbeWithSha1AndTripleDES_CBC)) as H3
    by (vm_compute; reflexivity).
  destruct (getKey_key_length (L := Toy.library) (I := python311) (laws := toy_laws) [])
    as [Hm Hl].
  destruct (Hm _ _ _ _ _ H4) as (a11 & decoded_a11 & cipherT & _ & _ & _ & Hlen).
  destruct (Hl _ _ _ _ H3) as (prKey & prKeyASN1 & n & _ & _ & _ & Hn).
  split; [exact H4 |]. split; [exact H3 | reflexivity].
Defined.

(** C5 does not hold.  The modern store whose private-key record has an
    encrypted blob of 16 bytes passes the password check, and [getKey]
    returns a key of 16 bytes with the identifier of PBES2. *)
Lemma getKey_key_not_24_bytes :
  getKey (L := Toy.library) (I := python311) [] (Stores.key4 Stores.a11_short)
    = Ok (Some (b_ "ABCDEFGHIJKLMNOP"), Some oid_pbes2)
  /\ len (b_ "ABCDEFGHIJKLMNOP") = 16.
Proof. split; [vm_compute; reflexivity | reflexivity]. Qed.

(** On the legacy path [long_to_bytes] drops the leading zero bytes of
    the key: the store whose key starts with a zero byte gives 23
    bytes. *)
Lemma getKey_key3_leading_zero :
  getKey (L := Toy.library) (I := python311) [] (Stores.key3 Stores.key3_file_zero)
    = Ok (Some (b_ "ABCDEFGHIJKLMNOPQRSTUVW"), Some oid_pbeWithSha1AndTripleDES_CBC)
  /\ len (b_ "ABCDEFGHIJKLMNOPQRSTUVW") = 23.
Proof. split; [vm_compute; reflexivity | reflexivity]. Qed.

(** ** Reading integers from a buffer *)

Lemma lookup_slice {A} (d : list A) lo hi i :
  0 <= lo -> lo <= hi -> hi <= len d -> (i < Z.to_nat (hi - lo))%nat ->
  slice d lo hi !! i = d !! (Z.to_nat lo + i)%nat.
Proof.
  intros Hlo Hhi Hl Hi. unfold slice, clamp_index, len in *.
  destruct (Z.ltb_spec lo 0); [lia |]. destruct (Z.ltb_spec hi 0); [lia |].
  rewrite lookup_take_lt by lia. rewrite lookup_drop. f_equal. lia.
Qed.

Lemma length_slice_in {A} (d : list A) lo hi :
  0 <= lo -> lo <= hi -> hi <= len d -> length (slice d lo hi) = Z.to_nat (hi - lo).
Proof.
  intros Hlo Hhi Hl. pose proof (length_slice d lo hi ltac:(lia) ltac:(lia)) as H.
  unfold len in *. lia.
Qed.

Lemma getitem_lookup d i b :
  0 <= i -> d !! Z.to_nat i = Some b -> getitem d i = Ok (byte_to_Z b).
Proof.
  intros Hi Hb. unfold getitem. destruct (Z.ltb_spec i 0); [lia |].
  destruct (Z.ltb_spec i 0); [lia |]. by rewrite Hb.
Qed.

(** X1.  [getShortLE(d, a)], for an offset [a >= 0]: when the buffer
    holds two bytes at [a] the result is the little-endian number of
    [d[a]] and [d[a + 1]], and it is below 65536; when it does not, the
    call raises [struct.error]. *)
Theorem getShortLE_value (d : bytes) (a : Z) :
  0 <= a ->
  (a + 2 <= len d ->
     exists b0 b1, getitem d a = Ok b0 /\ getitem d (a + 1) = Ok b1 /\
       getShortLE d a = Ok (b0 + 256 * b1) /\ 0 <= b0 + 256 * b1 < 65536)
  /\ (len d < a + 2 -> getShortLE d a = Raise StructError).
Proof.
  intros Ha. split; intros Hl.
  - pose proof (length_slice_in d a (a + 2) ltac:(lia) ltac:(lia) Hl) as Hn.
    pose proof (lookup_slice d a (a + 2) 0 ltac:(lia) ltac:(lia) Hl ltac:(lia)) as H0.
    pose proof (lookup_slice d a (a + 2) 1 ltac:(lia) ltac:(lia) Hl ltac:(lia)) as H1.
    unfold getShortLE, unpack_H_le.
    destruct (slice d a (a + 2)) as [| b0 [| b1 [| b2 s]]]; simpl in Hn; try lia.
    simpl in H0, H1. exists (byte_to_Z b0), (byte_to_Z b1).
    split; [apply getitem_lookup; [lia |]; rewrite H0; f_equal; lia |].
    split; [apply getitem_lookup; [lia |]; rewrite H1; f_equal; lia |].
    split; [done |].
    pose proof (byte_to_Z_range b0). pose proof (byte_to_Z_range b1). lia.
  - pose proof (length_slice d a (a + 2) ltac:(lia) ltac:(lia)) as Hn.
    unfold getShortLE, unpack_H_le.
    destruct (slice d a (a + 2)) as [| b0 [| b1 [| b2 s]]]; try done.
    unfold len in *. simpl in Hn. lia.
Qed.

(** The two bytes [34 12] at offset 1. *)
Lemma getShortLE_value_witness :
  getShortLE [x00; x34; x12] 1 = Ok 0x1234
  /\ getShortLE [x00; x34; x12] 2 = Raise StructError.
Proof.
  destruct (getShortLE_value [x00; x34; x12] 1 ltac:(lia)) as [H _].
  destruct H as (b0 & b1 & H0 & H1 & H & _); [vm_compute; discriminate |].
  destruct (getShortLE_value [x00; x34; x12] 2 ltac:(lia)) as [_ H'].
  split; [| apply H'; reflexivity].
  rewrite H. vm_compute in H0, H1. by injection H0 as <-; injection H1 as <-.
Defined.

(** X2.  [getLongBE(d, a)], for an offset [a >= 0]: when the buffer
    holds four bytes at [a] the result is the big-endian number of
    [d[a]] to [d[a + 3]], and it is below [2 ^ 32]; when it does not,
    the call raises [struct.error]. *)
Theorem getLongBE_value (d : bytes) (a : Z) :
  0 <= a ->
  (a + 4 <= len d ->
     exists b0 b1 b2 b3,
       getitem d a = Ok b0 /\ getitem d (a + 1) = Ok b1 /\
       getitem d (a + 2) = Ok b2 /\ getitem d (a + 3) = Ok b3 /\
       getLongBE d a = Ok (b0 * 2 ^ 24 + b1 * 2 ^ 16 + b2 * 2 ^ 8 + b3) /\
       0 <= b0 * 2 ^ 24 + b1 * 2 ^ 16 + b2 * 2 ^ 8 + b3 < 2 ^ 32)
  /\ (len d < a + 4 -> getLongBE d a = Raise StructError).
Proof.
  intros Ha. split; intros Hl.
  - pose proof (length_slice_in d a (a + 4) ltac:(lia) ltac:(lia) Hl) as Hn.
    pose proof (lookup_slice d a (a + 4) 0 ltac:(lia) ltac:(lia) Hl ltac:(lia)) as H0.
    pose proof (lookup_slice d a (a + 4) 1 ltac:(lia) ltac:(lia) Hl ltac:(lia)) as H1.
    pose proof (lookup_slice d a (a + 4) 2 ltac:(lia) ltac:(lia) Hl ltac:(lia)) as H2.
    pose proof (lookup_slice d a (a + 4) 3 ltac:(lia) ltac:(lia) Hl ltac:(lia)) as H3.
    unfold getLongBE, unpack_L_be.
    destruct (slice d a (a + 4)) as [| b0 [| b1 [| b2 [| b3 [| b4 s]]]]]; simpl in Hn; try lia.
    simpl in H0, H1, H2, H3.
    exists (byte_to_Z b0), (byte_to_Z b1), (byte_to_Z b2), (byte_to_Z b3).
    split; [apply getitem_lookup; [lia |]; rewrite H0; f_equal; lia |].
    split; [apply getitem_lookup; [lia |]; rewrite H1; f_equal; lia |].
    split; [apply getitem_lookup; [lia |]; rewrite H2; f_equal; lia |].
    split; [apply getitem_lookup; [lia |]; rewrite H3; f_equal; lia |].
    pose proof (byte_to_Z_range b0). pose proof (byte_to_Z_range b1).
    pose proof (byte_to_Z_range b2). pose proof (byte_to_Z_range b3).
    split; [f_equal; lia | lia].
  - pose proof (length_slice d a (a + 4) ltac:(lia) ltac:(lia)) as Hn.
    unfold getLongBE, unpack_L_be.
    destruct (slice d a (a + 4)) as [| b0 [| b1 [| b2 [| b3 [| b4 s]]]]]; try done.
    unfold len in *. simpl in Hn. lia.
Qed.

(** The magic number of a page store, and a buffer of three bytes. *)
Lemma getLongBE_value_witness :
  getLongBE (hex "00061561") 0 = Ok 0x61561
  /\ getLongBE (hex "000615") 0 = Raise StructError.
Proof.
  destruct (getLongBE_value (hex "00061561") 0 ltac:(lia)) as [H _].
  destruct H as (b0 & b1 & b2 & b3 & H0 & H1 & H2 & H3 & H & _); [vm_compute; discriminate |].
  destruct (getLongBE_value (hex "000615") 0 ltac:(lia)) as [_ H'].
  split; [| apply H'; reflexivity].
  rewrite H. vm_compute in H0, H1, H2, H3.
  by injection H0 as <-; injection H1 as <-; injection H2 as <-; injection H3 as <-.
Defined.

(** ** The display function, again *)

(** The header of [d] as [printASN1] reads it: the type byte, then the
    length and the value of [skip]. *)
Lemma printASN1_header d n :
  declared_length d = Ok n ->
  exists l0,
    getitem d 1 = Ok l0 /\
    (if Z.land l0 128 >? 0 then length <- getitem d 2; Ok (length, 1) else Ok (l0, 0))
      = Ok (n, if Z.land l0 128 >? 0 then 1 else 0).
Proof.
  unfold declared_length. intros Hn. apply bind_Ok in Hn as (l0 & H1 & Hn).
  exists l0. split; [done |].
  destruct (_ >? 0); [rewrite Hn; done | congruence].
Qed.

(** X3.  The argument [l] of [printASN1] has no effect: the value
    returned and the text printed are the same for every [l].  The only
    branch that reads [l] is the last one, and [asn1Types[type]] raises
    [KeyError] before it for every type that would reach it. *)
Theorem printASN1_ignores_l {I : Interpreter} (d : bytes) (l l' rl : Z) :
  printASN1 d l rl = printASN1 d l' rl.
Proof.
  unfold printASN1. cbn [printASN1_fuel].
  destruct (getitem d 0) as [type |]; simpl; [| done].
  destruct (getitem d 1) as [length0 |]; simpl; [| done].
  destruct (if Z.land length0 128 >? 0 then _ else _) as [[length skip] |]; simpl; [| done].
  destruct (asn1Types_get type) as [name |] eqn:Et; simpl; [| done].
  apply asn1Types_get_Ok in Et.
  destruct Et as [-> | [-> | [-> | [-> | ->]]]]; reflexivity.
Qed.

(** X4.  A type byte that is not one of the five of [asn1Types] makes
    [printASN1] raise [KeyError] as soon as the length can be read: the
    last branch of the function is never taken. *)
Theorem printASN1_unknown_tag {I : Interpreter} (d : bytes) (l rl tag n : Z) :
  getitem d 0 = Ok tag -> tag ∉ [0x30; 4; 6; 2; 5] -> declared_length d = Ok n ->
  printASN1 d l rl = Raise KeyError.
Proof.
  intros H0 Ht Hn. unfold printASN1. cbn [printASN1_fuel]. rewrite H0. simpl.
  destruct (printASN1_header d n Hn) as (l0 & H1 & Hh). rewrite H1. simpl.
  rewrite Hh. simpl.
  destruct (asn1Types_get tag) as [name |] eqn:Et; simpl.
  - apply asn1Types_get_Ok in Et. exfalso. apply Ht.
    rewrite !elem_of_cons. tauto.
  - unfold asn1Types_get in Et. destruct (asn1Types !! tag); [discriminate | congruence].
Qed.

(** A BOOLEAN, type byte [01]. *)
Lemma printASN1_unknown_tag_witness :
  printASN1 (I := python311) [x01; x01; xff] 3 0 = Raise KeyError.
Proof.
  apply (printASN1_unknown_tag (I := python311) _ _ _ 1 1); [reflexivity | | reflexivity].
  rewrite !elem_of_cons, elem_of_nil. lia.
Defined.

(** X5.  An OCTET STRING or an INTEGER whose length can be read is
    displayed as the hexadecimal text of [d[2 : 2 + length]], and the
    call returns [length + 2].  In the long form, where the length is
    taken from [d[2]], the bytes displayed still start at [d[2]]: the
    first of them is the length byte itself. *)
Theorem printASN1_octets {I : Interpreter} (d : bytes) (l rl tag n : Z) :
  getitem d 0 = Ok tag -> tag = 4 \/ tag = 2 -> declared_length d = Ok n ->
  printASN1 d l rl
    = Ok (Some (n + 2),
          ((indent rl ++ " " ++ (if (tag =? 4)%Z then "OCTETSTRING" else "INTEGER") ++ " ")
           ++ repr_bytes (hexlify (slice d 2 (2 + n))) ++ nl)%string)
  /\ (forall l0, getitem d 1 = Ok l0 -> 128 <= l0 -> 0 < n ->
        getitem (slice d 2 (2 + n)) 0 = Ok n).
Proof.
  intros H0 Ht Hn. split.
  - unfold printASN1. cbn [printASN1_fuel]. rewrite H0. simpl.
    destruct (printASN1_header d n Hn) as (l0 & H1 & Hh). rewrite H1. simpl.
    rewrite Hh. simpl. destruct Ht as [-> | ->].
    + by replace (asn1Types_get 4) with (Ok "OCTETSTRING"%string) by (vm_compute; reflexivity).
    + by replace (asn1Types_get 2) with (Ok "INTEGER"%string) by (vm_compute; reflexivity).
  - intros l0 H1 Hl0 Hpos. unfold declared_length in Hn. rewrite H1 in Hn. simpl in Hn.
    destruct (getitem_Ok_byte _ _ _ H1) as (b & ->). rewrite long_form_test in Hn.
    destruct (Z.ltb_spec (byte_to_Z b) 128); [lia |]. simpl in Hn.
    pose proof (getitem_Ok_length d 2 n ltac:(lia) Hn) as Hlen.
    unfold getitem in Hn. simpl in Hn.
    destruct (d !! Z.to_nat 2) as [b2 |] eqn:E2; [| discriminate]. injection Hn as <-.
    apply getitem_lookup; [lia |].
    unfold slice, clamp_index. destruct (Z.ltb_spec (2 + byte_to_Z b2) 0); [lia |].
    change (2 <? 0) with false. cbv iota.
    rewrite lookup_take_lt by lia. rewrite lookup_drop.
    rewrite <- E2. f_equal. lia.
Qed.

(** An OCTET STRING in the long form, [04 81 02 aa bb]: the text shown
    is [02aa], not [aabb]. *)
Lemma printASN1_octets_witness :
  printASN1 (I := python311) (hex "048102aabb") 5 0
    = Ok (Some 4, (" OCTETSTRING b'02aa'" ++ nl)%string)
  /\ getitem (slice (hex "048102aabb") 2 (2 + 2)) 0 = Ok 2.
Proof.
  destruct (printASN1_octets (I := python311) (hex "048102aabb") 5 0 4 2) as [H1 H2];
    [reflexivity | by left | reflexivity |].
  split; [exact H1 |]. apply (H2 129); [reflexivity | lia | lia].
Defined.

(** ** The legacy page store, again *)

Lemma getShortLE_Raise d a e : getShortLE d a = Raise e -> e = StructError.
Proof. unfold getShortLE, unpack_H_le. repeat case_match; congruence. Qed.

Lemma getLongBE_Raise d a e : getLongBE d a = Raise e -> e = StructError.
Proof. unfold getLongBE, unpack_L_be. repeat case_match; congruence. Qed.

Lemma getLongBE_short d a : 0 <= a -> len d < a + 4 -> getLongBE d a = Raise StructError.
Proof.
  intros Ha Hl. pose proof (length_slice d a (a + 4) ltac:(lia) ltac:(lia)) as Hn.
  unfold getLongBE, unpack_L_be.
  destruct (slice d a (a + 4)) as [| b0 [| b1 [| b2 [| b3 [| b4 s]]]]]; try done.
  unfold len in *. simpl in Hn. lia.
Qed.

Lemma getLongBE_Ok_length d a v : 0 <= a -> getLongBE d a = Ok v -> a + 4 <= len d.
Proof.
  intros Ha H. destruct (Z.le_gt_cases (a + 4) (len d)); [done |].
  rewrite getLongBE_short in H by lia. discriminate.
Qed.

Lemma len_header content : len (header content) = Z.min 60 (len content).
Proof.
  unfold header. rewrite length_slice by lia. pose proof (len_nonneg content). lia.
Qed.

(** The walk over the offset table adds two offsets for each key it
    counts, none of them negative, and raises nothing but
    [struct.error]. *)
Lemma readBsddb_offsets_spec offsets pagesize page n :
  0 <= pagesize * page ->
  forall i nval val keys readkeys offsetVals,
    Forall (Z.le 0) offsetVals ->
    match readBsddb_offsets n offsets pagesize page i nval val keys readkeys offsetVals with
    | Ok (keys', _, offsetVals') =>
        keys <= keys' /\
        len offsetVals' = len offsetVals + 2 * (keys' - keys) /\
        Forall (Z.le 0) offsetVals'
    | Raise e => e = StructError \/ e = OutOfFuel
    end.
Proof.
  intros Hp. induction n as [| n IH]; intros i nval val keys readkeys offsetVals Hf;
    cbn [readBsddb_offsets].
  - destruct (bool_decide (nval ≠ val)); [auto |]. repeat split; [lia | lia | done].
  - destruct (bool_decide (nval ≠ val)); [| repeat split; [lia | lia | done]].
    destruct (getShortLE offsets (2 + i)) as [key |] eqn:E1; simpl;
      [| left; by eapply getShortLE_Raise].
    destruct (getShortLE offsets (4 + i)) as [val' |] eqn:E2; simpl;
      [| left; by eapply getShortLE_Raise].
    destruct (getShortLE offsets (8 + i)) as [nval' |] eqn:E3; simpl;
      [| left; by eapply getShortLE_Raise].
    assert (0 <= key /\ 0 <= val') as [Hk Hv].
    { unfold getShortLE, unpack_H_le in E1, E2.
      destruct (slice offsets (2 + i) _) as [| a0 [| a1 [| a2 s]]]; try discriminate.
      destruct (slice offsets (4 + i) _) as [| c0 [| c1 [| c2 s']]]; try discriminate.
      injection E1 as <-. injection E2 as <-.
      pose proof (byte_to_Z_range a0). pose proof (byte_to_Z_range a1).
      pose proof (byte_to_Z_range c0). pose proof (byte_to_Z_range c1). lia. }
    match goal with |- context [readBsddb_offsets n ?o ?ps ?pg ?i' ?nv ?v ?k ?r ?ovs] =>
      specialize (IH i' nv v k r ovs);
      destruct (readBsddb_offsets n o ps pg i' nv v k r ovs) as [[[keys' readkeys'] ovs'] |]
    end; [| apply IH; rewrite !Forall_app, !Forall_singleton; repeat split; (done || lia)].
    destruct IH as (IH1 & IH2 & IH3).
    { rewrite !Forall_app, !Forall_singleton. repeat split; (done || lia). }
    unfold len in *. rewrite !length_app in IH2. simpl in IH2.
    repeat split; [lia | lia | done].
Qed.

Lemma Sorted_lookup_succ (l : list Z) :
  Sorted Z.le l -> forall i a b, l !! i = Some a -> l !! S i = Some b -> a <= b.
Proof.
  induction 1 as [| x l Hs IH Hh]; intros i a b Ha Hb; [done |].
  destruct i as [| i]; simpl in *.
  - injection Ha as <-. destruct Hh as [| y l Hxy]; [done |].
    simpl in Hb. by injection Hb as <-.
  - by eapply IH.
Qed.

(** The records of a page are read without any exception when the
    indices stay inside the sorted offsets and no offset is negative,
    and every read then starts at an offset and asks for a number of
    bytes that are not negative. *)
Lemma readBsddb_records_Ok content valKey idx : forall db1 h,
  Forall (Z.le 0) valKey -> Sorted Z.le valKey ->
  Forall (fun i => 0 <= i /\ i + 1 < len valKey) idx ->
  Forall (fun r => 0 <= r.1 /\ 0 <= r.2) (reads h) ->
  exists db1' h',
    readBsddb_records content valKey idx db1 h = (Ok db1', h') /\
    length db1' = (length db1 + length idx)%nat /\
    Forall (fun r => 0 <= r.1 /\ 0 <= r.2) (reads h').
Proof.
  induction idx as [| i idx IH]; intros db1 h Hv Hs Hi Hr; cbn [readBsddb_records].
  - exists db1, h. split; [done |]. split; [simpl; lia | done].
  - apply Forall_cons in Hi as [[Hi0 Hi1] Hidx].
    unfold io_bind at 1. unfold io_lift at 1.
    assert (exists a b, list_getitem valKey i = Ok a /\ list_getitem valKey (i + 1) = Ok b
                        /\ 0 <= a /\ a <= b) as (a & b & -> & Hb & Ha & Hab).
    { unfold list_getitem. destruct (Z.ltb_spec i 0); [lia |].
      destruct (Z.ltb_spec i 0); [lia |].
      destruct (Z.ltb_spec (i + 1) 0); [lia |]. destruct (Z.ltb_spec (i + 1) 0); [lia |].
      replace (Z.to_nat (i + 1)) with (S (Z.to_nat i)) by lia.
      destruct (valKey !! Z.to_nat i) as [a |] eqn:Ea.
      2:{ apply lookup_ge_None in Ea. unfold len in *. lia. }
      destruct (valKey !! S (Z.to_nat i)) as [b |] eqn:Eb.
      2:{ apply lookup_ge_None in Eb. unfold len in *. lia. }
      exists a, b. repeat split; [| by eapply Sorted_lookup_succ].
      by eapply (Forall_lookup_1 _ _ _ _ Hv Ea). }
    cbv beta iota. unfold io_bind at 1. unfold f_seek at 1.
    destruct (Z.ltb_spec a 0); [lia |]. cbv beta iota.
    unfold io_bind at 1. unfold io_lift at 1. rewrite Hb.
    cbv beta iota. unfold io_bind at 1. unfold f_read at 1. cbv beta iota zeta.
    match goal with |- context [readBsddb_records content valKey idx ?d ?hh] =>
      destruct (IH d hh Hv Hs Hidx) as (db1' & h' & -> & Hl & Hr') end.
    { simpl. apply Forall_app. split; [done |]. apply Forall_singleton. simpl. lia. }
    exists db1', h'. split; [done |]. split; [| done].
    rewrite length_app in Hl. simpl in *. lia.
Qed.

Lemma range_spec n : Forall (fun i => 0 <= i /\ i < n) (range n).
Proof.
  unfold range. apply Forall_fmap, Forall_forall. intros i Hi.
  apply elem_of_seq in Hi. simpl. lia.
Qed.

Lemma length_range n : length (range n) = Z.to_nat n.
Proof. unfold range. by rewrite length_fmap, length_seq. Qed.

(** The loop over the pages keeps the number of records even, raises
    nothing but [struct.error], and makes no read at a negative offset
    or of a negative number of bytes. *)
Lemma readBsddb_pages_spec content pagesize nkeys n :
  0 <= pagesize -> 0 <= nkeys ->
  forall readkeys page db1 h,
    0 <= page -> Nat.Even (length db1) ->
    Forall (fun r => 0 <= r.1 /\ 0 <= r.2) (reads h) ->
    exists r h',
      readBsddb_pages n content pagesize nkeys readkeys page db1 h = (r, h') /\
      match r with
      | Ok db1' => Nat.Even (length db1')
      | Raise e => e = StructError \/ e = OutOfFuel
      end /\
      Forall (fun r => 0 <= r.1 /\ 0 <= r.2) (reads h').
Proof.
  intros Hps Hnk. induction n as [| n IH]; intros readkeys page db1 h Hpg He Hr;
    cbn [readBsddb_pages].
  - destruct (readkeys <? nkeys); eexists _, _; (split; [reflexivity |]); auto.
  - destruct (readkeys <? nkeys); [| eexists _, _; (split; [reflexivity |]); auto].
    unfold io_bind at 1. unfold f_seek at 1.
    destruct (Z.ltb_spec (pagesize * page) 0); [lia |]. cbv beta iota.
    unfold io_bind at 1. unfold f_read at 1. cbv beta iota zeta.
    unfold io_bind at 1. unfold io_lift at 1.
    simpl pos. simpl reads.
    assert (Forall (fun r => 0 <= r.1 /\ 0 <= r.2)
              (reads h ++ [(pagesize * page, (nkeys + 1) * 4 + 2)])) as Hr1.
    { apply Forall_app. split; [done |]. apply Forall_singleton. simpl. lia. }
    match goal with |- context [readBsddb_offsets ?m ?o pagesize page 0 0 1 0 readkeys []] =>
      pose proof (readBsddb_offsets_spec o pagesize page m ltac:(lia) 0 0 1 0 readkeys []
                    ltac:(constructor)) as Ho;
      destruct (readBsddb_offsets m o pagesize page 0 0 1 0 readkeys [])
        as [[[keys readkeys'] offsetVals] |] end;
      [| eexists _, _; (split; [reflexivity |]); split; [done | exact Hr1]].
    destruct Ho as (Hk & Hl & Hf). cbv beta iota.
    unfold io_bind at 1.
    set (valKey := merge_sort Z.le (offsetVals ++ [pagesize * (page + 1)])).
    assert (valKey ≡ₚ offsetVals ++ [pagesize * (page + 1)]) as Hperm
      by apply merge_sort_Permutation.
    assert (Sorted Z.le valKey) as Hsorted by (apply Sorted_merge_sort; apply _).
    assert (len valKey = 2 * keys + 1) as Hlv.
    { unfold len in *. rewrite Hperm, length_app. simpl in *. lia. }
    assert (Forall (Z.le 0) valKey) as Hfv.
    { rewrite Hperm, Forall_app, Forall_singleton. split; [done | lia]. }
    assert (Forall (fun i => 0 <= i /\ i + 1 < len valKey) (range (keys * 2))) as Hidx.
    { eapply Forall_impl; [apply range_spec |]. simpl. intros i Hi. lia. }
    match goal with |- context [readBsddb_records content valKey _ db1 ?hh] =>
      destruct (readBsddb_records_Ok content valKey (range (keys * 2)) db1 hh
                  Hfv Hsorted Hidx Hr1) as (db1' & h' & -> & Hl' & Hr') end.
    cbv beta iota.
    apply IH; [lia | | done]. rewrite Hl', length_range.
    destruct He as (k & Hk'). exists (k + Z.to_nat keys)%nat. lia.
Qed.

Lemma readBsddb_dict_even (k : nat) : forall db1 db,
  length db1 = (2 * k)%nat -> is_Ok (readBsddb_dict db1 db).
Proof.
  induction k as [| k IH]; intros db1 db Hl.
  - destruct db1; [by eexists | simpl in Hl; lia].
  - destruct db1 as [| v [| key rest]]; simpl in Hl; try lia.
    simpl. apply IH. lia.
Qed.

(** X6.  On every file, what [readBsddb] does with the offsets it finds
    stays in range: no seek goes to a negative offset and no read asks
    for a negative number of bytes, which would read the file to its
    end (the offsets are sorted before they are subtracted); the
    indexing of the sorted offsets and the pairing of the records raise
    no [IndexError]; and neither loop runs for ever. *)
Theorem readBsddb_in_range (content : bytes) :
  (readBsddb content).1 <> Raise IndexError
  /\ (readBsddb content).1 <> Raise OSError
  /\ (readBsddb content).1 <> Raise OutOfFuel
  /\ Forall (fun r => 0 <= r.1 /\ 0 <= r.2) (reads (readBsddb content).2).
Proof.
  pose proof (readBsddb_total content) as Ht.
  unfold readBsddb in *.
  assert (exists r h,
            readBsddb_file content open_rb = (r, h) /\
            match r with
            | Ok db1 => Nat.Even (length db1)
            | Raise e =>
                e = StructError \/ (exists msg, e = AssertionError msg) \/ e = OutOfFuel
            end /\
            Forall (fun r => 0 <= r.1 /\ 0 <= r.2) (reads h)) as (r & h & Hf & Hr & Hh).
  { assert (Forall (fun r : Z * Z => 0 <= r.1 /\ 0 <= r.2) [(0, 60)]) as H60.
    { apply Forall_singleton. simpl. lia. }
    unfold readBsddb_file. unfold io_bind at 1. rewrite f_read_header. cbv beta iota.
    unfold io_bind at 1. unfold io_lift at 1.
    destruct (getLongBE (header content) 0) as [magic |] eqn:Em;
      [| eexists _, _; (split; [reflexivity |]); split;
         [left; by eapply getLongBE_Raise | done]].
    cbv beta iota. destruct (negb (magic =? 398689));
      [eexists _, _; (split; [reflexivity |]); split; [eauto | done] |].
    unfold io_bind at 1. unfold io_lift at 1.
    destruct (getLongBE (header content) 4) as [version |] eqn:Ev;
      [| eexists _, _; (split; [reflexivity |]); split;
         [left; by eapply getLongBE_Raise | done]].
    cbv beta iota. destruct (negb (version =? 2));
      [eexists _, _; (split; [reflexivity |]); split; [eauto | done] |].
    unfold io_bind at 1. unfold io_lift at 1.
    destruct (getLongBE (header content) 12) as [pagesize |] eqn:Ep;
      [| eexists _, _; (split; [reflexivity |]); split;
         [left; by eapply getLongBE_Raise | done]].
    cbv beta iota. unfold io_bind at 1. unfold io_lift at 1.
    destruct (getLongBE (header content) 56) as [nkeys |] eqn:En;
      [| eexists _, _; (split; [reflexivity |]); split;
         [left; by eapply getLongBE_Raise | done]].
    cbv beta iota. apply getLongBE_Ok_nonneg in Ep, En.
    match goal with |- context [readBsddb_pages ?n content pagesize nkeys 0 1 [] ?h] =>
      destruct (readBsddb_pages_spec content pagesize nkeys n Ep En 0 1 [] h ltac:(lia)
                  ltac:(by exists 0%nat) H60) as (r & h' & -> & Hp & Hr) end.
    exists r, h'. split; [done |]. split; [| done].
    destruct r as [db1 | e]; [done |]. destruct Hp as [-> | ->]; auto. }
  rewrite Hf in *. destruct r as [db1 | e]; simpl in *.
  - destruct Hr as (k & Hk).
    destruct (readBsddb_dict_even k db1 ∅ ltac:(lia)) as (db & ->). done.
  - destruct Hr as [-> | [(msg & ->) | ->]]; done.
Qed.

(** X7.  A file shorter than the 60 bytes of the header never gives a
    dictionary: [readBsddb] raises [struct.error] when it unpacks a
    field that is not there, unless the magic number or the version is
    there and wrong, which gives the [AssertionError] that names the
    number read; and it has read nothing but the header.  A file of
    less than 4 bytes, the empty one included, raises [struct.error]. *)
Theorem readBsddb_short_file (content : bytes) :
  len content < 60 ->
  (exists e, (readBsddb content).1 = Raise e /\
     (e = StructError
      \/ (exists magic, getLongBE (header content) 0 = Ok magic
                        /\ e = AssertionError (bad_magic magic))
      \/ (exists version, getLongBE (header content) 4 = Ok version
                          /\ e = AssertionError (bad_version version))))
  /\ reads (readBsddb content).2 = [(0, 60)]
  /\ (len content < 4 -> (readBsddb content).1 = Raise StructError).
Proof.
  intros Hl.
  assert (len (header content) = len content) as Hh by (rewrite len_header; lia).
  assert (exists e,
    readBsddb_file content open_rb = (Raise e, Handle (len (header content)) [(0, 60)]) /\
    (e = StructError
     \/ (exists magic, getLongBE (header content) 0 = Ok magic
                       /\ e = AssertionError (bad_magic magic))
     \/ (exists version, getLongBE (header content) 4 = Ok version
                         /\ e = AssertionError (bad_version version))) /\
    (len content < 4 -> e = StructError)) as (e & Hf & He & H4).
  { unfold readBsddb_file. unfold io_bind at 1. rewrite f_read_header. cbv beta iota.
    unfold io_bind at 1. unfold io_lift at 1.
    destruct (getLongBE (header content) 0) as [magic |] eqn:Em.
    2:{ apply getLongBE_Raise in Em as ->. eauto 6. }
    apply getLongBE_Ok_length in Em as Hm; [| lia].
    cbv beta iota. destruct (negb (magic =? 398689)).
    { eexists. split; [done |]. split; [eauto | lia]. }
    unfold io_bind at 1. unfold io_lift at 1.
    destruct (getLongBE (header content) 4) as [version |] eqn:Ev.
    2:{ apply getLongBE_Raise in Ev as ->. eexists. split; [done |]. split; [auto | lia]. }
    cbv beta iota. destruct (negb (version =? 2)).
    { eexists. split; [done |]. split; [eauto 6 | lia]. }
    unfold io_bind at 1. unfold io_lift at 1.
    destruct (getLongBE (header content) 12) as [pagesize |] eqn:Ep.
    2:{ apply getLongBE_Raise in Ep as ->. eexists. split; [done |]. split; [auto | lia]. }
    cbv beta iota. unfold io_bind at 1. unfold io_lift at 1.
    rewrite (getLongBE_short (header content) 56) by lia.
    eexists. split; [done |]. split; [auto | lia]. }
  unfold readBsddb. rewrite Hf. simpl. split; [eauto |]. split; [done |].
  intros Hc. by rewrite (H4 Hc).
Qed.

(** The empty file, and a file that stops after a good magic number
    and a good version. *)
Lemma readBsddb_short_file_witness :
  (readBsddb []).1 = Raise StructError
  /\ (readBsddb (hex "0006156100000002")).1 = Raise StructError
  /\ reads (readBsddb (hex "0006156100000002")).2 = [(0, 60)].
Proof.
  destruct (readBsddb_short_file [] ltac:(reflexivity)) as (_ & _ & H).
  destruct (readBsddb_short_file (hex "0006156100000002") ltac:(reflexivity))
    as (_ & Hr & _).
  split; [apply H; reflexivity |]. split; [vm_compute; reflexivity | exact Hr].
Defined.

(** X8.  A store whose header is good and counts no key gives the empty
    dictionary, and [readBsddb] reads the header only: no page is
    looked at, whatever the page size. *)
Theorem readBsddb_no_keys (content : bytes) (pagesize : Z) :
  getLongBE (header content) 0 = Ok 0x61561 ->
  getLongBE (header content) 4 = Ok 2 ->
  getLongBE (header content) 12 = Ok pagesize ->
  getLongBE (header content) 0x38 = Ok 0 ->
  readBsddb content = (Ok ∅, Handle 60 [(0, 60)]).
Proof.
  intros Hm Hv Hp Hn.
  assert (len (header content) = 60) as Hh.
  { apply getLongBE_Ok_length in Hn; [| lia]. rewrite len_header in *. lia. }
  unfold readBsddb, readBsddb_file.
  unfold io_bind at 1. rewrite f_read_header, Hh. cbv beta iota.
  unfold io_bind at 1. unfold io_lift at 1. rewrite Hm. cbv beta iota.
  change (negb (398689 =? 398689)) with false. cbv iota.
  unfold io_bind at 1. unfold io_lift at 1. rewrite Hv. cbv beta iota.
  change (negb (2 =? 2)) with false. cbv iota.
  unfold io_bind at 1. unfold io_lift at 1. rewrite Hp. cbv beta iota.
  unfold io_bind at 1. unfold io_lift at 1. rewrite Hn. cbv beta iota.
  reflexivity.
Qed.

(** A header of 60 bytes with the page size [0x100] and no key. *)
Lemma readBsddb_no_keys_witness :
  readBsddb (hex "0006156100000002000004d200000100" ++ replicate 44 x00)
    = (Ok ∅, Handle 60 [(0, 60)]).
Proof.
  apply (readBsddb_no_keys _ 0x100); vm_compute; reflexivity.
Defined.

(** X9.  The last loop of [readBsddb] pairs the records two by two: in
    each pair the value comes first and the key second, and a key that
    comes again takes the value of its last pair. *)
Theorem readBsddb_dict_pairs (kvs : list (bytes * bytes)) (db : gmap bytes bytes) :
  readBsddb_dict (flat_map (fun kv => [kv.2; kv.1]) kvs) db
    = Ok (list_to_map (reverse kvs) ∪ db).
Proof.
  revert db. induction kvs as [| [k v] kvs IH]; intros db; simpl.
  - by rewrite (left_id_L ∅ (∪)).
  - rewrite IH. f_equal. rewrite reverse_cons, list_to_map_app. simpl.
    rewrite insert_empty, <- (assoc_L (∪)), <- insert_union_singleton_l. done.
Qed.

(** ** The derivation for every salt *)

Section DerivationAgain.
Context {L : Library} {I : Interpreter} {laws : LibraryLaws L}.

(** X10.  For every entry salt, of any length, the key of
    [decryptMoz3DES] is [k1] followed by the first 4 bytes of [k2] and
    its IV is the last 8 bytes of [k2]: 24 and 8 bytes.  The salt is
    padded with zero bytes up to 20 bytes; a salt of 20 bytes or more
    is used as it is, it is not cut. *)
Theorem decryptMoz3DES_key_iv_any_salt (globalSalt masterPassword entrySalt : bytes) :
  let hp := sha1 (globalSalt ++ masterPassword) in
  let pes := entrySalt ++ replicate (20 - length entrySalt) x00 in
  let chp := sha1 (hp ++ entrySalt) in
  let k1 := hmac_sha1 chp (pes ++ entrySalt) in
  let tk := hmac_sha1 chp pes in
  let k2 := hmac_sha1 chp (tk ++ entrySalt) in
  decryptMoz3DES_key_iv globalSalt masterPassword entrySalt = (k1 ++ take 4 k2, drop 12 k2)
  /\ length (k1 ++ take 4 k2) = 24%nat
  /\ length (drop 12 k2) = 8%nat
  /\ ((20 <= length entrySalt)%nat -> pes = entrySalt).
Proof.
  intros hp pes chp k1 tk k2.
  assert (length k1 = 20%nat) as H1 by apply hmac_sha1_length.
  assert (length k2 = 20%nat) as H2 by apply hmac_sha1_length.
  split; [| split; [| split]].
  - unfold decryptMoz3DES_key_iv. rewrite bytes_mul_replicate.
    replace (Z.to_nat (20 - len entrySalt)) with (20 - length entrySalt)%nat
      by (unfold len; lia).
    fold hp pes chp k1 tk k2.
    rewrite (slice_from_neg _ 8) by lia. rewrite slice_to_take by lia.
    f_equal.
    + rewrite take_app. rewrite take_ge by lia. f_equal. f_equal. lia.
    + rewrite drop_app. rewrite length_app, H1, H2. rewrite drop_ge by lia.
      reflexivity.
  - rewrite length_app, length_take. lia.
  - rewrite length_drop. lia.
  - intros Hl. subst pes. replace (20 - length entrySalt)%nat with 0%nat by lia.
    simpl. apply app_nil_r.
Qed.

(** X11.  [decryptMoz3DES] raises nothing but the [ValueError] of the
    cipher, and only for a key that [DES3.new] refuses or for data
    whose length is not a multiple of 8; what it returns is as long as
    the data it is given, the empty data included. *)
Theorem decryptMoz3DES_outcome (globalSalt masterPassword entrySalt encryptedData : bytes) :
  match decryptMoz3DES globalSalt masterPassword entrySalt encryptedData with
  | Ok clear => len encryptedData mod 8 = 0 /\ length clear = length encryptedData
  | Raise e =>
      e = ValueError /\
      (DES3_key_ok (decryptMoz3DES_key_iv globalSalt masterPassword entrySalt).1 = false
       \/ len encryptedData mod 8 <> 0)
  end.
Proof.
  destruct (decryptMoz3DES_key_iv_length globalSalt masterPassword entrySalt) as [_ Hi].
  unfold decryptMoz3DES in *.
  destruct (decryptMoz3DES_key_iv globalSalt masterPassword entrySalt) as [key iv].
  simpl in Hi |- *.
  destruct (DES3_CBC_decrypt key iv encryptedData) as [clear | e] eqn:Ed.
  - pose proof (DES3_CBC_decrypt_length _ _ _ _ Ed).
    apply DES3_CBC_decrypt_Ok in Ed as (_ & _ & Hd & _). done.
  - unfold DES3_CBC_decrypt in Ed.
    destruct (DES3_key_ok key); simpl in Ed; [| injection Ed as <-; auto].
    unfold len in Ed at 1. rewrite Hi in Ed. simpl in Ed.
    destruct (Z.eqb_spec (len encryptedData mod 8) 0); simpl in Ed; [done |].
    injection Ed as <-. auto.
Qed.

End DerivationAgain.

(** A salt of 21 bytes under the instance: it is not padded and not
    cut. *)
Lemma decryptMoz3DES_key_iv_any_salt_witness :
  exists key iv,
    decryptMoz3DES_key_iv (L := Toy.library) (b_ "salt") [] (replicate 21 x41) = (key, iv)
    /\ length key = 24%nat /\ length iv = 8%nat.
Proof.
  destruct (decryptMoz3DES_key_iv_any_salt (L := Toy.library) (laws := toy_laws)
              (b_ "salt") [] (replicate 21 x41)) as (Hk & Hl & Hi & _).
  eexists _, _. split; [exact Hk |]. split; [exact Hl | exact Hi].
Defined.

(** Data of 7 bytes under the instance. *)
Lemma decryptMoz3DES_outcome_witness :
  decryptMoz3DES (L := Toy.library) (b_ "salt") [] [xaa; xbb] (replicate 7 x00)
    = Raise ValueError.
Proof.
  pose proof (decryptMoz3DES_outcome (L := Toy.library) (laws := toy_laws)
                (b_ "salt") [] [xaa; xbb] (replicate 7 x00)) as H.
  destruct (decryptMoz3DES (L := Toy.library) (b_ "salt") [] [xaa; xbb] (replicate 7 x00))
    as [clear | e].
  - destruct H as [H _]. exfalso. revert H. vm_compute. discriminate.
  - destruct H as [-> _]. reflexivity.
Defined.

(** ** The PBE dispatch, again *)

Section DispatchAgain.
Context {L : Library} {I : Interpreter}.

(** X12.  On the structure of the triple-DES scheme [decryptPBE] runs
    [decryptMoz3DES] with the entry salt and the encrypted bytes of the
    structure and returns the first 24 bytes of the clear text with the
    identifier of the scheme; the iteration count of the structure is
    not read. *)
Theorem decryptPBE_3DES (globalSalt masterPassword entrySalt cipherT rest : bytes)
    (iterationCount : Z) :
  decryptPBE (pbe3DES_item entrySalt iterationCount cipherT, rest)
    masterPassword globalSalt
  = (fun clearText => Some (slice_to clearText 24, oid_pbeWithSha1AndTripleDES_CBC))
      <$$> decryptMoz3DES globalSalt masterPassword entrySalt cipherT.
Proof.
  unfold decryptPBE. cbn [fst].
  change (pbe3DES_item entrySalt iterationCount cipherT @ [0; 0])
    with (Ok (ObjectIdentifier arcs_pbeWithSha1AndTripleDES_CBC)).
  change (pbe3DES_item entrySalt iterationCount cipherT @ [0; 1; 0])
    with (Ok (OctetString entrySalt)).
  change (pbe3DES_item entrySalt iterationCount cipherT @ [1])
    with (Ok (OctetString cipherT)).
  cbn [fmap_result bind py_str asOctets].
  rewrite dotted_pbeWithSha1AndTripleDES_CBC.
  rewrite bool_decide_eq_true_2 by done.
  destruct (decryptMoz3DES _ _ _ _); reflexivity.
Qed.

(** X13.  Inside a PBES2 structure, an object identifier other than
    PBKDF2 for the key derivation, other than hmacWithSHA256 for its
    function or other than aes256-CBC for the cipher stops [decryptPBE]
    at one of its three [assert]: nothing is derived or decrypted with
    another algorithm. *)
Theorem decryptPBE_pbes2_other_parts (kdf prf cipher : list Z)
    (entrySalt : bytes) (iterationCount keyLength : Z)
    (ivTail cipherT rest masterPassword globalSalt : bytes) :
  dotted kdf <> oid_PBKDF2 \/ dotted prf <> oid_hmacWithSHA256
    \/ dotted cipher <> oid_aes256_CBC ->
  decryptPBE
    (pbes2_item_with kdf prf cipher entrySalt iterationCount keyLength ivTail cipherT, rest)
    masterPassword globalSalt
  = Raise (AssertionError "").
Proof.
  intros H. unfold decryptPBE. cbn [fst].
  set (item := pbes2_item_with _ _ _ _ _ _ _ _).
  change (item @ [0; 0]) with (Ok (ObjectIdentifier arcs_pbes2)).
  change (item @ [0; 1; 0; 0]) with (Ok (ObjectIdentifier kdf)).
  change (item @ [0; 1; 0; 1; 3; 0]) with (Ok (ObjectIdentifier prf)).
  change (item @ [0; 1; 1; 0]) with (Ok (ObjectIdentifier cipher)).
  cbn [fmap_result bind py_str].
  rewrite dotted_pbes2.
  rewrite (bool_decide_eq_false_2 _ oid_pbes2_not_3DES).
  rewrite (bool_decide_eq_true_2 (oid_pbes2 = oid_pbes2)) by done.
  destruct (decide (dotted kdf = oid_PBKDF2)) as [Ek | Hk];
    [| by rewrite (bool_decide_eq_false_2 _ Hk)].
  rewrite (bool_decide_eq_true_2 _ Ek). cbn [assert bind].
  destruct (decide (dotted prf = oid_hmacWithSHA256)) as [Ep | Hp];
    [| by rewrite (bool_decide_eq_false_2 _ Hp)].
  rewrite (bool_decide_eq_true_2 _ Ep). cbn [assert bind].
  destruct (decide (dotted cipher = oid_aes256_CBC)) as [Ec | Hc];
    [| by rewrite (bool_decide_eq_false_2 _ Hc)].
  exfalso. destruct H as [H | [H | H]]; by apply H.
Qed.

(** X14.  The IV of the PBES2 branch is the two bytes [04 0e] followed
    by the IV of the structure, so this one has to be 14 bytes long:
    with any other length, once the key is derived, [decryptPBE] ends
    with the [ValueError] of the cipher. *)
Theorem decryptPBE_pbes2_iv_length (globalSalt masterPassword entrySalt : bytes)
    (iterationCount : Z) (ivTail cipherT rest key : bytes) :
  pbkdf2_hmac_sha256 (sha1 (globalSalt ++ masterPassword)) entrySalt iterationCount 32
    = Ok key ->
  len ivTail <> 14 ->
  decryptPBE (pbes2_item entrySalt iterationCount 32 ivTail cipherT, rest)
    masterPassword globalSalt
  = Raise ValueError.
Proof.
  intros Hk Hl. rewrite decryptPBE_pbes2_item. cbn [assert Z.eqb Pos.eqb bind].
  rewrite Hk. cbn [bind]. unfold AES_CBC_decrypt.
  destruct (negb (bool_decide _)); [done |].
  assert ((len ([x04; x0e] ++ ivTail) =? 16) = false) as ->; [| done].
  apply Z.eqb_neq. unfold len in *. rewrite length_app. simpl. lia.
Qed.

(** What [decryptPBE] returns with a clear text carries one of the two
    identifiers it knows. *)
Lemma decryptPBE_algo decodedItem masterPassword globalSalt clearText algo :
  decryptPBE decodedItem masterPassword globalSalt = Ok (Some (clearText, algo)) ->
  algo = oid_pbeWithSha1AndTripleDES_CBC \/ algo = oid_pbes2.
Proof.
  unfold decryptPBE. intros H.
  apply bind_Ok in H as (pbeAlgo & _ & H).
  destruct (decide (pbeAlgo = oid_pbeWithSha1AndTripleDES_CBC)) as [-> | H3].
  { rewrite bool_decide_eq_true_2 in H by done.
    apply bind_Ok in H as (entrySalt & _ & H).
    apply bind_Ok in H as (cipherT & _ & H).
    apply bind_Ok in H as (key & _ & H).
    injection H as _ <-. by left. }
  rewrite bool_decide_eq_false_2 in H by done.
  destruct (decide (pbeAlgo = oid_pbes2)) as [-> | H2].
  2:{ rewrite bool_decide_eq_false_2 in H by done. discriminate. }
  rewrite bool_decide_eq_true_2 in H by done.
  repeat (apply bind_Ok in H as (? & _ & H)).
  injection H as _ <-. by right.
Qed.

(** The algorithms that [getKey] can return. *)
Lemma getKey_algo_cases (masterPassword : bytes) (directory : Directory)
    (key : option bytes) (algo : option string) :
  getKey masterPassword directory = Ok (key, algo) ->
  (key = None /\ algo = None)
  \/ algo = Some oid_pbeWithSha1AndTripleDES_CBC
  \/ algo = Some oid_pbes2.
Proof.
  unfold getKey. intros H.
  destruct (key4_db directory) as [db |].
  - destruct (select_password db) as [[globalSalt item2] |]; [| discriminate].
    apply bind_Ok in H as (out & _ & H).
    apply bind_Ok in H as (decodedItem2 & _ & H).
    apply bind_Ok in H as ([clearText0 algo0] & _ & H).
    destruct (bool_decide (clearText0 = password_check)).
    2:{ injection H as <- <-. by left. }
    destruct (select_a11 db) as [a11 |]; [| discriminate].
    apply bind_Ok in H as (out' & _ & H).
    apply bind_Ok in H as (decoded_a11 & _ & H).
    apply bind_Ok in H as ([clearText algo'] & Hu & H).
    apply bind_Ok in Hu as (r & Hpbe & Hu).
    destruct r as [[c a] |]; simpl in Hu; [| discriminate]. injection Hu as -> ->.
    injection H as _ <-. right.
    apply decryptPBE_algo in Hpbe as [-> | ->]; auto.
  - destruct (key3_db directory) as [content |]; [| discriminate].
    apply bind_Ok in H as (keyData & _ & H).
    apply bind_Ok in H as (k & _ & H).
    injection H as _ <-. auto.
Qed.

(** X15.  What [getKey] returns, path by path.  With a [key4.db] it is
    the pair [(None, None)] of the failed password check, or a key with
    the identifier of one of the two schemes; the algorithm is [None]
    exactly when the key is.  Without [key4.db] the algorithm is always
    the identifier of the triple-DES scheme, also when the key is
    [None].  So the test of [main] on the algorithm fails for
    [(None, None)] and for nothing else. *)
Theorem getKey_algo (masterPassword : bytes) (directory : Directory)
    (key : option bytes) (algo : option string) :
  getKey masterPassword directory = Ok (key, algo) ->
  match key4_db directory with
  | Some _ =>
      (key = None /\ algo = None)
      \/ (is_Some key /\
          (algo = Some oid_pbeWithSha1AndTripleDES_CBC \/ algo = Some oid_pbes2))
  | None => algo = Some oid_pbeWithSha1AndTripleDES_CBC
  end.
Proof.
  unfold getKey. intros H.
  destruct (key4_db directory) as [db |].
  - destruct (select_password db) as [[globalSalt item2] |]; [| discriminate].
    apply bind_Ok in H as (out & _ & H).
    apply bind_Ok in H as (decodedItem2 & _ & H).
    apply bind_Ok in H as ([clearText0 algo0] & _ & H).
    destruct (bool_decide (clearText0 = password_check)).
    2:{ injection H as <- <-. by left. }
    destruct (select_a11 db) as [a11 |]; [| discriminate].
    apply bind_Ok in H as (out' & _ & H).
    apply bind_Ok in H as (decoded_a11 & _ & H).
    apply bind_Ok in H as ([clearText algo'] & Hu & H).
    apply bind_Ok in Hu as (r & Hpbe & Hu).
    destruct r as [[c a] |]; simpl in Hu; [| discriminate]. injection Hu as -> ->.
    injection H as <- <-. right. split; [by eexists |].
    apply decryptPBE_algo in Hpbe as [-> | ->]; auto.
  - destruct (key3_db directory) as [content |]; [| discriminate].
    apply bind_Ok in H as (keyData & _ & H).
    apply bind_Ok in H as (k & _ & H).
    by injection H as _ <-.
Qed.

(** X16.  [extractSecretKey] needs the records [password-check] and
    [global-salt]: it raises [KeyError] when the first one is missing,
    and also when the second one is missing and the first one has the
    two bytes that are read from it before. *)
Theorem extractSecretKey_missing_record (masterPassword : bytes)
    (keyData : gmap bytes bytes) :
  keyData !! b_ "password-check" = None
  \/ (exists pwdCheck, keyData !! b_ "password-check" = Some pwdCheck
        /\ 2 <= len pwdCheck)
     /\ keyData !! b_ "global-salt" = None ->
  extractSecretKey masterPassword keyData = Raise KeyError.
Proof.
  intros [H | [(pwdCheck & Hp & Hl) Hg]]; unfold extractSecretKey, dict_getitem.
  - by rewrite H.
  - rewrite Hp. cbn [bind].
    destruct (getitem pwdCheck 1) as [entrySaltLen |] eqn:E1.
    + cbn [bind]. by rewrite Hg.
    + exfalso. destruct pwdCheck as [| a [| b r]];
        try (unfold len in Hl; simpl in Hl; lia).
      cbv in E1. discriminate.
Qed.

End DispatchAgain.

(** A PBES2 structure that names aes128-CBC. *)
Lemma decryptPBE_pbes2_other_parts_witness :
  decryptPBE (L := Toy.library)
    (pbes2_item_with arcs_PBKDF2 arcs_hmacWithSHA256 arcs_aes128_CBC
       (replicate 32 x00) 1 32 (replicate 14 x00) (replicate 16 x00), [])
    [] (b_ "salt")
  = Raise (AssertionError "").
Proof.
  apply (decryptPBE_pbes2_other_parts (L := Toy.library)).
  right. right. vm_compute. discriminate.
Defined.

(** A PBES2 structure whose IV has 16 bytes. *)
Lemma decryptPBE_pbes2_iv_length_witness :
  decryptPBE (L := Toy.library)
    (pbes2_item (replicate 32 x00) 1 32 (replicate 16 x00) (replicate 16 x00), [])
    [] (b_ "salt")
  = Raise ValueError.
Proof.
  apply (decryptPBE_pbes2_iv_length (L := Toy.library) _ _ _ _ _ _ _
           (Toy.digest 32 (Toy.hash (b_ "salt" ++ []) ++ replicate 32 x00 ++ [x01]))).
  - vm_compute. reflexivity.
  - vm_compute. discriminate.
Defined.

(** The modern store of [Stores] under the empty password. *)
Lemma getKey_algo_witness :
  (Some (b_ "ABCDEFGHIJKLMNOPQRSTUVWX") = None /\ Some oid_pbes2 = None)
  \/ (is_Some (Some (b_ "ABCDEFGHIJKLMNOPQRSTUVWX")) /\
      (Some oid_pbes2 = Some oid_pbeWithSha1AndTripleDES_CBC
       \/ Some oid_pbes2 = Some oid_pbes2)).
Proof.
  apply (getKey_algo (L := Toy.library) (I := python311) [] (Stores.key4 Stores.a11)).
  vm_compute. reflexivity.
Defined.

(** The empty store. *)
Lemma extractSecretKey_missing_record_witness :
  extractSecretKey (L := Toy.library) (I := python311) [] ∅ = Raise KeyError.
Proof.
  apply (extractSecretKey_missing_record (L := Toy.library) (I := python311)).
  left. apply lookup_empty.
Defined.

(** ** Saved logins *)

Lemma mapM_result_Ok {A B} (f : A -> result B) (l : list A) (bs : list B) :
  mapM_result f l = Ok bs <-> Forall2 (fun a b => f a = Ok b) l bs.
Proof.
  revert bs. induction l as [| a l IH]; intros bs; simpl.
  - split; [intros [= <-]; constructor | by inversion 1].
  - split.
    + intros H. apply bind_Ok in H as (b & Hb & H).
      apply bind_Ok in H as (bs' & Hbs & H). injection H as <-.
      constructor; [done | by apply IH].
    + inversion 1 as [| ? b ? bs' Hb Hbs]; subst. rewrite Hb. simpl.
      apply IH in Hbs. by rewrite Hbs.
Qed.

Section LoginsProperties.
Context {L : Library} {I : Interpreter} {P : LoginLibrary}.

(** X17.  On the structure quoted in its comment, [decodeLoginData]
    returns the key id, the IV and the encrypted bytes.  The value at
    the place of the object identifier of the cipher is not looked at,
    and neither are the bytes that follow the structure. *)
Theorem decodeLoginData_structure (s : string) (raw key_id iv ciphertext rest : bytes)
    (algorithm : asn1) :
  b64decode s = Ok raw ->
  der_decode raw = Ok (login_item key_id algorithm iv ciphertext, rest) ->
  decodeLoginData (JString s) = Ok (key_id, iv, ciphertext).
Proof.
  intros Hb Hd. unfold decodeLoginData. rewrite Hb. cbn [bind]. rewrite Hd. reflexivity.
Qed.

(** X19.  When [getLoginData] returns from [logins.json], the file
    holds an object with the key [logins], and the list returned has
    one login for each value that the iteration over [logins] gives,
    in the same order: the two decoded fields and the host name of the
    row. *)
Theorem getLoginData_rows (profile : Profile) (content : bytes) (logins : list login) :
  logins_json profile = Some content ->
  getLoginData profile = Ok logins ->
  exists items value rows,
    json_load content = Ok (JObject items) /\
    json_getitem (JObject items) "logins" = Ok value /\
    json_iter value = Ok rows /\
    Forall2 (fun row l => login_row row = Ok l) rows logins /\
    length logins = length rows.
Proof.
  intros Hj H. unfold getLoginData in H. rewrite Hj in H.
  apply bind_Ok in H as (jsonLogins & Hl & H).
  apply bind_Ok in H as (present & _ & H).
  apply bind_Ok in H as (u & _ & H).
  apply bind_Ok in H as (rows & Hr & H).
  apply bind_Ok in Hr as (value & Hv & Hr).
  apply mapM_result_Ok in H.
  destruct jsonLogins as [| | | | | items]; try discriminate.
  exists items, value, rows. repeat split; try done.
  symmetry. by eapply Forall2_length.
Qed.

(** X20.  A [logins.json] that holds an object without the key
    [logins] stops [getLoginData] at its [assert], with the message of
    the source. *)
Theorem getLoginData_no_logins_key (profile : Profile) (content : bytes)
    (items : list (string * json)) :
  logins_json profile = Some content ->
  json_load content = Ok (JObject items) ->
  "logins"%string ∉ items.*1 ->
  getLoginData profile = Raise (AssertionError no_logins_key).
Proof.
  intros Hj Hl Hn. unfold getLoginData. rewrite Hj, Hl. cbn [bind json_contains].
  by rewrite bool_decide_eq_false_2.
Qed.

(** ** The main function *)

(** On the modern path a failed password check gives [(None, None)]. *)
Lemma getKey_key4_None masterPassword directory db :
  key4_db directory = Some db ->
  key4_check_fails masterPassword db ->
  getKey masterPassword directory = Ok (None, None).
Proof.
  intros Hdb (globalSalt & item2 & out & decodedItem2 & clearText & algo &
              Hs & Hp & Hd & Hpbe & Hne).
  unfold getKey. rewrite Hdb, Hs, Hp. cbn [bind].
  rewrite Hd. cbn [bind]. rewrite Hpbe. cbn [bind unpack_pair].
  by rewrite bool_decide_eq_false_2.
Qed.

(** X21.  With a [key4.db] and a wrong master password, [main] ends
    without any error and without any credential: [getKey] returns
    [(None, None)], the test on the algorithm fails and the loop over
    the logins is skipped.  All that [main] prints is its first line. *)
Theorem main_wrong_password (masterPassword : bytes) (profile : Profile) (db : Key4Db)
    (logins : list login) :
  key4_db (key_stores profile) = Some db ->
  key4_check_fails masterPassword db ->
  getLoginData profile = Ok logins ->
  main masterPassword profile
    = Finished [if len logins =? 0 then no_stored_passwords else decrypting_pairs].
Proof.
  intros Hdb Hc Hg. unfold main.
  rewrite (getKey_key4_None _ _ _ Hdb Hc), Hg. reflexivity.
Qed.

(** X22.  With a [key3.db] and a wrong master password, [main] ends in
    [parser.error] with the message of the password check: the legacy
    path reports what the modern path passes over. *)
Theorem main_wrong_password_legacy (masterPassword : bytes) (profile : Profile)
    (content : bytes) (keyData : gmap bytes bytes) (cleartextData : bytes) :
  key4_db (key_stores profile) = None ->
  key3_db (key_stores profile) = Some content ->
  (readBsddb content).1 = Ok keyData ->
  key3_check_value masterPassword keyData = Ok cleartextData ->
  cleartextData <> password_check ->
  main masterPassword profile = Usage_error (RuntimeError password_check_error).
Proof.
  intros H4 H3 Hr Hc Hne. unfold main, getKey. rewrite H4, H3, Hr. cbn [bind].
  by rewrite (extractSecretKey_check_fails _ _ _ Hc Hne).
Qed.

(** X23.  A check value of [key4.db] that holds a PBES2 structure with
    a key length other than 32 makes [getKey] stop at the bare
    [assert keyLength == 32]; the exception has no argument, so the
    handler of [main] raises [IndexError] on [e.args[0]] and [main]
    ends with that exception instead of its error message. *)
Theorem main_bare_assert (masterPassword : bytes) (profile : Profile) (db : Key4Db)
    (globalSalt item2 : bytes) (out : option Z * string)
    (entrySalt : bytes) (iterationCount keyLength : Z) (ivTail cipherT rest : bytes) :
  key4_db (key_stores profile) = Some db ->
  select_password db = Some (globalSalt, item2) ->
  printASN1 item2 (len item2) 0 = Ok out ->
  der_decode item2
    = Ok (pbes2_item entrySalt iterationCount keyLength ivTail cipherT, rest) ->
  keyLength <> 32 ->
  getKey masterPassword (key_stores profile) = Raise (AssertionError "")
  /\ main masterPassword profile = Traceback IndexError.
Proof.
  intros Hdb Hs Hp Hd Hk.
  assert (getKey masterPassword (key_stores profile) = Raise (AssertionError "")) as Hg.
  { unfold getKey. rewrite Hdb, Hs, Hp. cbn [bind]. rewrite Hd. cbn [bind].
    by rewrite (decryptPBE_pbes2_key_length _ _ _ _ _ _ _ _ Hk). }
  split; [done |]. unfold main. by rewrite Hg.
Qed.

(** X24.  When [getKey] returns no key with an algorithm, which is
    what the legacy path does for a store without private key, [main]
    prints [no stored passwords] if there is no login, and otherwise
    ends with the [TypeError] of [DES3.new] on the key [None], at the
    first login whose key id is [CKA_ID]. *)
Theorem main_no_key (masterPassword : bytes) (profile : Profile) (algo : string) :
  getKey masterPassword (key_stores profile) = Ok (None, Some algo) ->
  (getLoginData profile = Ok [] ->
     main masterPassword profile = Finished [no_stored_passwords])
  /\ (forall iv ciphertext password hostname logins,
        getLoginData profile
          = Ok (((CKA_ID, iv, ciphertext), password, hostname) :: logins) ->
        main masterPassword profile = Traceback TypeError).
Proof.
  intros Hk.
  assert (bool_decide (Some algo = Some oid_pbeWithSha1AndTripleDES_CBC)
          || bool_decide (Some algo = Some oid_pbes2) = true) as Ha.
  { destruct (getKey_algo_cases _ _ _ _ Hk) as [[_ [=]] | [-> | ->]].
    - by rewrite bool_decide_eq_true_2.
    - rewrite (bool_decide_eq_true_2 (Some oid_pbes2 = Some oid_pbes2)) by done.
      apply orb_true_r. }
  split.
  - intros Hg. unfold main. rewrite Hk, Hg, Ha. reflexivity.
  - intros iv ciphertext password hostname logins Hg.
    unfold main. rewrite Hk, Hg, Ha. cbn [main_logins decrypt_field].
    rewrite bool_decide_eq_true_2 by done. reflexivity.
Qed.

Context {laws : LibraryLaws L}.

Lemma decrypt_field_encrypts key f clear :
  encrypts key f clear -> decrypt_field (Some key) f = Ok clear.
Proof.
  intros (iv & padded & ciphertext & -> & He & Hu). unfold decrypt_field.
  rewrite bool_decide_eq_true_2 by done. cbn [assert bind].
  rewrite (DES3_CBC_round_trip _ _ _ _ He). cbn [bind]. exact Hu.
Qed.

Lemma main_logins_saves key logins lines :
  Forall2 (saves key) logins lines -> main_logins (Some key) logins = Ok lines.
Proof.
  induction 1 as [| [[fu fp] h'] line logins lines (h & u & p & Hh & -> & Hu & Hp) _ IH];
    [done |].
  simpl in Hh, Hu, Hp. subst h'. cbn [main_logins].
  rewrite (decrypt_field_encrypts _ _ _ Hu). cbn [bind].
  rewrite (decrypt_field_encrypts _ _ _ Hp). cbn [bind].
  rewrite IH. reflexivity.
Qed.

(** X25.  When [getKey] returns a key and every login of
    [logins.json] was saved under that key (key id [CKA_ID], fields
    encrypted by triple DES in CBC mode, padded so that [unpad] gives
    the text back), [main] prints its first line and then, for each
    login in the order of the file, the host name with the user name
    and the password in clear. *)
Theorem main_prints_credentials (masterPassword : bytes) (profile : Profile)
    (key : bytes) (algo : option string) (logins : list login) (lines : list printed) :
  getKey masterPassword (key_stores profile) = Ok (Some key, algo) ->
  getLoginData profile = Ok logins ->
  Forall2 (saves key) logins lines ->
  main masterPassword profile
    = Finished ((if len logins =? 0 then no_stored_passwords else decrypting_pairs)
                :: lines).
Proof.
  intros Hk Hg Hs. unfold main. rewrite Hk, Hg.
  assert (bool_decide (algo = Some oid_pbeWithSha1AndTripleDES_CBC)
          || bool_decide (algo = Some oid_pbes2) = true) as ->.
  { destruct (getKey_algo_cases _ _ _ _ Hk) as [[[=] _] | [-> | ->]].
    - by rewrite bool_decide_eq_true_2.
    - rewrite (bool_decide_eq_true_2 (Some oid_pbes2 = Some oid_pbes2)) by done.
      apply orb_true_r. }
  by rewrite (main_logins_saves _ _ _ Hs).
Qed.

End LoginsProperties.

(** ** The login properties on the concrete profiles *)

(** The user name of [Profiles.logins_file]. *)
Lemma decodeLoginData_structure_witness :
  decodeLoginData (L := Toy.library) (P := ToyLogins.library)
    (JString Profiles.encryptedUsername)
  = Ok (CKA_ID, hex "0102030405060708", hex "212c292325434343").
Proof.
  apply (decodeLoginData_structure (L := Toy.library) (P := ToyLogins.library) _
           (match ToyLogins.decode64 Profiles.encryptedUsername with
            | Ok raw => raw
            | Raise _ => []
            end)
           _ _ _ [] (ObjectIdentifier arcs_des_ede3_cbc)).
  - vm_compute. reflexivity.
  - vm_compute. reflexivity.
Defined.

Lemma Profiles_logins_file :
  getLoginData (L := Toy.library) (I := python311) (P := ToyLogins.library)
    (Profiles.profile (Stores.key4 Stores.a11) Profiles.logins_file)
  = Ok [Profiles.saved_login].
Proof. vm_compute. reflexivity. Qed.

(** The file [Profiles.logins_file]: one row, one login. *)
Lemma getLoginData_rows_witness :
  exists items value rows,
    json_load (LoginLibrary := ToyLogins.library) Profiles.logins_file = Ok (JObject items) /\
    json_getitem (JObject items) "logins" = Ok value /\
    json_iter value = Ok rows /\
    Forall2 (fun row l => login_row (L := Toy.library) (P := ToyLogins.library) row = Ok l)
      rows [Profiles.saved_login] /\
    length [Profiles.saved_login] = length rows.
Proof.
  apply (getLoginData_rows (L := Toy.library) (I := python311) (P := ToyLogins.library)
           (Profiles.profile (Stores.key4 Stores.a11) Profiles.logins_file)
           Profiles.logins_file [Profiles.saved_login]).
  - reflexivity.
  - apply Profiles_logins_file.
Defined.

(** The file [Profiles.logins_file_no_key]. *)
Lemma getLoginData_no_logins_key_witness :
  getLoginData (L := Toy.library) (I := python311) (P := ToyLogins.library)
    (Profiles.profile (Stores.key4 Stores.a11) Profiles.logins_file_no_key)
  = Raise (AssertionError no_logins_key).
Proof.
  apply (getLoginData_no_logins_key (L := Toy.library) (I := python311) (P := ToyLogins.library) _
           Profiles.logins_file_no_key [("nextId"%string, JNumber "1")]).
  - reflexivity.
  - vm_compute. reflexivity.
  - simpl. rewrite elem_of_cons, elem_of_nil. intros [H | []]. discriminate H.
Defined.

(** The modern store under the password [b'wrong'], with one saved
    login: nothing but the first line. *)
Lemma main_wrong_password_witness :
  main (L := Toy.library) (I := python311) (P := ToyLogins.library) (b_ "wrong")
    (Profiles.profile (Stores.key4 Stores.a11) Profiles.logins_file)
  = Finished [decrypting_pairs].
Proof.
  apply (main_wrong_password (L := Toy.library) (I := python311) (P := ToyLogins.library)
           (b_ "wrong")
           (Profiles.profile (Stores.key4 Stores.a11) Profiles.logins_file)
           {| metadata := [("password"%string, b_ "salt", Stores.item2)];
              nssPrivate := [(Some Stores.a11, CKA_ID)] |}
           [Profiles.saved_login]).
  - reflexivity.
  - eexists _, _, _, _, _, _.
    split; [reflexivity |].
    split; [vm_compute; reflexivity |].
    split; [vm_compute; reflexivity |].
    split; [vm_compute; reflexivity |].
    vm_compute. discriminate.
  - apply Profiles_logins_file.
Defined.

(** The legacy store under the password [b'wrong']: the message of the
    password check. *)
Lemma main_wrong_password_legacy_witness :
  main (L := Toy.library) (I := python311) (P := ToyLogins.library) (b_ "wrong")
    (Profiles.profile (Stores.key3 Stores.key3_file) Profiles.logins_file)
  = Usage_error (RuntimeError password_check_error).
Proof.
  apply (main_wrong_password_legacy (L := Toy.library) (I := python311)
           (P := ToyLogins.library) (b_ "wrong")
           (Profiles.profile (Stores.key3 Stores.key3_file) Profiles.logins_file)
           Stores.key3_file (Stores.key3_data Stores.key3_file)
           (match key3_check_value (L := Toy.library) (b_ "wrong")
                    (Stores.key3_data Stores.key3_file) with
            | Ok clear => clear
            | Raise _ => []
            end)).
  - reflexivity.
  - reflexivity.
  - apply key3_data_Ok. vm_compute. reflexivity.
  - vm_compute. reflexivity.
  - vm_compute. discriminate.
Defined.

(** The modern store whose check value asks for a key of 16 bytes. *)
Lemma main_bare_assert_witness :
  getKey (L := Toy.library) (I := python311) [] Profiles.key4_key16 = Raise (AssertionError "")
  /\ main (L := Toy.library) (I := python311) (P := ToyLogins.library) []
       (Profiles.profile Profiles.key4_key16 Profiles.logins_file)
     = Traceback IndexError.
Proof.
  apply (main_bare_assert (L := Toy.library) (I := python311) (P := ToyLogins.library) []
           (Profiles.profile Profiles.key4_key16 Profiles.logins_file)
           {| metadata := [("password"%string, b_ "salt", Profiles.item2_key16)];
              nssPrivate := [(Some Stores.a11, CKA_ID)] |}
           (b_ "salt") Profiles.item2_key16
           (match printASN1 (I := python311) Profiles.item2_key16
                    (len Profiles.item2_key16) 0 with
            | Ok out => out
            | Raise _ => (None, EmptyString)
            end)
           (hex "101112131415161718191a1b1c1d1e1f202122232425262728292a2b2c2d2e2f")
           1 16 (hex "a0a1a2a3a4a5a6a7a8a9aaabacad")
           (hex "661d01e0473e847399b612fe5b32fc1d") []).
  - reflexivity.
  - reflexivity.
  - vm_compute. reflexivity.
  - vm_compute. reflexivity.
  - lia.
Defined.

(** The legacy store without private key, with one saved login. *)
Lemma main_no_key_witness :
  main (L := Toy.library) (I := python311) (P := ToyLogins.library) []
    (Profiles.profile (Stores.key3 Stores.key3_no_key) Profiles.logins_file)
  = Traceback TypeError.
Proof.
  destruct (main_no_key (L := Toy.library) (I := python311) (P := ToyLogins.library) []
              (Profiles.profile (Stores.key3 Stores.key3_no_key) Profiles.logins_file)
              oid_pbeWithSha1AndTripleDES_CBC) as [_ H].
  - vm_compute. reflexivity.
  - apply (H (hex "0102030405060708") (hex "212c292325434343")
             (CKA_ID, hex "1112131415161718", hex "333f2222353324701a1213151576603b")
             (JString "https://example.org") []).
    vm_compute. reflexivity.
Defined.

(** The modern store under the empty password, with one saved login:
    the host, [b'alice'] and [b'correct horse']. *)
Lemma main_prints_credentials_witness :
  main (L := Toy.library) (I := python311) (P := ToyLogins.library) []
    (Profiles.profile (Stores.key4 Stores.a11) Profiles.logins_file)
  = Finished [decrypting_pairs;
              credential (JString "https://example.org") (b_ "alice") (b_ "correct horse")].
Proof.
  apply (main_prints_credentials (L := Toy.library) (I := python311) (P := ToyLogins.library)
           (laws := toy_laws) []
           (Profiles.profile (Stores.key4 Stores.a11) Profiles.logins_file)
           (b_ "ABCDEFGHIJKLMNOPQRSTUVWX") (Some oid_pbes2) [Profiles.saved_login]).
  - vm_compute. reflexivity.
  - apply Profiles_logins_file.
  - constructor; [| constructor].
    exists (JString "https://example.org"), (b_ "alice"), (b_ "correct horse").
    split; [reflexivity |]. split; [reflexivity |]. split.
    + exists (hex "0102030405060708"), (b_ "alice" ++ [x03; x03; x03]),
        (hex "212c292325434343").
      split; [reflexivity |]. split; vm_compute; reflexivity.
    + exists (hex "1112131415161718"), (b_ "correct horse" ++ [x03; x03; x03]),
        (hex "333f2222353324701a1213151576603b").
      split; [reflexivity |]. split; vm_compute; reflexivity.
Defined.

(** ** One page of a legacy store *)

(** A read of [n] bytes at the position [p]. *)
Lemma f_read_at content n p rd :
  0 <= p -> 0 <= n ->
  f_read content n (Handle p rd)
    = (Ok (slice content p (p + n)),
       Handle (p + len (slice content p (p + n))) (rd ++ [(p, n)])).
Proof.
  intros Hp Hn. unfold f_read. simpl pos. simpl reads.
  destruct (Z.ltb_spec n 0); [lia |].
  rewrite slice_min by lia. done.
Qed.

(** The walk over a table that lists [offs]. *)
Lemma readBsddb_offsets_table table pagesize page (offs : list (Z * Z)) :
  forall fuel i top nval val keys readkeys offsetVals,
    (length offs <= fuel)%nat ->
    table_lists table i offs -> offsets_ordered top offs ->
    match offs with
    | [] => nval = val
    | (_, v) :: _ => nval <> val
    end ->
    readBsddb_offsets fuel table pagesize page i nval val keys readkeys offsetVals
      = Ok (keys + len offs, readkeys + len offs,
            offsetVals ++ flat_map (fun kv => [kv.1 + pagesize * page;
                                               kv.2 + pagesize * page]) offs).
Proof.
  induction offs as [| [k v] offs IH];
    intros fuel i top nval val keys readkeys offsetVals Hf Ht Ho Hn.
  - subst nval. destruct fuel; cbn [readBsddb_offsets];
      rewrite bool_decide_eq_false_2 by (intros H; by apply H);
      unfold len; simpl; rewrite app_nil_r; do 3 f_equal; lia.
  - destruct fuel as [| fuel]; [simpl in Hf; lia |].
    cbn [readBsddb_offsets]. rewrite bool_decide_eq_true_2 by done.
    destruct Ht as (Hk & Hv & Hlast & Ht). destruct Ho as (Hv0 & Hvk & Hkt & Hvt & Ho).
    rewrite Hk, Hv. cbn [bind].
    assert (exists nval', getShortLE table (8 + i) = Ok nval' /\
              match offs with
              | [] => nval' = v
              | (_, v') :: _ => nval' <> v
              end) as (nval' & -> & Hn').
    { destruct offs as [| [k' v'] offs'].
      - exists v. done.
      - destruct Ht as (_ & Hv' & _). destruct Ho as (_ & _ & _ & Hlt & _).
        exists v'. replace (8 + i) with (4 + (i + 4)) by lia. split; [done | lia]. }
    cbn [bind].
    rewrite (IH fuel (i + 4) v nval' v (keys + 1) (readkeys + 1) _ ltac:(simpl in Hf; lia)
               Ht Ho Hn').
    unfold len. simpl. rewrite <- !app_assoc. simpl.
    do 3 f_equal; lia.
Qed.

Lemma Sorted_snoc_le (l : list Z) (a b : Z) :
  Sorted Z.le (l ++ [a]) -> a <= b -> Sorted Z.le (l ++ [a; b]).
Proof.
  intros Hs Hab. induction l as [| x l IH]; simpl in *.
  - repeat constructor. done.
  - apply Sorted_inv in Hs as [Hs Hh]. constructor; [by apply IH |].
    destruct l; simpl in *; inversion Hh; by constructor.
Qed.

Lemma ascending_Sorted base (offs : list (Z * Z)) : forall top,
  offsets_ordered top offs -> Sorted Z.le (ascending base offs ++ [top + base]).
Proof.
  induction offs as [| [k v] offs IH]; intros top Ho; simpl.
  - repeat constructor.
  - destruct Ho as (Hv0 & Hvk & Hkt & Hvt & Ho).
    rewrite <- app_assoc. simpl.
    change (ascending base offs ++ [v + base; k + base; top + base])
      with (ascending base offs ++ [v + base] ++ [k + base; top + base]).
    specialize (IH v Ho).
    apply (Sorted_snoc_le _ _ (k + base)) in IH; [| lia].
    replace (ascending base offs ++ [v + base] ++ [k + base; top + base])
      with ((ascending base offs ++ [v + base]) ++ [k + base; top + base])
      by (by rewrite <- app_assoc).
    apply Sorted_snoc_le; [| lia]. by rewrite <- app_assoc.
Qed.

Lemma ascending_Permutation base (offs : list (Z * Z)) :
  ascending base offs ≡ₚ flat_map (fun kv => [kv.1 + base; kv.2 + base]) offs.
Proof.
  induction offs as [| [k v] offs IH]; simpl; [done |].
  rewrite IH. rewrite (Permutation_app_comm _ [v + base; k + base]). simpl.
  apply perm_swap.
Qed.

(** What [sorted] makes of the offsets that [readBsddb] collects. *)
Lemma merge_sort_offsets base top (offs : list (Z * Z)) :
  offsets_ordered top offs ->
  merge_sort Z.le (flat_map (fun kv => [kv.1 + base; kv.2 + base]) offs ++ [top + base])
    = ascending base offs ++ [top + base].
Proof.
  intros Ho. apply (Sorted_unique Z.le).
  - apply Sorted_merge_sort; apply _.
  - by apply ascending_Sorted.
  - rewrite merge_sort_Permutation. by rewrite ascending_Permutation.
Qed.

Lemma list_getitem_app (pre rest : list Z) (a : Z) :
  list_getitem (pre ++ a :: rest) (len pre) = Ok a.
Proof.
  unfold list_getitem, len. destruct (Z.ltb_spec (Z.of_nat (length pre)) 0); [lia |].
  destruct (Z.ltb_spec (Z.of_nat (length pre)) 0); [lia |].
  rewrite Nat2Z.id. by rewrite (list_lookup_middle pre rest a _ eq_refl).
Qed.

(** The loop over the sorted offsets reads the bytes between each
    offset and the next one. *)
Lemma readBsddb_records_pieces content (rest : list Z) : forall pre db1 h,
  Forall (Z.le 0) rest -> Sorted Z.le rest ->
  exists h',
    readBsddb_records content (pre ++ rest)
      (Z.of_nat <$> seq (length pre) (length rest - 1)) db1 h
      = (Ok (db1 ++ pieces content rest), h').
Proof.
  induction rest as [| a rest IH]; intros pre db1 h Hpos Hs.
  - exists h. simpl. by rewrite app_nil_r.
  - destruct rest as [| b rest].
    + exists h. simpl. by rewrite app_nil_r.
    + apply Forall_cons in Hpos as [Ha Hpos].
      apply Sorted_inv in Hs as [Hs Hab]. apply HdRel_inv in Hab.
      replace (length (a :: b :: rest) - 1)%nat with (S (length (b :: rest) - 1))
        by (simpl; lia).
      cbn [seq fmap list_fmap]. cbn [readBsddb_records].
      unfold io_bind at 1. unfold io_lift at 1.
      change (Z.of_nat (length pre)) with (len pre). rewrite list_getitem_app.
      cbv beta iota. unfold io_bind at 1. unfold f_seek at 1.
      destruct (Z.ltb_spec a 0); [lia |]. cbv beta iota.
      unfold io_bind at 1. unfold io_lift at 1.
      replace (pre ++ a :: b :: rest) with ((pre ++ [a]) ++ b :: rest)
        by (by rewrite <- app_assoc).
      replace (len pre + 1) with (len (pre ++ [a]))
        by (unfold len; rewrite length_app; simpl; lia).
      rewrite list_getitem_app. cbv beta iota.
      unfold io_bind at 1. rewrite f_read_at by lia.
      replace (a + (b - a)) with b by lia. cbv beta iota.
      replace (S (length pre)) with (length (pre ++ [a]))
        by (rewrite length_app; simpl; lia).
      destruct (IH (pre ++ [a]) (db1 ++ [slice content a b])
                  (Handle (a + len (slice content a b)) (reads h ++ [(a, b - a)]))
                  Hpos Hs) as (h' & ->).
      exists h'. cbn [pieces]. by rewrite <- app_assoc.
Qed.

Lemma pieces_snoc content (l : list Z) (a b : Z) :
  pieces content (l ++ [a; b]) = pieces content (l ++ [a]) ++ [slice content a b].
Proof.
  induction l as [| x l IH]; [done |].
  destruct l as [| y l]; [done |].
  change (pieces content ((x :: y :: l) ++ [a; b]))
    with (slice content x y :: pieces content ((y :: l) ++ [a; b])).
  rewrite IH. done.
Qed.

(** The pieces between the offsets of a page are its records, the last
    one of the table first, each value before its key. *)
Lemma pieces_ascending content base (offs : list (Z * Z)) : forall top,
  pieces content (ascending base offs ++ [top + base])
    = flat_map (fun kv => [kv.2; kv.1]) (reverse (page_records content base top offs)).
Proof.
  induction offs as [| [k v] offs IH]; intros top; [done |].
  cbn [ascending page_records]. rewrite reverse_cons, flat_map_app. simpl.
  rewrite <- IH, <- !app_assoc. simpl.
  replace (ascending base offs ++ [v + base; k + base; top + base])
    with ((ascending base offs ++ [v + base]) ++ [k + base; top + base])
    by (by rewrite <- app_assoc).
  rewrite pieces_snoc, <- app_assoc. simpl.
  replace (ascending base offs ++ [v + base; k + base])
    with (ascending base offs ++ [v + base; k + base]) by done.
  rewrite pieces_snoc, <- app_assoc. simpl.
  by rewrite !(Z.add_comm base).
Qed.

Lemma ascending_nonneg base (offs : list (Z * Z)) : forall top,
  0 <= base -> offsets_ordered top offs -> Forall (Z.le 0) (ascending base offs).
Proof.
  induction offs as [| [k v] offs IH]; intros top Hb Ho; simpl; [constructor |].
  destruct Ho as (Hv0 & Hvk & Hkt & Hvt & Ho).
  apply Forall_app. split; [by apply (IH v) |].
  repeat constructor; lia.
Qed.

Lemma length_ascending base (offs : list (Z * Z)) :
  length (ascending base offs) = (2 * length offs)%nat.
Proof. induction offs as [| [k v] offs IH]; simpl; [done |]. rewrite length_app. simpl. lia. Qed.

(** The last loop on the records of a page, the last one first. *)
Lemma readBsddb_dict_reverse (kvs : list (bytes * bytes)) : forall db,
  readBsddb_dict (flat_map (fun kv => [kv.2; kv.1]) (reverse kvs)) db
    = Ok (list_to_map kvs ∪ db).
Proof.
  induction kvs as [| [k v] kvs IH]; intros db.
  - simpl. by rewrite (left_id_L ∅ (∪)).
  - rewrite reverse_cons, flat_map_app. simpl.
    assert (forall l db0, readBsddb_dict (l ++ [v; k]) db0
              = db' <- readBsddb_dict l db0; Ok (<[k := v]> db')) as Happ.
    { clear. intros l. induction l as [l IHl] using (induction_ltof1 _ (@length bytes)).
      unfold ltof in IHl. intros db0. destruct l as [| y [| z l]]; [done | done |].
      simpl. apply IHl. simpl. lia. }
    rewrite Happ, IH. simpl. f_equal.
    by rewrite insert_union_l.
Qed.


(** X26.  A legacy store of one page.  When the header is good and
    counts as many keys as the table of the page at [pagesize] lists
    pairs of offsets, going down from the end of the page, [readBsddb]
    returns the dictionary of the records that these offsets cut out of
    the file: the key of a pair runs from its key offset up to
    the value offset of the pair before (the end of the page for the
    first pair), its value from its value offset up to its key
    offset. *)
Theorem readBsddb_one_page (content : bytes) (pagesize : Z) (offs : list (Z * Z)) :
  getLongBE (header content) 0 = Ok 0x61561 ->
  getLongBE (header content) 4 = Ok 2 ->
  getLongBE (header content) 12 = Ok pagesize ->
  getLongBE (header content) 0x38 = Ok (len offs) ->
  offs <> [] ->
  table_lists (slice content pagesize (pagesize + ((len offs + 1) * 4 + 2))) 0 offs ->
  offsets_ordered pagesize offs ->
  (readBsddb content).1
    = Ok (list_to_map (page_records content pagesize pagesize offs)).
Proof.
  intros Hm Hv Hp Hn Hne Ht Ho.
  pose proof (getLongBE_Ok_nonneg _ _ _ Hp) as Hp0.
  assert (0 < len offs) as Hlen by (destruct offs; [done | unfold len; simpl; lia]).
  assert (exists h, readBsddb_file content open_rb
            = (Ok (pieces content (ascending pagesize offs ++ [pagesize + pagesize])), h))
    as (h & Hf).
  { unfold readBsddb_file.
    unfold io_bind at 1. rewrite f_read_header. cbv beta iota.
    unfold io_bind at 1. unfold io_lift at 1. rewrite Hm. cbv beta iota.
    change (negb (398689 =? 398689)) with false. cbv iota.
    unfold io_bind at 1. unfold io_lift at 1. rewrite Hv. cbv beta iota.
    change (negb (2 =? 2)) with false. cbv iota.
    unfold io_bind at 1. unfold io_lift at 1. rewrite Hp. cbv beta iota.
    unfold io_bind at 1. unfold io_lift at 1. rewrite Hn. cbv beta iota.
    destruct (Z.to_nat (len offs)) as [| fuel] eqn:Ef; [lia |].
    cbn [readBsddb_pages]. destruct (Z.ltb_spec 0 (len offs)); [| lia].
    unfold io_bind at 1. unfold f_seek at 1.
    destruct (Z.ltb_spec (pagesize * 1) 0); [lia |]. cbv beta iota.
    unfold io_bind at 1. rewrite f_read_at by lia. cbv beta iota.
    unfold io_bind at 1. unfold io_lift at 1.
    rewrite !Z.mul_1_r.
    rewrite (readBsddb_offsets_table _ pagesize 1 offs (S (Z.to_nat (len offs))) 0 pagesize 0 1 0 0 []
               ltac:(unfold len; lia) Ht Ho ltac:(destruct offs as [| [? ?] ?]; done)).
    cbv beta iota. rewrite app_nil_l.
    replace (pagesize * (1 + 1)) with (pagesize + pagesize * 1) by lia.
    rewrite (merge_sort_offsets (pagesize * 1) pagesize offs Ho). rewrite !Z.mul_1_r.
    pose proof (readBsddb_records_pieces content
                  (ascending pagesize offs ++ [pagesize + pagesize]) [] []) as Hr.
    rewrite app_nil_l in Hr.
    replace (range ((0 + len offs) * 2))
      with (Z.of_nat <$> seq (length (@nil Z))
              (length (ascending pagesize offs ++ [pagesize + pagesize]) - 1)).
    2:{ unfold range. rewrite length_app, length_ascending. simpl length.
        do 2 f_equal. unfold len. lia. }
    unfold io_bind at 1.
    match goal with |- context [readBsddb_records _ _ _ [] ?hh] =>
      destruct (Hr hh) as (h' & ->) end.
    { apply Forall_app. split; [apply (ascending_nonneg _ _ pagesize); [lia | done] |].
      repeat constructor. lia. }
    { by apply ascending_Sorted. }
    cbv beta iota. rewrite app_nil_l.
    destruct fuel; cbn [readBsddb_pages];
      (destruct (Z.ltb_spec (0 + len offs) (len offs)); [lia |]); by eexists. }
  unfold readBsddb. rewrite Hf. cbn [fst].
  rewrite pieces_ascending, readBsddb_dict_reverse.
  rewrite (right_id_L ∅ (∪)). done.
Qed.


(** The store [Stores.key3_file]: one page of [0x100] bytes with three
    records. *)
Lemma readBsddb_one_page_witness :
  (readBsddb Stores.key3_file).1
    = Ok (list_to_map (page_records Stores.key3_file 0x100 0x100 key3_file_offsets)).
Proof.
  apply (readBsddb_one_page Stores.key3_file 0x100 key3_file_offsets).
  - vm_compute; reflexivity.
  - vm_compute; reflexivity.
  - vm_compute; reflexivity.
  - vm_compute; reflexivity.
  - discriminate.
  - repeat split; vm_compute; reflexivity.
  - repeat split; vm_compute; congruence.
Defined.
